(** * Delivery Risk Intelligence Platform: a shallow embedding

    This development models the monitoring dashboard [app/streamlit_app.py]
    (one script run as a state-and-halt monad over the rendered page and the
    prediction log file), the RFM table of [src/rfm_segmentation.py] and the
    target labelling of [src/feature_engineering.py].

    Numbers: Python floats used as slider values, thresholds, probabilities and
    money are modelled as exact rationals [Q], except in the revenue share
    computation, which is written once over an abstract arithmetic and
    instantiated both at [Q] and at IEEE-754 binary64 ([PrimFloat.float]). *)

From stdpp Require Import base list sets strings sorting pretty.
From Stdlib Require Import QArith Lqa ZArith String Floats.

Local Open Scope string_scope.

(* ================================================================== *)
(** ** Cells, one-row data frames and the CSV log file *)
(* ================================================================== *)

(** A pandas cell: an int, a float, a string, a tz-aware timestamp (seconds
    since the epoch) or a missing value. [CJoined a b] is the field read back
    from a CSV line in which the text of field [a] runs straight into the
    text of field [b] (appended text after a last line with no line break). *)
Inductive cell :=
| CInt (z : Z)
| CFloat (q : Q)
| CStr (s : string)
| CTime (t : Z)
| CNaN
| CJoined (a b : cell).

(** A one-row [pd.DataFrame]: its columns in order, each with the row's value.
    Every frame the dashboard builds ([input_data], [log_entry]) has one row. *)
Definition frame := list (string * cell).

Fixpoint col_lookup (c : string) (f : frame) : option cell :=
  match f with
  | [] => None
  | (c', v) :: f' => if String.eqb c c' then Some v else col_lookup c f'
  end.

(** [df[c] = v]: overwrite the column where it exists, otherwise append a new
    last column. *)
Definition set_col (f : frame) (c : string) (v : cell) : frame :=
  if existsb (fun cv => String.eqb c cv.1) f
  then map (fun cv => if String.eqb c cv.1 then (c, v) else cv) f
  else (f ++ [(c, v)])%list.

(** [df.reindex(columns=cols)]: the listed columns in that order; a column the
    frame lacks is filled with NaN. *)
Definition reindex (cols : list string) (f : frame) : frame :=
  map (fun c => (c, default CNaN (col_lookup c f))) cols.

(** A line of a CSV file written by [DataFrame.to_csv(index=False)], which
    ends every line it writes with a line break. [NoEOL l] is the text of [l]
    with no line break after it: the last line of a file that was not
    written by [to_csv] or was cut short. *)
Inductive line :=
| Header (names : list string)
| Data (cells : list cell)
| NoEOL (l : line).

(** The lines [to_csv] produces for a one-row frame. *)
Definition csv_lines (header : bool) (f : frame) : list line :=
  ((if header then [Header (map fst f)] else []) ++ [Data (map snd f)])%list.

(** The file [logs/prediction_log.csv]: [None] when it does not exist. Its
    text is the texts of its lines in order. *)
Definition log_file := option (list line).

(** Whether a line of the file ends with a line break. *)
Definition ends_line (l : line) : bool :=
  match l with NoEOL _ => false | _ => true end.

(** Whether the file's text ends with a line break (an empty file does). *)
Definition ends_with_eol (ls : list line) : bool :=
  match last ls with Some l => ends_line l | None => true end.

Definition os_path_exists (fs : log_file) : bool :=
  match fs with Some _ => true | None => false end.

(** [to_csv(path, mode=...)]: mode "a" appends the new text to the existing
    text (creating the file if needed), mode "w" truncates. *)
Inductive open_mode := ModeA | ModeW.

Definition to_csv (f : frame) (mode : open_mode) (header : bool)
    (fs : log_file) : log_file :=
  match mode, fs with
  | ModeA, Some ls => Some (ls ++ csv_lines header f)%list
  | _, _ => Some (csv_lines header f)
  end.

(** The frame [log_entry] of [log_prediction], lines 74-77. *)
Definition make_log_entry (input_data : frame) (probability : Q)
    (risk_level : string) (now : Z) : frame :=
  let log_entry := input_data in
  let log_entry := set_col log_entry "probability" (CFloat probability) in
  let log_entry := set_col log_entry "risk_level" (CStr risk_level) in
  set_col log_entry "timestamp" (CTime now).

(** [log_prediction(input_data, probability, risk_level)], lines 70-83, at the
    clock value [now] returned by [datetime.now(timezone.utc)].  The body of
    [with log_lock:] runs in the script's thread; the lock itself is not
    modelled. *)
Definition log_prediction (input_data : frame) (probability : Q)
    (risk_level : string) (now : Z) (fs : log_file) : log_file :=
  let log_entry := make_log_entry input_data probability risk_level now in
  if os_path_exists fs
  then to_csv log_entry ModeA false fs
  else to_csv log_entry ModeW true fs.

(* ================================================================== *)
(** ** The dashboard's environment: loaded resources, widgets, clock *)
(* ================================================================== *)

(** A library call that may raise: [inl msg] is the exception's message. *)
Definition except (A : Type) := (string + A)%type.

(** What [explainer.shap_values(X)] returns: a list with one array per class,
    or a single array. *)
Inductive shap_out :=
| ShapList (per_class : list (list (list Q)))
| ShapArray (rows : list (list Q)).

Record Model := {
  feature_name_ : list string;
  predict_proba : frame -> except (list (list Q))
}.

Record Explainer := {
  shap_values : frame -> except shap_out
}.

(** The triple returned by [load_resources] (memoised by [st.cache_resource]). *)
Record Resources := {
  res_model : Model;
  res_explainer : Explainer;
  importance_df : list (string * Q)
}.

(** The values the sidebar widgets return in this run. *)
Record Inputs := {
  medium_threshold : Q;
  high_threshold : Q;
  purchase_hour : Z;
  purchase_dayofweek : Z;
  purchase_month : Z;
  approval_delay_hours : Q;
  carrier_delay_hours : Q;
  estimated_delivery_days : Q;
  total_payment_value : Q;
  payment_installments : Z;
  predict_button : bool
}.

(** One script run: the outcome of loading the resources, the widget values
    and the clock read by [datetime.now]. *)
Record Env := {
  load_result : except Resources;
  inputs : Inputs;
  clock : Z
}.

(** Elements rendered on the page, in order. Formatted numbers are kept as
    the value being formatted. *)
Inductive ui :=
| Markdown (text : string)
| Divider
| Widget (label : string)
| Error (msg : string)
| Warning (msg : string)
| Success (msg : string)
| Info (msg : string)
| Subheader (title : string)
| Metric (label : string) (value : cell)
| Chart (title : string)
| Title (text : string)
| Heading (text : string)
| Text (body : string)
| Dataframe.

(* ================================================================== *)
(** ** The script monad: page output, log file, halting *)
(* ================================================================== *)

Record St := {
  page : list ui;
  log : log_file
}.

(** A piece of the script: it either continues with a value ([Some]) or the
    run halts ([None]: [st.stop()] or an uncaught exception). *)
Definition script (A : Type) := St -> option A * St.

Global Instance script_ret : MRet script := fun A a s => (Some a, s).
Global Instance script_bind : MBind script := fun A B k m s =>
  match m s with
  | (Some a, s') => k a s'
  | (None, s') => (None, s')
  end.

Definition emit (u : ui) : script unit :=
  fun s => (Some tt, {| page := (page s ++ [u])%list; log := log s |}).

Definition st_stop {A} : script A := fun s => (None, s).

Definition update_log (f : log_file -> log_file) : script unit :=
  fun s => (Some tt, {| page := page s; log := f (log s) |}).

Definition read_log : script log_file := fun s => (Some (log s), s).

(** [st.error(msg); st.stop()] *)
Definition error_and_stop {A} (msg : string) : script A :=
  emit (Error msg) ;; st_stop.

(* ================================================================== *)
(** ** app/streamlit_app.py, top to bottom *)
(* ================================================================== *)

(** [load_resources()], lines 49-58. *)
Definition load_resources (e : Env) : script Resources :=
  match load_result e with
  | inr r => mret r
  | inl err => error_and_stop ("Model loading failed: " ++ err)
  end.

(** [input_data], lines 135-144, before reordering. *)
Definition input_frame (i : Inputs) : frame :=
  [("purchase_hour", CInt (purchase_hour i));
   ("purchase_dayofweek", CInt (purchase_dayofweek i));
   ("purchase_month", CInt (purchase_month i));
   ("approval_delay_hours", CFloat (approval_delay_hours i));
   ("carrier_delay_hours", CFloat (carrier_delay_hours i));
   ("estimated_delivery_days", CFloat (estimated_delivery_days i));
   ("total_payment_value", CFloat (total_payment_value i));
   ("payment_installments", CInt (payment_installments i))].

(** [set(a) == set(b)] on lists of column names. *)
Definition same_set (a b : list string) : bool :=
  forallb (fun x => bool_decide (x ∈ b)) a && forallb (fun x => bool_decide (x ∈ a)) b.

(** [float(model.predict_proba(input_data)[0][1])]: an out-of-range index
    raises like the call itself. *)
Definition predict_positive (m : Model) (x : frame) : except Q :=
  match predict_proba m x with
  | inl err => inl err
  | inr rows =>
      match rows !! 0%nat with
      | None => inl "index 0 is out of bounds"
      | Some row =>
          match row !! 1%nat with
          | None => inl "index 1 is out of bounds"
          | Some p => inr p
          end
      end
  end.

(** The risk logic, lines 169-174. *)
Definition risk_level (probability medium high : Q) : string :=
  if Qle_bool high probability then "High"
  else if Qle_bool medium probability then "Medium"
  else "Low".

(** The body of the SHAP [try], lines 206-221: the per-feature contributions
    fed to the chart (their sorting by magnitude only orders the bars). *)
Definition shap_body (ex : Explainer) (features : list string) (x : frame)
    : except (list (string * Q)) :=
  match shap_values ex x with
  | inl err => inl err
  | inr sv =>
      let shap_array :=
        match sv with
        | ShapList l =>
            if bool_decide (1 < List.length l)%nat
            then l !! 1%nat ≫= (fun a => a !! 0%nat)
            else l !! 0%nat ≫= (fun a => a !! 0%nat)
        | ShapArray a => a !! 0%nat
        end in
      match shap_array with
      | None => inl "index out of range"
      | Some arr =>
          if Nat.eqb (List.length arr) (List.length features)
          then inr (zip features arr)
          else inl "All arrays must be of the same length"
      end
  end.

(** The prediction section, lines 158-240. It returns the computed
    probability and risk level when the button was pressed. *)
Definition prediction_section (ex : Explainer) (m : Model)
    (features : list string) (x : frame) (i : Inputs) (now : Z)
    : script (option (Q * string)) :=
  if predict_button i then
    probability ← (match predict_positive m x with
                   | inr p => mret p
                   | inl err => error_and_stop ("Prediction failed: " ++ err)
                   end);
    let level := risk_level probability (medium_threshold i) (high_threshold i) in
    emit (Subheader "Risk Overview") ;;
    emit (Metric "Delay Probability" (CFloat probability)) ;;
    emit (Metric "Risk Score" (CFloat (probability * 100)%Q)) ;;
    emit (Metric "Risk Level" (CStr level)) ;;
    update_log (log_prediction x probability level now) ;;
    emit (if String.eqb level "High"
          then Error "Critical Alert: High likelihood of delivery delay."
          else if String.eqb level "Medium"
          then Warning "Moderate Risk: Monitor logistics performance."
          else Success "Operational Status: Risk within acceptable limits.") ;;
    emit Divider ;;
    emit (Subheader "Explainable AI - Feature Contribution") ;;
    (match shap_body ex features x with
     | inr _ => emit (Chart "Feature Impact on Current Prediction")
     | inl err => emit (Warning ("Explainability unavailable: " ++ err))
     end) ;;
    mret (Some (probability, level))
  else mret None.

(** [pd.read_csv] on the log file: the first line gives the column names
    (text cells name their column; numbers and timestamps name none of the
    columns read below), the other lines are the rows. An empty file raises
    [EmptyDataError] ([None]). *)
Fixpoint str_text (c : cell) : option string :=
  match c with
  | CStr s => Some s
  | CJoined a b => match str_text a, str_text b with
                   | Some x, Some y => Some (x ++ y)
                   | _, _ => None
                   end
  | _ => None
  end.

Definition cell_name (c : cell) : string := default "" (str_text c).

Fixpoint line_cells (l : line) : list cell :=
  match l with Header ns => map CStr ns | Data cs => cs | NoEOL l' => line_cells l' end.

(** The fields of the text [xs] immediately followed by the text [ys]: the
    last field of [xs] and the first of [ys] become one field. *)
Definition join_fields (xs ys : list cell) : list cell :=
  match ys with
  | [] => xs
  | y :: ys' =>
      match last xs with
      | None => ys
      | Some x => (removelast xs ++ CJoined x y :: ys')%list
      end
  end.

(** The lines of the file's text, split at line breaks, as lists of fields.
    [pending] holds the fields of a line whose break has not come yet. *)
Fixpoint rows_of (pending : option (list cell)) (ls : list line) : list (list cell) :=
  match ls with
  | [] => match pending with Some cs => [cs] | None => [] end
  | l :: rest =>
      let cs := match pending with
                | Some xs => join_fields xs (line_cells l)
                | None => line_cells l
                end in
      if ends_line l then cs :: rows_of None rest else rows_of (Some cs) rest
  end.

Definition file_rows (ls : list line) : list (list cell) := rows_of None ls.

(** A row with more fields than the header raises [ParserError], except
    when the first row has exactly one field more: that first field is then
    the index, and the header names the fields after it. *)
Definition read_csv (ls : list line) : option (list string * list (list cell)) :=
  match file_rows ls with
  | [] => None
  | first :: rest =>
      let names := map cell_name first in
      let n := List.length names in
      let implicit_index :=
        match rest with r :: _ => Nat.eqb (List.length r) (S n) | [] => false end in
      let width := if implicit_index then S n else n in
      if forallb (fun r => Nat.leb (List.length r) width) rest
      then Some (names, if implicit_index then map tl rest else rest)
      else None
  end.

Fixpoint index_of (c : string) (h : list string) : option nat :=
  match h with
  | [] => None
  | c' :: h' => if String.eqb c c' then Some 0%nat else S <$> index_of c h'
  end.

(** [log_df[c]]: [None] is the [KeyError] of a missing column. *)
Definition column (h : list string) (c : string) (rows : list (list cell))
    : option (list cell) :=
  idx ← index_of c h;
  Some (map (fun r => default CNaN (r !! idx)) rows).

(** [pd.to_datetime(..., errors="coerce")] followed by [dropna]. *)
Definition is_timestamp (c : cell) : bool :=
  match c with CTime _ => true | _ => false end.

Definition drop_bad_timestamps (h : list string) (rows : list (list cell))
    : list (list cell) :=
  match index_of "timestamp" h with
  | Some idx => filter (fun r => is_timestamp (default CNaN (r !! idx))) rows
  | None => rows
  end.

(** [Series.mean()], skipping missing values; [None] is NaN. A joined field
    is read as text, neither a number nor a timestamp. *)
Definition numeric_value (c : cell) : option Q :=
  match c with CFloat q => Some q | CInt z => Some (inject_Z z) | _ => None end.

Definition mean (cs : list cell) : option Q :=
  let xs := omap numeric_value cs in
  match xs with
  | [] => None
  | _ => Some (fold_right Qplus 0 xs / inject_Z (Z.of_nat (List.length xs)))%Q
  end.

Definition is_high (c : cell) : bool :=
  match str_text c with Some s => String.eqb s "High" | None => false end.

(** The monitoring section, lines 248-304. *)
Definition monitoring_section (high : Q) : script unit :=
  emit (Subheader "Risk Monitoring Overview") ;;
  fs ← read_log;
  match fs with
  | None => emit (Info "No prediction data available yet.")
  | Some ls =>
      match read_csv ls with
      | None => st_stop
      | Some (h, rows) =>
          if bool_decide (rows ≠ []) && bool_decide ("timestamp" ∈ h) then
            let rows := drop_bad_timestamps h rows in
            match column h "probability" rows, column h "risk_level" rows with
            | Some probs, Some levels =>
                let total_predictions := List.length rows in
                let avg_risk := mean probs in
                let high_risk_count := List.length (filter is_high levels) in
                emit (Metric "Total Predictions" (CInt (Z.of_nat total_predictions))) ;;
                emit (Metric "Average Risk" (default CNaN (CFloat <$> avg_risk))) ;;
                emit (Metric "High Risk Cases" (CInt (Z.of_nat high_risk_count))) ;;
                emit (match avg_risk with
                      | Some a => if Qlt_le_dec high a
                                  then Error "System Alert: Average risk critically high."
                                  else if (3 <=? high_risk_count)%nat
                                  then Warning "Multiple high-risk cases detected."
                                  else Success "Monitoring stable."
                      | None => if (3 <=? high_risk_count)%nat
                                then Warning "Multiple high-risk cases detected."
                                else Success "Monitoring stable."
                      end) ;;
                emit (Chart "Average Risk Trend (Per Minute)")
            | _, _ => st_stop
            end
          else emit (Info "Generate predictions to activate monitoring.")
      end
  end.

(** Lines 242-342: the sections after the prediction section. They read the
    log file and never write it. *)
Definition footer_sections (high : Q) : script unit :=
  emit Divider ;;
  monitoring_section high ;;
  emit Divider ;;
  emit (Subheader "Model Feature Importance") ;;
  emit (Chart "") ;;
  emit Divider ;;
  emit (Subheader "Operational Intelligence Summary") ;;
  emit (Markdown "This platform supports proactive operational decision-making.").

(** Lines 19-240: the script up to and including the prediction section; it
    returns what the prediction section computed. *)
Definition risk_assessment (e : Env) : script (option (Q * string)) :=
  emit (Markdown "<style>") ;;
  r ← load_resources e;
  let model := res_model r in
  let explainer := res_explainer r in
  let EXPECTED_FEATURES := feature_name_ model in
  emit (Markdown "Delivery Risk Intelligence Platform") ;;
  emit Divider ;;
  emit (Markdown "## Configuration Panel") ;;
  emit (Markdown "---") ;;
  emit (Widget "Medium Risk Threshold") ;;
  emit (Widget "High Risk Threshold") ;;
  emit (Widget "Time Features") ;;
  emit (Widget "Logistics Features") ;;
  emit (Widget "Financial Features") ;;
  let input_data := input_frame (inputs e) in
  (if negb (same_set (map fst input_data) EXPECTED_FEATURES)
   then error_and_stop "Feature mismatch between dashboard and trained model."
   else mret tt) ;;
  let input_data := reindex EXPECTED_FEATURES input_data in
  emit (Widget "Generate Risk Assessment") ;;
  prediction_section explainer model EXPECTED_FEATURES input_data (inputs e) (clock e).

(** The whole script, one run. *)
Definition dashboard (e : Env) : script unit :=
  risk_assessment e ;;
  footer_sections (high_threshold (inputs e)).

(** A run of the script on the log file [fs]. *)
Definition run (e : Env) (fs : log_file) : option unit * St :=
  dashboard e {| page := []; log := fs |}.

(* ================================================================== *)
(** ** src/model_training.py: the second dashboard script *)
(* ================================================================== *)

(** What the three cached loaders return ([joblib.load], [pd.read_csv] of
    the importance table, [shap.TreeExplainer(model)]) and the sidebar
    values; this script reads only the eight input values of [Inputs]. *)
Record TrainingEnv := {
  t_model : except Model;
  t_importance : except (list (string * Q));
  t_explainer : except Explainer;
  t_inputs : Inputs
}.

(** A call outside any [try]: an exception ends the run. *)
Definition uncaught {A} (r : except A) : script A :=
  match r with inr a => mret a | inl _ => st_stop end.

Definition MODEL_OVERVIEW : string :=
"
Model Type: LightGBM Gradient Boosting  
Validation Strategy: Time-aware Cross Validation  
Class Imbalance Handling: scale_pos_weight applied  
Threshold Optimization: F1-optimized  
Current AUC: ~0.77  

This system supports proactive logistics risk management and operational decision-making.
".

(** The script, lines 17-216. [input_data] has the eight input columns in
    the order of [input_frame]; the SHAP [try] (lines 151-179) computes the
    same array as [shap_body], with the frame's columns as feature names. *)
Definition training_dashboard (e : TrainingEnv) : script unit :=
  model ← uncaught (t_model e);
  importance_df ← uncaught (t_importance e);
  explainer ← uncaught (t_explainer e);
  emit (Title "Enterprise Delivery Delay Prediction System") ;;
  emit (Markdown "Predictive Analytics and Decision Support Dashboard") ;;
  emit Divider ;;
  emit (Heading "Order Parameters") ;;
  emit (Widget "Purchase Hour") ;;
  emit (Widget "Purchase Day of Week (0 = Monday)") ;;
  emit (Widget "Purchase Month") ;;
  emit (Widget "Approval Delay (hours)") ;;
  emit (Widget "Carrier Delay (hours)") ;;
  emit (Widget "Estimated Delivery Days") ;;
  emit (Widget "Total Payment Value") ;;
  emit (Widget "Payment Installments") ;;
  let input_data := input_frame (t_inputs e) in
  emit (Subheader "Delay Risk Prediction") ;;
  probability ← uncaught (predict_positive model input_data);
  emit (Metric "Predicted Delay Probability" (CFloat probability)) ;;
  emit (if Qle_bool (60#100) probability then Error "High Risk"
        else if Qle_bool (30#100) probability then Warning "Medium Risk"
        else Success "Low Risk") ;;
  emit (Subheader "Risk Confidence Indicator") ;;
  emit (Chart "Delay Risk (%)") ;;
  emit Divider ;;
  emit (Subheader "Explainable AI – Feature Contributions") ;;
  (match shap_body explainer (map fst input_data) input_data with
   | inr _ => emit Dataframe
   | inl error =>
       emit (Error "Explainability module could not be generated.") ;;
       emit (Text error)
   end) ;;
  emit Divider ;;
  emit (Subheader "Global Model Feature Importance") ;;
  emit (Chart "Feature Importance Ranking") ;;
  emit Divider ;;
  emit (Subheader "Model Overview") ;;
  emit (Markdown MODEL_OVERVIEW).

Definition training_run (e : TrainingEnv) : option unit * St :=
  training_dashboard e {| page := []; log := None |}.

(* ================================================================== *)
(** ** src/rfm_segmentation.py: [RFMSegmenter.build_rfm] *)
(* ================================================================== *)

Module RFM.

(** Rows of the three input tables, with the columns [build_rfm] reads.
    Timestamps are seconds since the epoch; payment values are exact. *)
Record order := {
  order_id : string;
  customer_id : string;
  order_purchase_timestamp : Z
}.

Record payment := {
  pay_order_id : string;
  payment_value : Q
}.

Record customer := {
  cust_customer_id : string;
  customer_unique_id : string
}.

(** A row of the merged frame [df]: an order, its aggregated payment value
    (NaN when the left merge found none) and its customer's unique id (NaN
    when the left merge found none). *)
Record df_row := {
  df_order : order;
  df_payment_value : option Q;
  df_customer_unique_id : option string
}.

(** The row of the RFM table for one customer. [Recency] is [None] when the
    day difference is NaT. *)
Record rfm_row := {
  rfm_customer_unique_id : string;
  Recency : option Z;
  Frequency : nat;
  Monetary : Q
}.

(** [Series.sum()], skipping missing values. *)
Definition nansum (xs : list (option Q)) : Q :=
  fold_right Qplus 0 (omap id xs).

(** The group keys of a [groupby], in order of first appearance (pandas sorts
    them; the keys are unique either way). *)
Definition group_keys (ks : list string) : list string := remove_dups ks.

(** [payments.groupby("order_id").agg(payment_value=("payment_value","sum"))]. *)
Definition payments_agg (payments : list payment) : list (string * Q) :=
  map (fun oid =>
         (oid, nansum (map (fun p => Some (payment_value p))
                          (filter (fun p => pay_order_id p = oid) payments))))
      (group_keys (map pay_order_id payments)).

(** [orders.merge(payments_agg, on="order_id", how="left")]: each left row is
    paired with every matching right row, or with NaN when none matches. *)
Definition merge_payments (orders : list order) (agg : list (string * Q))
    : list (order * option Q) :=
  flat_map (fun o =>
              match filter (fun kv => kv.1 = order_id o) agg with
              | [] => [(o, None)]
              | ms => map (fun kv => (o, Some kv.2)) ms
              end) orders.

(** [.merge(customers, on="customer_id", how="left")]. *)
Definition merge_customers (rows : list (order * option Q))
    (customers : list customer) : list df_row :=
  flat_map (fun '(o, pv) =>
              match filter (fun c => cust_customer_id c = customer_id o) customers with
              | [] => [{| df_order := o; df_payment_value := pv;
                          df_customer_unique_id := None |}]
              | ms => map (fun c => {| df_order := o; df_payment_value := pv;
                                       df_customer_unique_id := Some (customer_unique_id c) |}) ms
              end) rows.

(** [Series.max()] of timestamps; [None] is NaT (empty series). *)
Definition ts_max (ts : list Z) : option Z :=
  match ts with
  | [] => None
  | t :: ts' => Some (fold_right Z.max t ts')
  end.

(** [Timedelta.days]: whole days, rounded down. *)
Definition timedelta_days (seconds : Z) : Z := seconds `div` 86400.

Definition build_rfm (orders : list order) (payments : list payment)
    (customers : list customer) : list rfm_row :=
  let df := merge_customers (merge_payments orders (payments_agg payments)) customers in
  let reference_date := ts_max (map (fun r => order_purchase_timestamp (df_order r)) df) in
  (* [groupby("customer_unique_id")] drops the rows whose key is NaN *)
  let keys := group_keys (omap df_customer_unique_id df) in
  map (fun u =>
         let g := filter (fun r => df_customer_unique_id r = Some u) df in
         {| rfm_customer_unique_id := u;
            Recency :=
              (ref ← reference_date;
               x ← ts_max (map (fun r => order_purchase_timestamp (df_order r)) g);
               Some (timedelta_days (ref - x)));
            Frequency := List.length (remove_dups (map (fun r => order_id (df_order r)) g));
            Monetary := nansum (map df_payment_value g) |}) keys.

(** The RFM quantities as the claims describe them, from the raw tables. *)
Definition unique_id_of (customers : list customer) (cid : string) : option string :=
  customer_unique_id <$> head (filter (fun c => cust_customer_id c = cid) customers).

Definition customer_orders (orders : list order) (customers : list customer)
    (u : string) : list order :=
  filter (fun o => unique_id_of customers (customer_id o) = Some u) orders.

Definition order_total (payments : list payment) (oid : string) : Q :=
  fold_right Qplus 0 (map payment_value (filter (fun p => pay_order_id p = oid) payments)).

(** The row the two left merges produce for an order when [order_id] and
    [customer_id] are keys of their tables. *)
Definition pay_of (payments : list payment) (o : order) : option Q :=
  if decide (order_id o ∈ map pay_order_id payments)
  then Some (order_total payments (order_id o)) else None.

Definition row_of (payments : list payment) (customers : list customer)
    (o : order) : df_row :=
  {| df_order := o; df_payment_value := pay_of payments o;
     df_customer_unique_id := unique_id_of customers (customer_id o) |}.

(** Small tables in the shape of the Olist data: customer [u1] placed two
    orders, one of them paid in two instalments and one without a payment
    record; [u2] placed one; order [o4]'s customer is not in [customers]. *)
Definition sample_orders : list order :=
  [ {| order_id := "o1"; customer_id := "c1"; order_purchase_timestamp := 0 |};
    {| order_id := "o2"; customer_id := "c1"; order_purchase_timestamp := 176400 |};
    {| order_id := "o3"; customer_id := "c2"; order_purchase_timestamp := 864000 |};
    {| order_id := "o4"; customer_id := "c9"; order_purchase_timestamp := 900000 |} ].

Definition sample_payments : list payment :=
  [ {| pay_order_id := "o1"; payment_value := 10 |};
    {| pay_order_id := "o3"; payment_value := 7 |};
    {| pay_order_id := "o1"; payment_value := 5 |} ].

Definition sample_customers : list customer :=
  [ {| cust_customer_id := "c1"; customer_unique_id := "u1" |};
    {| cust_customer_id := "c2"; customer_unique_id := "u2" |} ].

End RFM.

(* ================================================================== *)
(** ** src/rfm_segmentation.py: [RFMSegmenter.revenue_contribution] *)
(* ================================================================== *)

Module Revenue.

(** The computation is written once over the arithmetic it runs in. *)
Record arith (R : Type) := {
  a_zero : R;
  a_hundred : R;
  a_add : R -> R -> R;
  a_mul : R -> R -> R;
  a_div : R -> R -> R
}.
Arguments a_zero {R}. Arguments a_hundred {R}. Arguments a_add {R}.
Arguments a_mul {R}. Arguments a_div {R}.

Section Contribution.
Context {R : Type} (A : arith R).

(** [Series.sum()]: a left-to-right accumulation from zero (numpy sums short
    arrays sequentially). *)
Definition series_sum (xs : list R) : R := fold_left (a_add A) xs (a_zero A).

(** A row of the segmented RFM table: its [Segment] label (NaN when the
    cluster got no label) and its [Monetary] value. *)
Definition seg_row := (option string * R)%type.

(** [revenue_contribution(rfm_df)]: one row per segment with its Monetary sum
    and its [Revenue_%]. *)
Definition revenue_contribution (rfm_df : list seg_row) : list (string * R * R) :=
  let total_revenue := series_sum (map snd rfm_df) in
  map (fun s =>
         let m := series_sum (map snd (filter (fun r => r.1 = Some s) rfm_df)) in
         (s, m, a_mul A (a_div A m total_revenue) (a_hundred A)))
      (remove_dups (omap fst rfm_df)).

(** [segment_revenue["Revenue_%"].sum()] *)
Definition revenue_pct_sum (rfm_df : list seg_row) : R :=
  series_sum (map (fun t => t.2) (revenue_contribution rfm_df)).

End Contribution.

Definition Q_arith : arith Q :=
  {| a_zero := 0%Q; a_hundred := 100%Q; a_add := Qplus; a_mul := Qmult; a_div := Qdiv |}.

(** IEEE-754 binary64, the arithmetic of a float64 pandas column. *)
Definition float_arith : arith float :=
  {| a_zero := 0%float; a_hundred := 100%float; a_add := PrimFloat.add;
     a_mul := PrimFloat.mul; a_div := PrimFloat.div |}.

(** Exact sums, and the Monetary sum of one segment. *)
Definition qsum (xs : list Q) : Q := fold_right Qplus 0%Q xs.

Definition gsum (rows : list (seg_row (R:=Q))) (s : string) : Q :=
  qsum (map snd (filter (fun r : seg_row (R:=Q) => r.1 = Some s) rows)).

(** Two segments with Monetary values 1 and 2. *)
Definition two_segments : list (option string * float) :=
  [(Some "Segment 0", 1%float); (Some "Segment 1", 2%float)].

End Revenue.

(* ================================================================== *)
(** ** src/rfm_segmentation.py: [_assign_segment_labels], [recommend_strategy] *)
(* ================================================================== *)

Module Segments.

(** A row of the clustered RFM table, with the columns the labelling reads. *)
Record crow := {
  c_customer_unique_id : string;
  c_cluster : Z;
  c_monetary : Q
}.

(** [rfm_df.groupby("Cluster")]: the cluster labels in ascending order (the
    groupby sorts its keys). *)
Definition cluster_keys (rows : list crow) : list Z :=
  merge_sort Z.le (remove_dups (map c_cluster rows)).

(** The mean Monetary of one cluster's rows. *)
Definition cluster_mean (rows : list crow) (k : Z) : Q :=
  let ms := map c_monetary (filter (fun r => c_cluster r = k) rows) in
  (fold_right Qplus 0 ms / inject_Z (Z.of_nat (List.length ms)))%Q.

(** [cluster_summary] before sorting, reduced to its Monetary column (the only
    one the sort and the labels read). *)
Definition cluster_summary (rows : list crow) : list (Z * Q) :=
  map (fun k => (k, cluster_mean rows k)) (cluster_keys rows).

Definition SEGMENT_NAMES : list string :=
  ["VIP Customers"; "Loyal Customers"; "New Customers"; "Lost Customers"].

(** [label_map], lines 96-105: with at least four clusters the first four of
    [cluster_order] get the four names; otherwise cluster [i] of the order
    gets "Segment i". *)
Definition label_map (cluster_order : list Z) : list (Z * string) :=
  if bool_decide (4 <= List.length cluster_order)%nat
  then zip cluster_order SEGMENT_NAMES
  else imap (fun i c => (c, "Segment " ++ pretty i)) cluster_order.

(** [rfm_df["Cluster"].map(label_map)]: NaN ([None]) for a cluster the map
    lacks. The keys of [label_map] are distinct cluster labels. *)
Fixpoint label_of (m : list (Z * string)) (k : Z) : option string :=
  match m with
  | [] => None
  | (c, s) :: m' => if Z.eqb c k then Some s else label_of m' k
  end.

Section Labels.
(** [sort_values("Monetary", ascending=False)]: the order it gives to equal
    means is the sort algorithm's, so the sort is a parameter. *)
Variable sort_values_desc : list (Z * Q) -> list (Z * Q).

(** [_assign_segment_labels(rfm_df)]: each row with its [Segment]. *)
Definition assign_segment_labels (rows : list crow) : list (crow * option string) :=
  let cluster_order := map fst (sort_values_desc (cluster_summary rows)) in
  let lm := label_map cluster_order in
  map (fun r => (r, label_of lm (c_cluster r))) rows.
End Labels.

(** A sort by decreasing mean Monetary, for running the labelling. *)
Definition monetary_desc (a b : Z * Q) : Prop := Qle_bool b.2 a.2 = true.

Global Instance monetary_desc_dec : RelDecision monetary_desc :=
  fun a b => decide (Qle_bool b.2 a.2 = true).

Definition merge_sort_desc : list (Z * Q) -> list (Z * Q) := merge_sort monetary_desc.

(** [recommend_strategy(segment)]: [strategies.get(segment, ...)]; a NaN
    segment is not a key of the dict. *)
Definition recommend_strategy (segment : option string) : string :=
  match segment with
  | Some s =>
      if String.eqb s "VIP Customers" then
        "Retention priority. Offer exclusive rewards & premium services."
      else if String.eqb s "Loyal Customers" then
        "Cross-sell, subscription incentives, and referral programs."
      else if String.eqb s "New Customers" then
        "Engage with onboarding campaigns and repeat-purchase incentives."
      else if String.eqb s "Lost Customers" then
        "Launch aggressive win-back campaigns and discount strategies."
      else "No strategy defined."
  | None => "No strategy defined."
  end.

(** Seven customers in three clusters, and the same customers in five. *)
Definition sample_rows3 : list crow :=
  [ {| c_customer_unique_id := "a"; c_cluster := 0; c_monetary := 50 |};
    {| c_customer_unique_id := "b"; c_cluster := 1; c_monetary := 900 |};
    {| c_customer_unique_id := "c"; c_cluster := 2; c_monetary := 120 |};
    {| c_customer_unique_id := "d"; c_cluster := 0; c_monetary := 70 |};
    {| c_customer_unique_id := "e"; c_cluster := 1; c_monetary := 1100 |};
    {| c_customer_unique_id := "f"; c_cluster := 2; c_monetary := 80 |};
    {| c_customer_unique_id := "g"; c_cluster := 0; c_monetary := 30 |} ].

Definition sample_rows5 : list crow :=
  [ {| c_customer_unique_id := "a"; c_cluster := 0; c_monetary := 50 |};
    {| c_customer_unique_id := "b"; c_cluster := 1; c_monetary := 900 |};
    {| c_customer_unique_id := "c"; c_cluster := 2; c_monetary := 120 |};
    {| c_customer_unique_id := "d"; c_cluster := 3; c_monetary := 70 |};
    {| c_customer_unique_id := "e"; c_cluster := 1; c_monetary := 1100 |};
    {| c_customer_unique_id := "f"; c_cluster := 4; c_monetary := 10 |};
    {| c_customer_unique_id := "g"; c_cluster := 0; c_monetary := 30 |} ].

(** Three rows of [sample_rows5]. *)
Definition row_b : crow := {| c_customer_unique_id := "b"; c_cluster := 1; c_monetary := 900 |}.
Definition row_c : crow := {| c_customer_unique_id := "c"; c_cluster := 2; c_monetary := 120 |}.
Definition row_f : crow := {| c_customer_unique_id := "f"; c_cluster := 4; c_monetary := 10 |}.

End Segments.

(* ================================================================== *)
(** ** app/revenue_module.py: the KPI cards of [run_revenue_dashboard] *)
(* ================================================================== *)

Module RevenueKPI.
Import Revenue.

(** [revenue_percentile], lines 191-193: the mean of the boolean series
    [Monetary < x], times 100. *)
Definition revenue_percentile (monetary : list Q) (x : Q) : Q :=
  (fold_right Qplus 0 (map (fun m => if Qlt_le_dec m x then 1 else 0) monetary)
   / inject_Z (Z.of_nat (List.length monetary)) * 100)%Q.

End RevenueKPI.

(* ================================================================== *)
(** ** src/feature_engineering.py: [DeliveryFeatureEngineer.transform] *)
(* ================================================================== *)

Module Features.

(** A cell of a date column: a datetime (seconds since the epoch), text still
    to be parsed, or NaT. *)
Inductive dcell :=
| DT (t : Z)
| Txt (s : string)
| NaT.

(** A row of the orders frame [X] with the columns [transform] reads, and its
    index label. A column absent from [X] is absent from [columns] below; the
    row's field for it is then never read. *)
Record in_row := {
  index : nat;
  order_purchase_timestamp : dcell;
  order_approved_at : dcell;
  order_delivered_carrier_date : dcell;
  order_delivered_customer_date : dcell;
  order_estimated_delivery_date : dcell;
  total_payment_value : option Q;
  payment_installments : option Q;
  customer_state : option string;
  is_delayed : option Z
}.

Record in_frame := {
  columns : list string;
  rows : list in_row
}.

(** The constructor's parameters. *)
Record config := {
  predict_before_delivery : bool;
  max_approval_hours : Z;
  max_carrier_hours : Z;
  max_delivery_days : Z
}.

(** A row after [_create_time_features]. *)
Record work_row := {
  w_src : in_row;
  w_purchase_hour : option Z;
  w_purchase_dayofweek : option Z;
  w_purchase_month : option Z;
  w_approval_delay_hours : option Q;
  w_carrier_delay_hours : option Q;
  w_estimated_delivery_days : option Q
}.

(** A row of the returned dataset, with its index label. *)
Record out_row := {
  o_index : nat;
  o_purchase_hour : option Z;
  o_purchase_dayofweek : option Z;
  o_purchase_month : option Z;
  o_approval_delay_hours : option Q;
  o_carrier_delay_hours : option Q;
  o_estimated_delivery_days : option Q;
  o_total_payment_value : option Q;
  o_payment_installments : option Q;
  o_customer_state : option string;
  o_is_delayed : option Z
}.

Definition FEATURE_COLUMNS : list string :=
  ["purchase_hour"; "purchase_dayofweek"; "purchase_month";
   "approval_delay_hours"; "carrier_delay_hours"; "estimated_delivery_days";
   "total_payment_value"; "payment_installments"; "customer_state"].

Definition TARGET_COLUMN : string := "is_delayed".

Definition has_col (c : string) (cols : list string) : bool := bool_decide (c ∈ cols).

(** [df[c] = ...] on the column list. *)
Definition add_col (cols : list string) (c : string) : list string :=
  if has_col c cols then cols else (cols ++ [c])%list.

(** [.dt.hour], [.dt.dayofweek] (Monday = 0) and [.dt.month] of a UTC
    datetime, by the proleptic Gregorian calendar. *)
Definition dt_hour (t : Z) : Z := ((t mod 86400) / 3600)%Z.

Definition dt_dayofweek (t : Z) : Z := ((t / 86400 + 3) mod 7)%Z.

Definition dt_month (t : Z) : Z := (
  let z := t / 86400 + 719468 in
  let era := z / 146097 in
  let doe := z - era * 146097 in
  let yoe := (doe - doe / 1460 + doe / 36524 - doe / 146096) / 365 in
  let doy := doe - (365 * yoe + yoe / 4 - yoe / 100) in
  let mp := (5 * doy + 2) / 153 in
  if mp <? 10 then mp + 3 else mp - 9)%Z.

(** The month [dt_month] computes from the day of the 400-year era ([doe]),
    and a check of its range over [n] consecutive days from [d]. *)
Definition month_of_doe (doe : Z) : Z := (
  let yoe := (doe - doe / 1460 + doe / 36524 - doe / 146096) / 365 in
  let doy := doe - (365 * yoe + yoe / 4 - yoe / 100) in
  let mp := (5 * doy + 2) / 153 in
  if mp <? 10 then mp + 3 else mp - 9)%Z.

Fixpoint months_ok (n : nat) (d : Z) : bool :=
  match n with
  | O => true
  | S n' => (Z.leb 1 (month_of_doe d) && Z.leb (month_of_doe d) 12 && months_ok n' (d + 1))%Z
  end.

Definition dt_of (c : dcell) : option Z :=
  match c with DT t => Some t | _ => None end.

(** [(b - a).dt.total_seconds() / unit] *)
Definition span (a b : dcell) (unit : Z) : option Q :=
  x ← dt_of a; y ← dt_of b; Some (inject_Z (y - x) / inject_Z unit)%Q.

(** [Series.between(0, hi)]: inclusive, false on NaN. *)
Definition between (v : option Q) (hi : Z) : bool :=
  match v with
  | Some x => Qle_bool 0 x && Qle_bool x (inject_Z hi)
  | None => false
  end.

Section Transform.
(** The text parser of [pd.to_datetime]; unparsable text gives [None]. *)
Variable parse_text : string -> option Z.

(** [pd.to_datetime(col, errors="coerce")] on one cell. *)
Definition to_datetime (c : dcell) : dcell :=
  match c with
  | DT t => DT t
  | Txt s => match parse_text s with Some t => DT t | None => NaT end
  | NaT => NaT
  end.

(** [_parse_datetimes]: every date column present is parsed. *)
Definition parse_row (cols : list string) (r : in_row) : in_row :=
  let p c x := if has_col c cols then to_datetime x else x in
  {| index := index r;
     order_purchase_timestamp := p "order_purchase_timestamp" (order_purchase_timestamp r);
     order_approved_at := p "order_approved_at" (order_approved_at r);
     order_delivered_carrier_date :=
       p "order_delivered_carrier_date" (order_delivered_carrier_date r);
     order_delivered_customer_date :=
       p "order_delivered_customer_date" (order_delivered_customer_date r);
     order_estimated_delivery_date :=
       p "order_estimated_delivery_date" (order_estimated_delivery_date r);
     total_payment_value := total_payment_value r;
     payment_installments := payment_installments r;
     customer_state := customer_state r;
     is_delayed := is_delayed r |}.

Definition parse_datetimes (f : in_frame) : in_frame :=
  {| columns := columns f; rows := map (parse_row (columns f)) (rows f) |}.

Definition set_is_delayed (r : in_row) (v : Z) : in_row :=
  {| index := index r;
     order_purchase_timestamp := order_purchase_timestamp r;
     order_approved_at := order_approved_at r;
     order_delivered_carrier_date := order_delivered_carrier_date r;
     order_delivered_customer_date := order_delivered_customer_date r;
     order_estimated_delivery_date := order_estimated_delivery_date r;
     total_payment_value := total_payment_value r;
     payment_installments := payment_installments r;
     customer_state := customer_state r;
     is_delayed := Some v |}.

(** One row through [_create_target]: [None] when [dropna] removes it,
    otherwise the row with [is_delayed] set to
    [(delivered > estimated).astype(int)]. *)
Definition target_row (r : in_row) : option in_row :=
  delivered ← dt_of (order_delivered_customer_date r);
  estimated ← dt_of (order_estimated_delivery_date r);
  Some (set_is_delayed r (if Z.ltb estimated delivered then 1%Z else 0%Z)).

(** [_create_target]: [dropna] on the two dates, then the label; a row is
    kept exactly when both of its dates are present. *)
Definition create_target (f : in_frame) : in_frame :=
  if has_col "order_delivered_customer_date" (columns f)
     && has_col "order_estimated_delivery_date" (columns f)
  then {| columns := add_col (columns f) TARGET_COLUMN;
          rows := omap target_row (rows f) |}
  else f.

(** The six columns [_create_time_features] computes, on one row. *)
Definition time_features_row (r : in_row) : work_row :=
  let purchase := order_purchase_timestamp r in
  {| w_src := r;
     w_purchase_hour := dt_hour <$> dt_of purchase;
     w_purchase_dayofweek := dt_dayofweek <$> dt_of purchase;
     w_purchase_month := dt_month <$> dt_of purchase;
     w_approval_delay_hours := span purchase (order_approved_at r) 3600;
     w_carrier_delay_hours :=
       span (order_approved_at r) (order_delivered_carrier_date r) 3600;
     w_estimated_delivery_days :=
       span purchase (order_estimated_delivery_date r) (3600 * 24) |}.

(** [_create_time_features]; [None] is the [KeyError] of a missing column.
    The [total_delivery_days] column it adds when [predict_before_delivery] is
    false is not among the returned columns. *)
Definition create_time_features (cfg : config) (f : in_frame)
    : option (list string * list work_row) :=
  if has_col "order_purchase_timestamp" (columns f)
     && has_col "order_approved_at" (columns f)
     && has_col "order_delivered_carrier_date" (columns f)
     && has_col "order_estimated_delivery_date" (columns f)
     && (predict_before_delivery cfg
         || has_col "order_delivered_customer_date" (columns f))
  then Some (foldl add_col (columns f)
               ["purchase_hour"; "purchase_dayofweek"; "purchase_month";
                "approval_delay_hours"; "carrier_delay_hours";
                "estimated_delivery_days"],
             map time_features_row (rows f))
  else None.

(** [_clean_data] *)
Definition clean_data (cfg : config) (ws : list work_row) : list work_row :=
  filter (fun w => between (w_approval_delay_hours w) (max_approval_hours cfg)
                   && between (w_carrier_delay_hours w) (max_carrier_hours cfg)
                   && between (w_estimated_delivery_days w) (max_delivery_days cfg)) ws.

Definition final_row (w : work_row) : out_row :=
  {| o_index := index (w_src w);
     o_purchase_hour := w_purchase_hour w;
     o_purchase_dayofweek := w_purchase_dayofweek w;
     o_purchase_month := w_purchase_month w;
     o_approval_delay_hours := w_approval_delay_hours w;
     o_carrier_delay_hours := w_carrier_delay_hours w;
     o_estimated_delivery_days := w_estimated_delivery_days w;
     o_total_payment_value := total_payment_value (w_src w);
     o_payment_installments := payment_installments (w_src w);
     o_customer_state := customer_state (w_src w);
     o_is_delayed := is_delayed (w_src w) |}.

(** [_get_final_dataset]: [self.df[final_columns]] raises [KeyError] when a
    listed column is missing. *)
Definition get_final_dataset (cols : list string) (ws : list work_row)
    : option (list string * list out_row) :=
  let final_columns :=
    if has_col TARGET_COLUMN cols then (FEATURE_COLUMNS ++ [TARGET_COLUMN])%list
    else FEATURE_COLUMNS in
  if forallb (fun c => has_col c cols) final_columns
  then Some (final_columns, map final_row ws)
  else None.

Definition transform (cfg : config) (X : in_frame)
    : option (list string * list out_row) :=
  let f := create_target (parse_datetimes X) in
  '(cols, ws) ← create_time_features cfg f;
  get_final_dataset cols (clean_data cfg ws).

End Transform.

(** The default configuration and a small orders frame: order 0 delivered
    after its estimate, order 1 before it, and order 2 with a delivery date
    that does not parse. *)
Definition default_config : config :=
  {| predict_before_delivery := true; max_approval_hours := 168;
     max_carrier_hours := 720; max_delivery_days := 60 |}.

Definition no_text_dates (s : string) : option Z := None.

Definition sample_row (i : nat) (delivered : dcell) : in_row :=
  {| index := i;
     order_purchase_timestamp := DT 0;
     order_approved_at := DT 3600;
     order_delivered_carrier_date := DT 7200;
     order_delivered_customer_date := delivered;
     order_estimated_delivery_date := DT 691200;
     total_payment_value := Some 150%Q;
     payment_installments := Some 1%Q;
     customer_state := Some "SP";
     is_delayed := None |}.

Definition sample_frame : in_frame :=
  {| columns := ["order_purchase_timestamp"; "order_approved_at";
                 "order_delivered_carrier_date"; "order_delivered_customer_date";
                 "order_estimated_delivery_date"; "total_payment_value";
                 "payment_installments"; "customer_state"];
     rows := [sample_row 0 (DT 864000); sample_row 1 (DT 432000);
              sample_row 2 (Txt "unknown")] |}.

(** The label of one row, as [_create_target] sets it after parsing. *)
Definition labelled (parse_text : string -> option Z) (x : in_row) (delay : option Z) : Prop :=
  exists d e,
    dt_of (to_datetime parse_text (order_delivered_customer_date x)) = Some d /\
    dt_of (to_datetime parse_text (order_estimated_delivery_date x)) = Some e /\
    ((e < d)%Z /\ delay = Some 1%Z \/ (d <= e)%Z /\ delay = Some 0%Z).

End Features.

(** The dashboard's input columns, in the order [input_data] lists them, and
    the value the widgets gave each of them. *)
Definition INPUT_COLUMNS : list string :=
  ["purchase_hour"; "purchase_dayofweek"; "purchase_month";
   "approval_delay_hours"; "carrier_delay_hours"; "estimated_delivery_days";
   "total_payment_value"; "payment_installments"].

Definition input_value (i : Inputs) (c : string) : cell :=
  default CNaN (col_lookup c (input_frame i)).

(** States of the script, and two properties of script fragments. *)
Definition init_state (fs : log_file) : St := {| page := []; log := fs |}.

(** [m] may read the log file but leaves it as it is. *)
Definition keeps_log {A} (m : script A) : Prop := forall s, log (m s).2 = log s.

(** [m] only adds elements to the page. *)
Definition grows_page {A} (m : script A) : Prop :=
  forall s, exists post, page (m s).2 = (page s ++ post)%list.

(* ================================================================== *)
(** * Properties *)
(* ================================================================== *)

(** ** Evaluations on concrete runs *)

Module Samples.

Definition feats : list string :=
  ["purchase_month"; "purchase_hour"; "purchase_dayofweek";
   "approval_delay_hours"; "carrier_delay_hours"; "estimated_delivery_days";
   "total_payment_value"; "payment_installments"].

Definition model : Model :=
  {| feature_name_ := feats; predict_proba := fun _ => inr [[3#10; 7#10]] |}.

Definition explainer_ok : Explainer :=
  {| shap_values := fun _ => inr (ShapArray [[1; 2; 3; 4; 5; 6; 7; 8]]) |}.

Definition explainer_raises : Explainer :=
  {| shap_values := fun _ => inl "TreeExplainer failed" |}.

Definition sliders (button : bool) : Inputs :=
  {| medium_threshold := 3#10; high_threshold := 6#10;
     purchase_hour := 12; purchase_dayofweek := 2; purchase_month := 6;
     approval_delay_hours := 2; carrier_delay_hours := 12;
     estimated_delivery_days := 7; total_payment_value := 150;
     payment_installments := 1; predict_button := button |}.

(** A classifier fitted on one class only: one probability column. *)
Definition one_class_model : Model :=
  {| feature_name_ := feats; predict_proba := fun _ => inr [[1]] |}.

Definition env_one_class : Env :=
  {| load_result := inr {| res_model := one_class_model;
                           res_explainer := {| shap_values := fun _ => inl "unused" |};
                           importance_df := [] |};
     inputs := sliders true; clock := 0 |}.

Definition resources (ex : Explainer) : Resources :=
  {| res_model := model; res_explainer := ex; importance_df := [] |}.

Definition env (ex : Explainer) (now : Z) : Env :=
  {| load_result := inr (resources ex); inputs := sliders true; clock := now |}.

Definition logged_row : list cell :=
  [CInt 6; CInt 12; CInt 2; CFloat 2; CFloat 12; CFloat 7; CFloat 150; CInt 1;
   CFloat (7#10); CStr "High"; CTime 1000].

(** A model trained with one more column than the dashboard sends. *)
Definition resources_mismatch : Resources :=
  {| res_model := {| feature_name_ := feats ++ ["customer_state"];
                     predict_proba := fun _ => inr [[3#10; 7#10]] |};
     res_explainer := explainer_ok; importance_df := [] |}.

Definition env_mismatch : Env :=
  {| load_result := inr resources_mismatch; inputs := sliders true; clock := 0 |}.

(** A run in which the button is not pressed. *)
Definition env_idle : Env :=
  {| load_result := inr (resources explainer_ok); inputs := sliders false; clock := 0 |}.

(** The log of a first run whose last line lost its line break. *)
Definition cut_log : list line :=
  [Header (feats ++ ["probability"; "risk_level"; "timestamp"])%list; NoEOL (Data logged_row)].

(** [src/model_training.py] with its three loaders succeeding. *)
Definition training_env (ex : Explainer) : TrainingEnv :=
  {| t_model := inr model; t_importance := inr []; t_explainer := inr ex;
     t_inputs := sliders false |}.

(** Arguments of two [log_prediction] calls: frame, probability, level, time. *)
Definition logged_entries : list (frame * Q * string * Z) :=
  [([("purchase_hour", CInt 12)], 3#10, "Medium", 0%Z);
   ([("purchase_hour", CInt 9)], 9#10, "High", 60%Z)].

Example first_run_creates_log :
  log (run (env explainer_ok 1000) None).2 = Some [Header (feats ++ ["probability"; "risk_level"; "timestamp"])%list; Data logged_row].
Proof. vm_compute. reflexivity. Qed.

Example second_run_appends :
  log (run (env explainer_ok 1000) (Some [Header ["x"]; Data []])).2 = Some [Header ["x"]; Data []; Data logged_row].
Proof. vm_compute. reflexivity. Qed.

Example calendar_epoch :
  (Features.dt_hour 0, Features.dt_dayofweek 0, Features.dt_month 0) = (0%Z, 3%Z, 1%Z).
Proof. reflexivity. Qed.

(** 2017-10-02 10:56:33 UTC, a Monday. *)
Example calendar_olist :
  (Features.dt_hour 1506941793, Features.dt_dayofweek 1506941793,
   Features.dt_month 1506941793) = (10%Z, 0%Z, 10%Z).
Proof. reflexivity. Qed.

End Samples.

(** ** The script monad *)

Lemma keeps_log_emit u : keeps_log (emit u).
Proof. intros s. reflexivity. Qed.

Lemma keeps_log_ret {A} (a : A) : keeps_log (mret a).
Proof. intros s. reflexivity. Qed.

Lemma keeps_log_stop {A} : keeps_log (@st_stop A).
Proof. intros s. reflexivity. Qed.

Lemma keeps_log_read : keeps_log read_log.
Proof. intros s. reflexivity. Qed.

Lemma keeps_log_bind {A B} (m : script A) (k : A -> script B) :
  keeps_log m -> (forall a, keeps_log (k a)) -> keeps_log (m ≫= k).
Proof.
  intros Hm Hk s. unfold mbind, script_bind.
  specialize (Hm s). destruct (m s) as [[a|] s']; cbn in *.
  - rewrite (Hk a s'). exact Hm.
  - exact Hm.
Qed.

Create HintDb keeps_log.
Global Hint Resolve keeps_log_emit keeps_log_ret keeps_log_stop keeps_log_read
  keeps_log_bind : keeps_log.

Ltac keeps_log_solve :=
  repeat (apply keeps_log_bind; [|intros]);
  repeat match goal with
         | |- keeps_log (match ?x with _ => _ end) => destruct x
         | |- keeps_log (if ?b then _ else _) => destruct b
         | |- keeps_log (let _ := _ in _) => cbv zeta
         end;
  eauto 20 with keeps_log.

(** Unfold the monad's operations and compute. *)
Ltac step_script :=
  cbv [mbind script_bind mret script_ret error_and_stop emit
    update_log read_log st_stop page log] in *; cbn in *.

Lemma keeps_log_monitoring high : keeps_log (monitoring_section high).
Proof.
  unfold monitoring_section.
  apply keeps_log_bind; [auto with keeps_log|intros _].
  apply keeps_log_bind; [auto with keeps_log|intros fs].
  destruct fs as [ls|]; [|auto with keeps_log].
  destruct (read_csv ls) as [[h rows]|]; [|auto with keeps_log].
  destruct (_ && _); [|auto with keeps_log].
  cbv zeta.
  keeps_log_solve.
Qed.

Lemma keeps_log_footer high : keeps_log (footer_sections high).
Proof.
  unfold footer_sections.
  repeat (apply keeps_log_bind; [auto using keeps_log_monitoring with keeps_log|intros _]).
  auto with keeps_log.
Qed.

(** ** The prediction log file *)

Lemma rows_of_plain (ls : list line) :
  Forall (fun l => ends_line l = true) ls -> rows_of None ls = map line_cells ls.
Proof. induction 1 as [|l ls Hl _ IH]; [reflexivity|]. cbn [rows_of]. by rewrite Hl, IH. Qed.

Lemma rows_of_snoc (ls : list line) (l : line) (pending : option (list cell)) :
  (ls = [] -> pending = None) -> ends_with_eol ls = true -> ends_line l = true ->
  rows_of pending (ls ++ [l]) = (rows_of pending ls ++ [line_cells l])%list.
Proof.
  revert pending. induction ls as [|a ls IH]; intros pending Hnil Heol Hl.
  - rewrite (Hnil eq_refl). cbn. by rewrite Hl.
  - assert (Heol' : ends_with_eol ls = true /\ (ls = [] -> ends_line a = true)).
    { destruct ls as [|b ls]; [split; [reflexivity|intros _; exact Heol]|].
      split; [exact Heol|discriminate]. }
    destruct Heol' as [Heol' Ha]. cbn [app rows_of].
    destruct (ends_line a) eqn:Hea.
    + rewrite IH; [reflexivity|reflexivity|exact Heol'|exact Hl].
    + destruct ls as [|b ls]; [discriminate (Ha eq_refl)|].
      rewrite IH; [reflexivity|discriminate|exact Heol'|exact Hl].
Qed.

(** C4, as the code has it: when [logs/prediction_log.csv] exists,
    [log_prediction] appends one data line without header to its text; if
    the file ends with a line break, its rows are kept and exactly one row
    follows them. When the file does not exist, it is created with a header
    row followed by the new row. Either way the file then ends with a line
    break. *)
Theorem log_prediction_append_only (input_data : frame) (probability : Q)
    (level : string) (now : Z) (fs : log_file) :
  let entry := make_log_entry input_data probability level now in
  (forall ls, fs = Some ls ->
     log_prediction input_data probability level now fs
       = Some (ls ++ [Data (map snd entry)])%list /\
     (ends_with_eol ls = true ->
      file_rows (ls ++ [Data (map snd entry)]) = (file_rows ls ++ [map snd entry])%list)) /\
  (fs = None ->
     log_prediction input_data probability level now fs
       = Some [Header (map fst entry); Data (map snd entry)] /\
     file_rows [Header (map fst entry); Data (map snd entry)]
       = [map CStr (map fst entry); map snd entry]) /\
  (exists ls', log_prediction input_data probability level now fs = Some ls' /\
               ends_with_eol ls' = true).
Proof.
  intros entry. split; [|split].
  - intros ls ->. split; [reflexivity|]. intros Heol.
    unfold file_rows. apply rows_of_snoc; [reflexivity|exact Heol|reflexivity].
  - intros ->. split; reflexivity.
  - destruct fs as [ls|];
      [exists (ls ++ [Data (map snd entry)])%list
      |exists [Header (map fst entry); Data (map snd entry)]];
      (split; [reflexivity|]); unfold ends_with_eol; [rewrite last_snoc|]; reflexivity.
Qed.

(** C4 as stated fails when the existing file does not end with a line
    break: the appended row runs into the file's last line. Here a log whose
    last row lost its break gets the next run's row: the file still has two
    rows, and the old data row is not one of them any more. *)
Lemma log_append_joins_last_line :
  file_rows Samples.cut_log =
    [map CStr (Samples.feats ++ ["probability"; "risk_level"; "timestamp"])%list;
     Samples.logged_row] /\
  log (run (Samples.env Samples.explainer_ok 2000) (Some Samples.cut_log)).2 =
    Some (Samples.cut_log ++ [Data (removelast Samples.logged_row ++ [CTime 2000])])%list /\
  List.length (file_rows (Samples.cut_log ++
                          [Data (removelast Samples.logged_row ++ [CTime 2000])])%list) = 2%nat /\
  file_rows (Samples.cut_log ++ [Data (removelast Samples.logged_row ++ [CTime 2000])])%list
    !! 1%nat <> Some Samples.logged_row.
Proof.
  split; [vm_compute; reflexivity|]. split; [vm_compute; reflexivity|].
  split; [vm_compute; reflexivity|]. vm_compute. intros Heq. discriminate Heq.
Qed.

Lemma log_prediction_append_only_witness :
  ends_with_eol [Header ["x"]; Data [CInt 1]] = true /\
  log_prediction [("a", CInt 2)] (1#2) "Medium" 5 (Some [Header ["x"]; Data [CInt 1]])
    = Some [Header ["x"]; Data [CInt 1]; Data [CInt 2; CFloat (1#2); CStr "Medium"; CTime 5]] /\
  file_rows [Header ["x"]; Data [CInt 1]; Data [CInt 2; CFloat (1#2); CStr "Medium"; CTime 5]]
    = [[CStr "x"]; [CInt 1]; [CInt 2; CFloat (1#2); CStr "Medium"; CTime 5]] /\
  log_prediction [("a", CInt 2)] (1#2) "Medium" 5 None
    = Some [Header ["a"; "probability"; "risk_level"; "timestamp"];
            Data [CInt 2; CFloat (1#2); CStr "Medium"; CTime 5]].
Proof.
  pose proof (log_prediction_append_only [("a", CInt 2)] (1#2) "Medium" 5
                (Some [Header ["x"]; Data [CInt 1]])) as [Hsome _].
  pose proof (log_prediction_append_only [("a", CInt 2)] (1#2) "Medium" 5 None)
    as [_ [Hnone _]].
  destruct (Hsome _ eq_refl) as [Hlog Hrows].
  split; [reflexivity|]. split; [exact Hlog|]. split.
  - exact (Hrows eq_refl).
  - exact (proj1 (Hnone eq_refl)).
Defined.

(** ** Risk levels *)

(** C5: with [medium_threshold <= high_threshold] the risk logic assigns one
    of three levels: "High" exactly when [p >= high], "Medium" exactly when
    [medium <= p < high], "Low" exactly when [p < medium]. *)
Theorem risk_level_partition (p medium high : Q) :
  (medium <= high)%Q ->
  (risk_level p medium high = "High" <-> (high <= p)%Q) /\
  (risk_level p medium high = "Medium" <-> (medium <= p /\ p < high)%Q) /\
  (risk_level p medium high = "Low" <-> (p < medium)%Q) /\
  risk_level p medium high ∈ ["High"; "Medium"; "Low"].
Proof.
  intros Hmh. unfold risk_level.
  destruct (Qle_bool high p) eqn:Hh;
    [apply Qle_bool_iff in Hh
    |assert (p < high)%Q by (apply Qnot_le_lt; rewrite <- Qle_bool_iff; congruence);
     destruct (Qle_bool medium p) eqn:Hm;
       [apply Qle_bool_iff in Hm
       |assert (p < medium)%Q by (apply Qnot_le_lt; rewrite <- Qle_bool_iff; congruence)]];
  (repeat split; [..|set_solver]);
  intros; try discriminate; try reflexivity; try tauto; lra.
Qed.

(** ** Determinism of the assessment *)

(** The prediction section never reads the clock or the log file to compute
    what it shows and returns: the clock only feeds the timestamp it logs. *)
Lemma prediction_section_indep ex m feats x i now1 now2 s1 s2 :
  page s1 = page s2 ->
  (prediction_section ex m feats x i now1 s1).1
    = (prediction_section ex m feats x i now2 s2).1 /\
  page (prediction_section ex m feats x i now1 s1).2
    = page (prediction_section ex m feats x i now2 s2).2.
Proof.
  intros Hp. unfold prediction_section.
  destruct (predict_button i); [|step_script; auto].
  destruct (predict_positive m x) as [err|p]; step_script; [rewrite Hp; auto|].
  destruct (shap_body ex feats x); step_script; rewrite Hp; auto.
Qed.

(** C7: two runs with the same loaded resources and the same widget values
    (thresholds, the eight feature inputs, the button) compute the same
    delay probability and risk level, and render the same page up to the end
    of the prediction section, whatever their clocks and log files. *)
Theorem risk_assessment_deterministic (e1 e2 : Env) (fs1 fs2 : log_file) :
  load_result e1 = load_result e2 ->
  inputs e1 = inputs e2 ->
  (risk_assessment e1 (init_state fs1)).1 = (risk_assessment e2 (init_state fs2)).1 /\
  page (risk_assessment e1 (init_state fs1)).2
    = page (risk_assessment e2 (init_state fs2)).2.
Proof.
  intros Hl Hi. unfold risk_assessment, load_resources.
  rewrite Hl, Hi. destruct (load_result e2) as [err|r]; [step_script; auto|].
  step_script. destruct (same_set _ _); cbn; [|auto].
  apply prediction_section_indep. reflexivity.
Qed.

(** ** The logged row *)

Lemma input_frame_columns i : map fst (input_frame i) = INPUT_COLUMNS.
Proof. reflexivity. Qed.

Lemma same_set_spec (a b : list string) :
  same_set a b = true <-> (forall x, x ∈ a <-> x ∈ b).
Proof.
  unfold same_set. rewrite andb_true_iff, !forallb_forall.
  split.
  - intros [Ha Hb] x. split; intros Hx.
    + apply list_elem_of_In in Hx. specialize (Ha x Hx).
      by apply bool_decide_eq_true_1 in Ha.
    + apply list_elem_of_In in Hx. specialize (Hb x Hx).
      by apply bool_decide_eq_true_1 in Hb.
  - intros H. split; intros x Hx; apply bool_decide_eq_true_2, H;
      by apply list_elem_of_In.
Qed.

Lemma set_col_fresh (f : frame) (c : string) (v : cell) :
  c ∉ map fst f -> set_col f c v = (f ++ [(c, v)])%list.
Proof.
  intros Hc. unfold set_col.
  replace (existsb _ f) with false; [reflexivity|].
  symmetry. apply not_true_iff_false. intros Hex.
  apply existsb_exists in Hex as [[c' v'] [Hin Heq]].
  apply String.eqb_eq in Heq. cbn in Heq. subst c'.
  apply Hc. apply list_elem_of_In, in_map_iff. exists (c, v'). auto.
Qed.

Lemma reindex_columns cols f : map fst (reindex cols f) = cols.
Proof. unfold reindex. rewrite map_map. apply map_id. Qed.

Lemma reindex_values cols i :
  map snd (reindex cols (input_frame i)) = map (input_value i) cols.
Proof. unfold reindex. rewrite map_map. reflexivity. Qed.

(** The log entry of the prediction section: the reordered inputs, then the
    three added columns. *)
Lemma make_log_entry_layout (cols : list string) (i : Inputs) p level now :
  (forall c, c ∈ cols -> c ∈ INPUT_COLUMNS) ->
  map snd (make_log_entry (reindex cols (input_frame i)) p level now)
  = (map (input_value i) cols ++ [CFloat p; CStr level; CTime now])%list.
Proof.
  intros Hsub. unfold make_log_entry.
  assert (Hfresh : forall c, c ∈ cols -> c ≠ "probability" /\ c ≠ "risk_level" /\ c ≠ "timestamp").
  { intros c Hc. apply Hsub in Hc. revert c Hc. apply Forall_forall.
    unfold INPUT_COLUMNS. repeat constructor; discriminate. }
  set (x := reindex cols (input_frame i)).
  assert (Hx : map fst x = cols) by apply reindex_columns.
  rewrite (set_col_fresh x "probability").
  2:{ rewrite Hx. intros Hc. apply Hfresh in Hc. tauto. }
  rewrite (set_col_fresh _ "risk_level").
  2:{ rewrite map_app, Hx. cbn [map fst]. rewrite elem_of_app, list_elem_of_singleton.
      intros [Hc|Hc]; [apply Hfresh in Hc; tauto|discriminate]. }
  rewrite (set_col_fresh _ "timestamp").
  2:{ rewrite !map_app, Hx. cbn [map fst].
      rewrite !elem_of_app, !list_elem_of_singleton.
      intros [[Hc|Hc]|Hc]; [apply Hfresh in Hc; tauto|discriminate|discriminate]. }
  rewrite <- !app_assoc, !map_app. unfold x. rewrite reindex_values. reflexivity.
Qed.

(** The run's final log file is the one the prediction section left. *)
Lemma run_log (e : Env) (fs : log_file) a s :
  risk_assessment e (init_state fs) = (Some a, s) -> log (run e fs).2 = log s.
Proof.
  intros H. unfold run, dashboard. cbv [mbind script_bind].
  fold (init_state fs). rewrite H. apply keeps_log_footer.
Qed.

(** C1: when a prediction is made, the row appended to
    [logs/prediction_log.csv] holds the eight input feature values in the
    model's feature order (a reordering of the eight input columns), then the
    probability, the risk level and the timestamp. *)
Theorem logged_row_layout (e : Env) (fs : log_file) (r : Resources) (p : Q) :
  load_result e = inr r ->
  predict_button (inputs e) = true ->
  same_set (map fst (input_frame (inputs e))) (feature_name_ (res_model r)) = true ->
  NoDup (feature_name_ (res_model r)) ->
  predict_positive (res_model r)
    (reindex (feature_name_ (res_model r)) (input_frame (inputs e))) = inr p ->
  feature_name_ (res_model r) ≡ₚ INPUT_COLUMNS /\
  exists before,
    log (run e fs).2 =
    Some (before ++
          [Data (map (input_value (inputs e)) (feature_name_ (res_model r)) ++
                 [CFloat p;
                  CStr (risk_level p (medium_threshold (inputs e)) (high_threshold (inputs e)));
                  CTime (clock e)])])%list.
Proof.
  intros Hload Hbtn Hset Hnd Hpred.
  pose proof Hset as Hset'. rewrite input_frame_columns in Hset'.
  pose proof (proj1 (same_set_spec _ _) Hset') as Hiff.
  split.
  { apply NoDup_Permutation; [exact Hnd|apply (bool_decide_eq_true_1 _); vm_compute; reflexivity|].
    intros x. symmetry. apply Hiff. }
  set (lvl := risk_level p (medium_threshold (inputs e)) (high_threshold (inputs e))).
  set (x := reindex (feature_name_ (res_model r)) (input_frame (inputs e))).
  assert (Hra : exists pg, risk_assessment e (init_state fs) =
            (Some (Some (p, lvl)), {| page := pg; log := log_prediction x p lvl (clock e) fs |})).
  { unfold risk_assessment, load_resources, prediction_section.
    rewrite Hload. cbv [mbind script_bind mret script_ret error_and_stop emit
      update_log read_log st_stop page log init_state].
    cbn [res_model res_explainer].
    rewrite Hset, Hbtn. cbn [negb]. fold x. fold x in Hpred. rewrite Hpred.
    destruct (shap_body _ _ _); eexists; reflexivity. }
  destruct Hra as [pg Hra]. rewrite (run_log _ _ _ _ Hra). cbn [log].
  unfold log_prediction. unfold x. rewrite <- make_log_entry_layout with (now := clock e);
    [|intros c Hc; by apply Hiff].
  destruct fs as [ls|]; cbn.
  - exists ls. reflexivity.
  - eexists [_]. reflexivity.
Qed.

(** ** Exception handlers *)

Lemma grows_page_emit u : grows_page (emit u).
Proof. intros s. exists [u]. reflexivity. Qed.

Lemma grows_page_ret {A} (a : A) : grows_page (mret a).
Proof. intros s. exists []. cbn. by rewrite app_nil_r. Qed.

Lemma grows_page_stop {A} : grows_page (@st_stop A).
Proof. intros s. exists []. cbn. by rewrite app_nil_r. Qed.

Lemma grows_page_read : grows_page read_log.
Proof. intros s. exists []. cbn. by rewrite app_nil_r. Qed.

Lemma grows_page_bind {A B} (m : script A) (k : A -> script B) :
  grows_page m -> (forall a, grows_page (k a)) -> grows_page (m ≫= k).
Proof.
  intros Hm Hk s. unfold mbind, script_bind.
  destruct (Hm s) as [post1 H1]. destruct (m s) as [[a|] s']; cbn in *.
  - destruct (Hk a s') as [post2 H2]. exists (post1 ++ post2)%list.
    by rewrite H2, H1, app_assoc.
  - by exists post1.
Qed.

Create HintDb grows_page.
Global Hint Resolve grows_page_emit grows_page_ret grows_page_stop grows_page_read
  grows_page_bind : grows_page.

Ltac grows_page_solve :=
  repeat (apply grows_page_bind; [|intros]);
  repeat match goal with
         | |- grows_page (match ?x with _ => _ end) => destruct x
         | |- grows_page (if ?b then _ else _) => destruct b
         | |- grows_page (let _ := _ in _) => cbv zeta
         end;
  eauto 20 with grows_page.

(** Whatever follows a computation keeps the page it rendered as a prefix. *)
Lemma page_bind_prefix {A B} (m : script A) (k : A -> script B) s pre :
  (exists post, page (m s).2 = (pre ++ post)%list) ->
  (forall a, grows_page (k a)) ->
  exists post, page ((m ≫= k) s).2 = (pre ++ post)%list.
Proof.
  intros [post1 H1] Hk. unfold mbind, script_bind.
  destruct (m s) as [[a|] s']; cbn in *.
  - destruct (Hk a s') as [post2 H2]. exists (post1 ++ post2)%list.
    by rewrite H2, H1, app_assoc.
  - by exists post1.
Qed.

Lemma grows_page_monitoring high : grows_page (monitoring_section high).
Proof. unfold monitoring_section. grows_page_solve. Qed.

(** The monitoring section starts with its subheader. *)
Lemma monitoring_page high s :
  exists post, page (monitoring_section high s).2
    = ((page s ++ [Subheader "Risk Monitoring Overview"]) ++ post)%list.
Proof.
  unfold monitoring_section. apply page_bind_prefix.
  - exists []. cbn. by rewrite app_nil_r.
  - intros _. grows_page_solve.
Qed.

(** The page after the prediction section: a divider, then the monitoring
    section's subheader, then whatever the rest renders. *)
Lemma footer_page high s :
  exists post, page (footer_sections high s).2
    = ((page s ++ [Divider; Subheader "Risk Monitoring Overview"]) ++ post)%list.
Proof.
  unfold footer_sections.
  change ((emit Divider ≫= ?K) s) with (K tt {| page := page s ++ [Divider]; log := log s |}).
  cbv beta. replace (page s ++ [Divider; Subheader "Risk Monitoring Overview"])%list
    with ((page s ++ [Divider]) ++ [Subheader "Risk Monitoring Overview"])%list
    by (by rewrite <- app_assoc).
  apply page_bind_prefix.
  - apply (monitoring_page high {| page := page s ++ [Divider]; log := log s |}).
  - intros _. grows_page_solve.
Qed.

Lemma run_halted (e : Env) (fs : log_file) s :
  risk_assessment e (init_state fs) = (None, s) -> run e fs = (None, s).
Proof.
  intros H. unfold run, dashboard. cbv [mbind script_bind].
  fold (init_state fs). by rewrite H.
Qed.

Lemma run_continues (e : Env) (fs : log_file) a s :
  risk_assessment e (init_state fs) = (Some a, s) ->
  run e fs = footer_sections (high_threshold (inputs e)) s.
Proof.
  intros H. unfold run, dashboard. cbv [mbind script_bind].
  fold (init_state fs). by rewrite H.
Qed.

(** The run up to the prediction section when the resources load, the schema
    check passes and the button is pressed. *)
Lemma risk_assessment_pressed (e : Env) (fs : log_file) (r : Resources) :
  load_result e = inr r ->
  predict_button (inputs e) = true ->
  same_set (map fst (input_frame (inputs e))) (feature_name_ (res_model r)) = true ->
  let F := feature_name_ (res_model r) in
  let x := reindex F (input_frame (inputs e)) in
  (forall err, predict_positive (res_model r) x = inl err ->
     exists pg, risk_assessment e (init_state fs) =
       (None, {| page := pg ++ [Error ("Prediction failed: " ++ err)]; log := fs |})%list) /\
  (forall p, predict_positive (res_model r) x = inr p ->
     let lvl := risk_level p (medium_threshold (inputs e)) (high_threshold (inputs e)) in
     exists pg, risk_assessment e (init_state fs) =
       (Some (Some (p, lvl)),
        {| page := pg ++ [match shap_body (res_explainer r) F x with
                          | inr _ => Chart "Feature Impact on Current Prediction"
                          | inl err => Warning ("Explainability unavailable: " ++ err)
                          end];
           log := log_prediction x p lvl (clock e) fs |})%list).
Proof.
  intros Hload Hbtn Hset F x.
  unfold risk_assessment, load_resources, prediction_section.
  rewrite Hload. cbv [mbind script_bind mret script_ret error_and_stop emit
    update_log read_log st_stop page log init_state].
  cbn [res_model res_explainer]. rewrite Hset, Hbtn. cbn [negb]. fold F x.
  split.
  - intros err Hpred. rewrite Hpred. eexists. reflexivity.
  - intros p Hpred. rewrite Hpred. destruct (shap_body _ _ _); eexists; reflexivity.
Qed.

(** C2, as the code has it. In [app/streamlit_app.py] a failure to load the
    model displays an error and halts the run at once; a failed prediction
    displays an error as the last element of the page and halts the run,
    leaving the log file as it was. A failure of the SHAP explanation there
    only displays a warning: the run goes on with the sections after the
    prediction section, from the state the warning left; when the monitoring
    section does not itself halt, the page ends with the feature-importance
    and summary sections. In [src/model_training.py] a failure of the SHAP
    explanation displays an error and the exception's text, and the run goes
    on to the end of the page. *)
Theorem exception_handlers (e : Env) (fs : log_file) (te : TrainingEnv) :
  (forall err, load_result e = inl err ->
     run e fs = (None, {| page := [Markdown "<style>"; Error ("Model loading failed: " ++ err)];
                          log := fs |})) /\
  (forall r err, load_result e = inr r ->
     predict_button (inputs e) = true ->
     same_set (map fst (input_frame (inputs e))) (feature_name_ (res_model r)) = true ->
     predict_positive (res_model r)
       (reindex (feature_name_ (res_model r)) (input_frame (inputs e))) = inl err ->
     (run e fs).1 = None /\
     last (page (run e fs).2) = Some (Error ("Prediction failed: " ++ err)) /\
     log (run e fs).2 = fs) /\
  (forall r p err, load_result e = inr r ->
     predict_button (inputs e) = true ->
     same_set (map fst (input_frame (inputs e))) (feature_name_ (res_model r)) = true ->
     predict_positive (res_model r)
       (reindex (feature_name_ (res_model r)) (input_frame (inputs e))) = inr p ->
     shap_body (res_explainer r) (feature_name_ (res_model r))
       (reindex (feature_name_ (res_model r)) (input_frame (inputs e))) = inl err ->
     let x := reindex (feature_name_ (res_model r)) (input_frame (inputs e)) in
     let L := log_prediction x p
                (risk_level p (medium_threshold (inputs e)) (high_threshold (inputs e)))
                (clock e) fs in
     exists pg,
       run e fs =
         footer_sections (high_threshold (inputs e))
           {| page := pg ++ [Warning ("Explainability unavailable: " ++ err)]; log := L |} /\
       forall s',
         monitoring_section (high_threshold (inputs e))
           {| page := pg ++ [Warning ("Explainability unavailable: " ++ err); Divider];
              log := L |} = (Some tt, s') ->
         run e fs =
         (Some tt,
          {| page := page s' ++
               [Divider; Subheader "Model Feature Importance"; Chart ""; Divider;
                Subheader "Operational Intelligence Summary";
                Markdown "This platform supports proactive operational decision-making."];
             log := L |})) /\
  (forall m imp ex p err,
     t_model te = inr m -> t_importance te = inr imp -> t_explainer te = inr ex ->
     predict_positive m (input_frame (t_inputs te)) = inr p ->
     shap_body ex (map fst (input_frame (t_inputs te))) (input_frame (t_inputs te)) = inl err ->
     training_run te =
     (Some tt,
      {| page :=
           [Title "Enterprise Delivery Delay Prediction System";
            Markdown "Predictive Analytics and Decision Support Dashboard"; Divider;
            Heading "Order Parameters";
            Widget "Purchase Hour"; Widget "Purchase Day of Week (0 = Monday)";
            Widget "Purchase Month"; Widget "Approval Delay (hours)";
            Widget "Carrier Delay (hours)"; Widget "Estimated Delivery Days";
            Widget "Total Payment Value"; Widget "Payment Installments";
            Subheader "Delay Risk Prediction";
            Metric "Predicted Delay Probability" (CFloat p);
            if Qle_bool (60#100) p then Error "High Risk"
            else if Qle_bool (30#100) p then Warning "Medium Risk"
            else Success "Low Risk";
            Subheader "Risk Confidence Indicator"; Chart "Delay Risk (%)"; Divider;
            Subheader "Explainable AI – Feature Contributions";
            Error "Explainability module could not be generated."; Text err;
            Divider; Subheader "Global Model Feature Importance";
            Chart "Feature Importance Ranking"; Divider; Subheader "Model Overview";
            Markdown MODEL_OVERVIEW];
         log := None |})).
Proof.
  split; [|split; [|split]].
  - intros err Hload. unfold run, dashboard, risk_assessment, load_resources.
    rewrite Hload. reflexivity.
  - intros r err Hload Hbtn Hset Hpred.
    destruct (risk_assessment_pressed e fs r Hload Hbtn Hset) as [Hfail _].
    destruct (Hfail err Hpred) as [pg Hra].
    rewrite (run_halted _ _ _ Hra). cbn. split; [reflexivity|split; [|reflexivity]].
    apply last_snoc.
  - intros r p err Hload Hbtn Hset Hpred Hshap x L.
    destruct (risk_assessment_pressed e fs r Hload Hbtn Hset) as [_ Hok].
    destruct (Hok p Hpred) as [pg Hra]. cbv zeta in Hra. rewrite Hshap in Hra.
    exists pg. split; [exact (run_continues _ _ _ _ Hra)|].
    intros s' Hmon. unfold L, x in Hmon.
    pose proof (keeps_log_monitoring (high_threshold (inputs e))
      {| page := (pg ++ [Warning ("Explainability unavailable: " ++ err); Divider])%list;
         log := log_prediction (reindex (feature_name_ (res_model r)) (input_frame (inputs e))) p
                  (risk_level p (medium_threshold (inputs e)) (high_threshold (inputs e)))
                  (clock e) fs |}) as Hk.
    rewrite Hmon in Hk. cbn [snd log] in Hk.
    rewrite (run_continues _ _ _ _ Hra). unfold footer_sections.
    cbv [mbind script_bind]. cbn [emit page log]. rewrite <- app_assoc. cbn [app].
    rewrite Hmon. destruct s' as [pg' lg']. cbn [page log] in Hk |- *. subst lg'.
    unfold L, x, emit. cbn [page log]. by rewrite <- !app_assoc.
  - intros m imp ex p err Hm Hi Hx Hp Hs.
    destruct te as [tm ti tx tin]. cbn [t_model t_importance t_explainer t_inputs] in *.
    subst tm ti tx. unfold training_run, training_dashboard.
    cbv [uncaught mbind script_bind mret script_ret t_model t_importance t_explainer t_inputs].
    rewrite Hp. cbn [emit page log app]. rewrite Hs. reflexivity.
Qed.

(** C2 as stated fails: in this run the SHAP explanation raises, the warning
    is shown, and the run does not halt: it renders on to the closing
    summary. *)
Lemma shap_failure_keeps_rendering :
  shap_body Samples.explainer_raises Samples.feats
    (reindex Samples.feats (input_frame (Samples.sliders true)))
    = inl "TreeExplainer failed" /\
  In (Warning "Explainability unavailable: TreeExplainer failed")
     (page (run (Samples.env Samples.explainer_raises 1000) None).2) /\
  (run (Samples.env Samples.explainer_raises 1000) None).1 = Some tt /\
  last (page (run (Samples.env Samples.explainer_raises 1000) None).2)
    = Some (Markdown "This platform supports proactive operational decision-making.").
Proof.
  vm_compute. split; [reflexivity|split; [|split; reflexivity]].
  repeat (first [left; reflexivity | right]).
Qed.

(** ** Witnesses *)

Lemma logged_row_layout_witness :
  NoDup Samples.feats /\
  (Samples.feats ≡ₚ INPUT_COLUMNS /\
   exists before,
     log (run (Samples.env Samples.explainer_ok 1000) None).2 =
     Some (before ++
           [Data (map (input_value (Samples.sliders true)) Samples.feats ++
                  [CFloat (7#10); CStr (risk_level (7#10) (3#10) (6#10)); CTime 1000])])%list).
Proof.
  split; [apply (bool_decide_eq_true_1 _); vm_compute; reflexivity|].
  apply (logged_row_layout (Samples.env Samples.explainer_ok 1000) None
           (Samples.resources Samples.explainer_ok) (7#10));
    [reflexivity|reflexivity|vm_compute; reflexivity
    |apply (bool_decide_eq_true_1 _); vm_compute; reflexivity|reflexivity].
Defined.

Lemma exception_handlers_witness :
  (run {| load_result := inl "missing file"; inputs := Samples.sliders true; clock := 0 |} None
   = (None, {| page := [Markdown "<style>"; Error ("Model loading failed: " ++ "missing file")];
               log := None |})) /\
  ((run Samples.env_one_class (Some [Header ["x"]])).1 = None /\
   last (page (run Samples.env_one_class (Some [Header ["x"]])).2)
     = Some (Error ("Prediction failed: " ++ "index 1 is out of bounds")) /\
   log (run Samples.env_one_class (Some [Header ["x"]])).2 = Some [Header ["x"]]) /\
  ((run (Samples.env Samples.explainer_raises 1000) None).1 = Some tt /\
   last (page (run (Samples.env Samples.explainer_raises 1000) None).2)
     = Some (Markdown "This platform supports proactive operational decision-making.")) /\
  ((training_run (Samples.training_env Samples.explainer_raises)).1 = Some tt /\
   In (Text "TreeExplainer failed")
      (page (training_run (Samples.training_env Samples.explainer_raises)).2)).
Proof.
  split; [|split; [|split]].
  - apply (proj1 (exception_handlers
             {| load_result := inl "missing file"; inputs := Samples.sliders true; clock := 0 |}
             None (Samples.training_env Samples.explainer_raises))).
    reflexivity.
  - apply (proj1 (proj2 (exception_handlers Samples.env_one_class (Some [Header ["x"]])
                           (Samples.training_env Samples.explainer_raises)))
             {| res_model := Samples.one_class_model;
                res_explainer := {| shap_values := fun _ => inl "unused" |};
                importance_df := [] |});
      [reflexivity|reflexivity|vm_compute; reflexivity|reflexivity].
  - pose proof (proj1 (proj2 (proj2 (exception_handlers (Samples.env Samples.explainer_raises 1000)
                  None (Samples.training_env Samples.explainer_raises))))
                  (Samples.resources Samples.explainer_raises) (7#10) "TreeExplainer failed"
                  eq_refl eq_refl ltac:(vm_compute; reflexivity) eq_refl eq_refl) as H3.
    cbv zeta in H3. destruct H3 as [pg [_ Hfin]].
    specialize (Hfin _ eq_refl). rewrite Hfin. split; [reflexivity|].
    cbn [snd page]. rewrite last_app_cons. reflexivity.
  - rewrite (proj2 (proj2 (proj2 (exception_handlers (Samples.env Samples.explainer_raises 1000)
                  None (Samples.training_env Samples.explainer_raises))))
               Samples.model [] Samples.explainer_raises (7#10) "TreeExplainer failed"
               eq_refl eq_refl eq_refl eq_refl eq_refl).
    split; [reflexivity|]. cbn [snd page].
    repeat (first [left; reflexivity | right]).
Defined.

(** C5 at the dashboard's default thresholds. *)
Lemma risk_level_partition_witness :
  (3#10 <= 6#10)%Q /\
  (risk_level (45#100) (3#10) (6#10) = "High" <-> (6#10 <= 45#100)%Q) /\
  (risk_level (45#100) (3#10) (6#10) = "Medium" <-> (3#10 <= 45#100 /\ 45#100 < 6#10)%Q) /\
  (risk_level (45#100) (3#10) (6#10) = "Low" <-> (45#100 < 3#10)%Q) /\
  risk_level (45#100) (3#10) (6#10) ∈ ["High"; "Medium"; "Low"].
Proof.
  split; [vm_compute; discriminate|].
  apply risk_level_partition. vm_compute. discriminate.
Defined.

(** C7 on two runs that differ in their clocks and log files. *)
Lemma risk_assessment_deterministic_witness :
  load_result (Samples.env Samples.explainer_ok 1000)
    = load_result (Samples.env Samples.explainer_ok 2000) /\
  (risk_assessment (Samples.env Samples.explainer_ok 1000) (init_state None)).1
    = (risk_assessment (Samples.env Samples.explainer_ok 2000)
         (init_state (Some [Header ["x"]]))).1 /\
  page (risk_assessment (Samples.env Samples.explainer_ok 1000) (init_state None)).2
    = page (risk_assessment (Samples.env Samples.explainer_ok 2000)
              (init_state (Some [Header ["x"]]))).2.
Proof.
  split; [reflexivity|].
  apply risk_assessment_deterministic; reflexivity.
Defined.

(** ** Revenue contribution *)

Module RevenueProofs.
Import Revenue.
Local Open Scope Q_scope.

Lemma fold_left_Qplus (xs : list Q) (a : Q) :
  fold_left Qplus xs a == a + qsum xs.
Proof.
  revert a. induction xs as [|x xs IH]; intros a; cbn.
  - ring.
  - rewrite IH. unfold qsum. ring.
Qed.

Lemma series_sum_Q (xs : list Q) : series_sum Q_arith xs == qsum xs.
Proof. unfold series_sum. cbn. rewrite fold_left_Qplus. ring. Qed.

Lemma qsum_map_ext {T} (f g : T -> Q) (l : list T) :
  (forall x, f x == g x) -> qsum (map f l) == qsum (map g l).
Proof.
  intros H. induction l as [|x l IH]; cbn; [reflexivity|].
  unfold qsum in *. rewrite H, IH. reflexivity.
Qed.

Lemma qsum_map_scale {T} (g : T -> Q) (t : Q) (l : list T) :
  ~ t == 0 -> qsum (map (fun x => g x / t * 100) l) == qsum (map g l) / t * 100.
Proof.
  intros Ht. induction l as [|x l IH]; cbn.
  - unfold qsum. cbn. field. exact Ht.
  - unfold qsum in *. rewrite IH. field. exact Ht.
Qed.

Lemma gsum_cons r rows s :
  gsum (r :: rows) s = if decide (r.1 = Some s) then r.2 + gsum rows s else gsum rows s.
Proof. unfold gsum. rewrite filter_cons. by destruct (decide _). Qed.

Lemma sum_groups_nil (K : list string) : qsum (map (gsum []) K) == 0.
Proof.
  unfold qsum. induction K as [|s K IH]; cbn [map fold_right]; [reflexivity|].
  rewrite IH. unfold gsum, qsum. cbn. reflexivity.
Qed.

Lemma sum_groups_cons_out r rows (K : list string) k :
  r.1 = Some k -> k ∉ K ->
  qsum (map (gsum (r :: rows)) K) = qsum (map (gsum rows) K).
Proof.
  intros Hk. unfold qsum. induction K as [|s K IH]; intros Hout; cbn [map fold_right]; [reflexivity|].
  rewrite gsum_cons. destruct (decide (r.1 = Some s)) as [Hs|Hs].
  - exfalso. apply Hout. rewrite Hk in Hs. injection Hs as ->. left.
  - rewrite IH; [reflexivity|]. intros Hin. apply Hout. by right.
Qed.

Lemma sum_groups_cons r rows (K : list string) k :
  NoDup K -> r.1 = Some k -> k ∈ K ->
  qsum (map (gsum (r :: rows)) K) == r.2 + qsum (map (gsum rows) K).
Proof.
  intros Hnd Hk. induction K as [|s K IH]; intros Hin.
  - by apply not_elem_of_nil in Hin.
  - apply NoDup_cons in Hnd as [Hs Hnd]. unfold qsum in *. cbn [map fold_right].
    rewrite gsum_cons. destruct (decide (r.1 = Some s)) as [Heq|Hne].
    + rewrite Hk in Heq. injection Heq as <-.
      fold (qsum (map (gsum (r :: rows)) K)).
      rewrite (sum_groups_cons_out r rows K k Hk Hs). unfold qsum. ring.
    + apply elem_of_cons in Hin as [->|Hin]; [congruence|].
      rewrite IH; [ring|exact Hnd|exact Hin].
Qed.

(** The segments partition the rows: the segment sums add up to the total. *)
Lemma sum_groups (rows : list seg_row) (K : list string) :
  NoDup K -> (forall r, r ∈ rows -> exists k, r.1 = Some k /\ k ∈ K) ->
  qsum (map (gsum rows) K) == qsum (map snd rows).
Proof.
  intros Hnd. induction rows as [|r rows IH]; intros Hkeys.
  - apply sum_groups_nil.
  - destruct (Hkeys r (list_elem_of_here _ _)) as [k [Hk Hin]].
    rewrite (sum_groups_cons r rows K k Hnd Hk Hin).
    unfold qsum in *. cbn [map fold_right]. rewrite IH; [reflexivity|].
    intros r' Hr'. apply Hkeys. by right.
Qed.

(** C9, in exact arithmetic: when every row carries a Segment label and the
    Monetary total is nonzero, the [Revenue_%] column (each segment's
    Monetary sum divided by the total, times 100) sums to 100. *)
Theorem revenue_pct_sum_100 (rfm_df : list (option string * Q)) :
  (forall r, r ∈ rfm_df -> is_Some r.1) ->
  ~ series_sum Q_arith (map snd rfm_df) == 0 ->
  revenue_pct_sum Q_arith rfm_df == 100.
Proof.
  intros Hlab HT.
  unfold revenue_pct_sum, revenue_contribution. rewrite map_map.
  set (T := series_sum Q_arith (map snd rfm_df)) in *.
  rewrite series_sum_Q.
  rewrite (qsum_map_ext _ (fun s => gsum rfm_df s / T * 100)).
  2:{ intros s. cbn [a_mul a_div a_hundred Q_arith snd].
      rewrite series_sum_Q. reflexivity. }
  rewrite (qsum_map_scale (gsum rfm_df) T _ HT).
  rewrite sum_groups.
  - unfold T. rewrite series_sum_Q. field. rewrite <- series_sum_Q. exact HT.
  - apply NoDup_remove_dups.
  - intros r Hr. destruct (Hlab r Hr) as [k Hk]. exists k. split; [exact Hk|].
    apply elem_of_remove_dups, list_elem_of_omap. exists r. auto.
Qed.

Lemma revenue_pct_sum_100_witness :
  (forall r, r ∈ [(Some "Segment 0", 1); (Some "Segment 1", 2)] -> is_Some r.1) /\
  revenue_pct_sum Q_arith [(Some "Segment 0", 1); (Some "Segment 1", 2)] == 100.
Proof.
  assert (Hlab : forall r, r ∈ [(Some "Segment 0", 1); (Some "Segment 1", 2)] -> is_Some r.1).
  { intros r Hr. apply elem_of_cons in Hr as [->|Hr]; [eexists; reflexivity|].
    apply list_elem_of_singleton in Hr as ->. eexists; reflexivity. }
  split; [exact Hlab|].
  apply revenue_pct_sum_100; [exact Hlab|vm_compute; discriminate].
Defined.

(** C9 as stated fails in float64: every row is labelled and the total is
    3, yet the [Revenue_%] column (33.33333333333333 and 66.66666666666666)
    sums to 99.99999999999999, not 100. *)
Lemma revenue_pct_sum_float_not_100 :
  Forall (fun r : option string * float => is_Some r.1) two_segments /\
  PrimFloat.eqb (series_sum float_arith (map snd two_segments)) 3%float = true /\
  PrimFloat.eqb (revenue_pct_sum float_arith two_segments) 100%float = false /\
  PrimFloat.ltb (revenue_pct_sum float_arith two_segments) 100%float = true.
Proof.
  split; [repeat constructor; eexists; reflexivity|].
  split; [reflexivity|split; reflexivity].
Qed.

End RevenueProofs.


(* ================================================================== *)
(** ** Properties of [RFMSegmenter.build_rfm] *)
(* ================================================================== *)

Module RFMProofs.
Import RFM.
Local Open Scope Z_scope.

(** [groupby] over distinct keys: the filter on a key keeps at most the one
    row of that key. *)
Lemma filter_keyed {V} (K : list string) (f : string -> V) (x : string) :
  NoDup K ->
  filter (fun kv : string * V => kv.1 = x) (map (fun k => (k, f k)) K)
  = if decide (x ∈ K) then [(x, f x)] else [].
Proof.
  induction K as [|k K IH]; intros Hnd; [reflexivity|].
  apply NoDup_cons in Hnd as [Hk Hnd].
  cbn [map]. rewrite filter_cons. cbn [fst].
  rewrite IH by exact Hnd.
  destruct (decide (k = x)) as [->|Hne].
  - rewrite (decide_False (P:=x ∈ K)) by exact Hk.
    rewrite decide_True by apply list_elem_of_here. reflexivity.
  - destruct (decide (x ∈ K)) as [Hin|Hin];
      destruct (decide (x ∈ k :: K)) as [Hin'|Hin']; try reflexivity.
    + exfalso. apply Hin'. by right.
    + exfalso. apply elem_of_cons in Hin' as [->|Hin']; auto.
Qed.

Lemma nansum_some (xs : list Q) :
  nansum (map Some xs) = fold_right Qplus 0%Q xs.
Proof. induction xs as [|x xs IH]; [reflexivity|]. cbn. unfold nansum in IH. by rewrite IH. Qed.

Lemma payments_agg_filter (ps : list payment) (oid : string) :
  filter (fun kv : string * Q => kv.1 = oid) (payments_agg ps)
  = if decide (oid ∈ map pay_order_id ps) then [(oid, order_total ps oid)] else [].
Proof.
  unfold payments_agg, group_keys.
  rewrite filter_keyed by apply NoDup_remove_dups.
  destruct (decide (oid ∈ remove_dups _)) as [Hin|Hin];
    destruct (decide (oid ∈ map pay_order_id ps)) as [Hin'|Hin'].
  - do 2 f_equal. rewrite <- map_map with (g := Some). apply nansum_some.
  - exfalso. apply Hin'. apply elem_of_remove_dups. exact Hin.
  - exfalso. apply Hin. by apply elem_of_remove_dups.
  - reflexivity.
Qed.

(** With [order_id] unique in [payments_agg], the first merge keeps one row
    per order. *)
Lemma merge_payments_eq (os : list order) (ps : list payment) :
  merge_payments os (payments_agg ps) = map (fun o => (o, pay_of ps o)) os.
Proof.
  induction os as [|o os IH]; [reflexivity|].
  change (merge_payments (o :: os) (payments_agg ps)) with
    ((match filter (fun kv => kv.1 = order_id o) (payments_agg ps) with
      | [] => [(o, None)]
      | ms => map (fun kv => (o, Some kv.2)) ms
      end) ++ merge_payments os (payments_agg ps))%list.
  rewrite payments_agg_filter, IH. cbn [map]. unfold pay_of.
  destruct (decide (order_id o ∈ map pay_order_id ps)); reflexivity.
Qed.

Lemma filter_customers_absent (cs : list customer) (cid : string) :
  cid ∉ map cust_customer_id cs ->
  filter (fun c => cust_customer_id c = cid) cs = [].
Proof.
  induction cs as [|c cs IH]; intros Hn; [reflexivity|].
  rewrite filter_cons. case_decide as Heq.
  - exfalso. apply Hn. rewrite <- Heq. apply list_elem_of_here.
  - apply IH. intros Hin. apply Hn. by right.
Qed.

(** With [customer_id] a key of [customers], at most one customer matches. *)
Lemma filter_customers_nodup (cs : list customer) (cid : string) :
  NoDup (map cust_customer_id cs) ->
  filter (fun c => cust_customer_id c = cid) cs = [] \/
  exists c, filter (fun c => cust_customer_id c = cid) cs = [c].
Proof.
  induction cs as [|c cs IH]; intros Hnd; [by left|].
  cbn [map] in Hnd. apply NoDup_cons in Hnd as [Hc Hnd].
  rewrite filter_cons. case_decide as Heq.
  - right. exists c. rewrite filter_customers_absent; [reflexivity|].
    by rewrite <- Heq.
  - by apply IH.
Qed.

Lemma merge_customers_eq (os : list order) (ps : list payment) (cs : list customer) :
  NoDup (map cust_customer_id cs) ->
  merge_customers (map (fun o => (o, pay_of ps o)) os) cs = map (row_of ps cs) os.
Proof.
  intros Hnd. induction os as [|o os IH]; [reflexivity|].
  change (merge_customers (map (fun o => (o, pay_of ps o)) (o :: os)) cs) with
    ((match filter (fun c => cust_customer_id c = customer_id o) cs with
      | [] => [{| df_order := o; df_payment_value := pay_of ps o;
                  df_customer_unique_id := None |}]
      | ms => map (fun c => {| df_order := o; df_payment_value := pay_of ps o;
                               df_customer_unique_id := Some (customer_unique_id c) |}) ms
      end) ++ merge_customers (map (fun o => (o, pay_of ps o)) os) cs)%list.
  rewrite IH. cbn [map]. unfold row_of, unique_id_of.
  destruct (filter_customers_nodup cs (customer_id o) Hnd) as [H|[c H]];
    rewrite H; reflexivity.
Qed.

Lemma filter_rows (os : list order) (ps : list payment) (cs : list customer) (u : string) :
  filter (fun r => df_customer_unique_id r = Some u) (map (row_of ps cs) os)
  = map (row_of ps cs) (customer_orders os cs u).
Proof.
  unfold customer_orders. induction os as [|o os IH]; [reflexivity|].
  cbn [map]. rewrite !filter_cons. cbn [row_of df_customer_unique_id].
  repeat case_decide; try contradiction; cbn [map]; by rewrite IH.
Qed.

Lemma ts_max_fold (t : Z) (ts : list Z) :
  (fold_right Z.max t ts = t \/ fold_right Z.max t ts ∈ ts) /\
  t <= fold_right Z.max t ts /\ Forall (fun x => x <= fold_right Z.max t ts) ts.
Proof.
  induction ts as [|x ts [IH1 [IH2 IH3]]]; cbn [fold_right].
  - split; [by left|]. split; [lia|constructor].
  - destruct (Z.max_spec x (fold_right Z.max t ts)) as [[Hlt ->]|[Hge ->]].
    + split; [destruct IH1 as [->|Hin]; [by left|right; by right]|].
      split; [exact IH2|]. constructor; [lia|exact IH3].
    + split; [right; apply list_elem_of_here|].
      split; [lia|]. constructor; [lia|].
      eapply Forall_impl; [exact IH3|]. intros y Hy; cbn in Hy; lia.
Qed.

(** [ts_max] returns the maximum of a nonempty list. *)
Lemma ts_max_spec (ts : list Z) :
  ts <> [] -> exists M, ts_max ts = Some M /\ M ∈ ts /\ Forall (fun x => x <= M) ts.
Proof.
  destruct ts as [|t ts]; [congruence|]. intros _.
  destruct (ts_max_fold t ts) as [H1 [H2 H3]].
  exists (fold_right Z.max t ts). split; [reflexivity|]. split.
  - destruct H1 as [->|Hin]; [apply list_elem_of_here|by right].
  - constructor; assumption.
Qed.

Lemma remove_dups_nodup (l : list string) : NoDup l -> remove_dups l = l.
Proof.
  induction l as [|x l IH]; intros Hnd; [reflexivity|].
  apply NoDup_cons in Hnd as [Hx Hnd]. cbn.
  destruct (decide_rel _ x l) as [Hin|_]; [contradiction|by rewrite IH].
Qed.

Lemma order_total_absent (ps : list payment) (oid : string) :
  oid ∉ map pay_order_id ps -> order_total ps oid = 0%Q.
Proof.
  intros Hin. unfold order_total.
  induction ps as [|p ps IH]; [reflexivity|].
  rewrite filter_cons. case_decide as Heq.
  - exfalso. apply Hin. rewrite <- Heq. apply list_elem_of_here.
  - apply IH. intros H. apply Hin. by right.
Qed.

(** Summing the merged payment column skips the orders without payments,
    whose total is 0. *)
Lemma monetary_sum (ps : list payment) (cs : list customer) (l : list order) :
  (nansum (map df_payment_value (map (row_of ps cs) l)) ==
   fold_right Qplus 0 (map (order_total ps) (map order_id l)))%Q.
Proof.
  induction l as [|o l IH]; [reflexivity|].
  unfold nansum in *. cbn [map row_of df_payment_value]. unfold pay_of.
  destruct (decide _) as [Hin|Hin]; simpl.
  - rewrite IH. reflexivity.
  - rewrite IH, order_total_absent by exact Hin. ring.
Qed.

Lemma NoDup_map_filter {A} (f : A -> string) (P : A -> Prop)
    `{forall x, Decision (P x)} (l : list A) :
  NoDup (map f l) -> NoDup (map f (filter P l)).
Proof.
  induction l as [|x l IH]; intros Hnd; [constructor|].
  cbn [map] in Hnd. apply NoDup_cons in Hnd as [Hx Hnd].
  rewrite filter_cons. case_decide; [|by apply IH].
  cbn [map]. constructor; [|by apply IH].
  intros Hin. apply Hx. apply list_elem_of_In in Hin. apply list_elem_of_In.
  apply in_map_iff in Hin as [y [Hy Hy']]. apply in_map_iff. exists y.
  split; [exact Hy|]. apply list_elem_of_In in Hy'. apply list_elem_of_In.
  by apply list_elem_of_filter in Hy' as [_ Hy'].
Qed.

(** C3: with [order_id] a key of [orders] and [customer_id] a key of
    [customers], each row of the RFM table, for the customer [u] it names,
    has Recency the whole days from [u]'s latest purchase to the latest
    purchase over all orders, Frequency the number of [u]'s distinct
    order ids, and Monetary the sum over [u]'s orders of the order's total
    payment value (0 for an order without payments). *)
Theorem build_rfm_spec (os : list order) (ps : list payment)
    (cs : list customer) (r : rfm_row) :
  NoDup (map order_id os) ->
  NoDup (map cust_customer_id cs) ->
  r ∈ build_rfm os ps cs ->
  let mine := customer_orders os cs (rfm_customer_unique_id r) in
  (exists M m,
     M ∈ map order_purchase_timestamp os /\
     Forall (fun t => t <= M) (map order_purchase_timestamp os) /\
     m ∈ map order_purchase_timestamp mine /\
     Forall (fun t => t <= m) (map order_purchase_timestamp mine) /\
     Recency r = Some (Z.div (M - m) 86400)) /\
  Frequency r = List.length (remove_dups (map order_id mine)) /\
  (Monetary r == fold_right Qplus 0 (map (order_total ps) (remove_dups (map order_id mine))))%Q.
Proof.
  intros Hno Hnc Hr mine. unfold build_rfm in Hr. cbv zeta in Hr.
  rewrite merge_payments_eq, merge_customers_eq in Hr by exact Hnc.
  apply list_elem_of_In, in_map_iff in Hr as [u [<- Hu]].
  apply list_elem_of_In in Hu.
  subst mine. cbn [rfm_customer_unique_id Recency Frequency Monetary].
  rewrite filter_rows.
  (* the customer has an order *)
  apply elem_of_remove_dups, list_elem_of_omap in Hu as [row [Hrow Hid]].
  apply list_elem_of_In, in_map_iff in Hrow as [o [<- Ho]].
  apply list_elem_of_In in Ho.
  assert (Hmine : o ∈ customer_orders os cs u).
  { apply list_elem_of_filter. split; [exact Hid|exact Ho]. }
  assert (Hall : map (fun r => order_purchase_timestamp (df_order r)) (map (row_of ps cs) os)
                 = map order_purchase_timestamp os) by (rewrite map_map; reflexivity).
  assert (Hsub : map (fun r => order_purchase_timestamp (df_order r))
                   (map (row_of ps cs) (customer_orders os cs u))
                 = map order_purchase_timestamp (customer_orders os cs u))
    by (rewrite map_map; reflexivity).
  assert (Hids : map (fun r => order_id (df_order r)) (map (row_of ps cs) (customer_orders os cs u))
                 = map order_id (customer_orders os cs u)) by (rewrite map_map; reflexivity).
  assert (Hnd : NoDup (map order_id (customer_orders os cs u)))
    by (apply NoDup_map_filter; exact Hno).
  rewrite Hall, Hsub, Hids.
  destruct (ts_max_spec (map order_purchase_timestamp os)) as [M [HM [HMin HMup]]].
  { intros Hnil. apply map_eq_nil in Hnil. subst os. by apply not_elem_of_nil in Ho. }
  destruct (ts_max_spec (map order_purchase_timestamp (customer_orders os cs u)))
    as [m [Hm [Hmin Hmup]]].
  { intros Hnil. apply map_eq_nil in Hnil. rewrite Hnil in Hmine.
    by apply not_elem_of_nil in Hmine. }
  rewrite HM, Hm. split; [|split].
  - exists M, m. repeat split; assumption.
  - reflexivity.
  - rewrite remove_dups_nodup by exact Hnd. apply monetary_sum.
Qed.
Lemma build_rfm_spec_witness :
  NoDup (map order_id sample_orders) /\
  NoDup (map cust_customer_id sample_customers) /\
  List.length (build_rfm sample_orders sample_payments sample_customers) = 2%nat /\
  Forall (fun r =>
    let mine := customer_orders sample_orders sample_customers (rfm_customer_unique_id r) in
    (exists M m,
       M ∈ map order_purchase_timestamp sample_orders /\
       Forall (fun t => t <= M) (map order_purchase_timestamp sample_orders) /\
       m ∈ map order_purchase_timestamp mine /\
       Forall (fun t => t <= m) (map order_purchase_timestamp mine) /\
       Recency r = Some (Z.div (M - m) 86400)) /\
    Frequency r = List.length (remove_dups (map order_id mine)) /\
    (Monetary r == fold_right Qplus 0
                     (map (order_total sample_payments) (remove_dups (map order_id mine))))%Q)
    (build_rfm sample_orders sample_payments sample_customers).
Proof.
  assert (Ho : NoDup (map order_id sample_orders))
    by (apply (bool_decide_eq_true_1 (NoDup _)); vm_compute; reflexivity).
  assert (Hc : NoDup (map cust_customer_id sample_customers))
    by (apply (bool_decide_eq_true_1 (NoDup _)); vm_compute; reflexivity).
  split; [exact Ho|]. split; [exact Hc|]. split; [vm_compute; reflexivity|].
  apply Forall_forall. intros r Hr.
  exact (build_rfm_spec sample_orders sample_payments sample_customers r Ho Hc Hr).
Defined.

End RFMProofs.

(* ================================================================== *)
(** ** Properties of [DeliveryFeatureEngineer.transform] *)
(* ================================================================== *)

Module FeaturesProofs.
Import Features.

Lemma omap_map_sublist {A B C} (f : A -> B) (g : B -> option C) (l : list A) :
  exists S, S `sublist_of` l /\ Forall2 (fun x y => g (f x) = Some y) S (omap g (map f l)).
Proof.
  induction l as [|x l [S [HS HF]]]; [exists []; split; constructor|].
  cbn [map]. simpl. destruct (g (f x)) as [y|] eqn:Hy.
  - exists (x :: S). split; [by apply sublist_skip|]. by constructor.
  - exists S. split; [by apply sublist_cons|exact HF].
Qed.

Lemma Forall2_map_r {A B C} (Q : A -> B -> Prop) (h : B -> C) S L :
  Forall2 Q S L -> Forall2 (fun x w => exists y, Q x y /\ w = h y) S (map h L).
Proof. induction 1; constructor; eauto. Qed.

(** A sublist of the right-hand list is related to a sublist of the left. *)
Lemma Forall2_sublist_r {A B} (Q : A -> B -> Prop) S L L' :
  Forall2 Q S L -> L' `sublist_of` L ->
  exists S', S' `sublist_of` S /\ Forall2 Q S' L'.
Proof.
  intros HF Hsub. revert S HF.
  induction Hsub as [|y L1 L2 Hs IH|y L1 L2 Hs IH]; intros S HF.
  - inversion HF; subst. exists []. split; constructor.
  - inversion HF as [|x ? S0 ? HQ HF0]; subst.
    destruct (IH S0 HF0) as [S' [H1 H2]].
    exists (x :: S'). split; [by apply sublist_skip|by constructor].
  - inversion HF as [|x ? S0 ? HQ HF0]; subst.
    destruct (IH S0 HF0) as [S' [H1 H2]].
    exists S'. split; [by apply sublist_cons|exact H2].
Qed.

Lemma clean_data_sublist (cfg : config) (ws : list work_row) :
  clean_data cfg ws `sublist_of` ws.
Proof. unfold clean_data. apply sublist_filter. Qed.

Lemma add_col_keeps (cols : list string) (c d : string) :
  c ∈ cols -> c ∈ add_col cols d.
Proof.
  intros H. unfold add_col. destruct (has_col d cols); [exact H|].
  apply elem_of_app. by left.
Qed.

Lemma add_col_adds (cols : list string) (c : string) : c ∈ add_col cols c.
Proof.
  unfold add_col, has_col. destruct (bool_decide (c ∈ cols)) eqn:E.
  - by apply bool_decide_eq_true_1 in E.
  - apply elem_of_app. right. apply list_elem_of_here.
Qed.

Lemma create_target_rows (parse_text : string -> option Z) (X : in_frame) :
  "order_delivered_customer_date" ∈ columns X ->
  "order_estimated_delivery_date" ∈ columns X ->
  exists S, S `sublist_of` rows X /\
    Forall2 (fun x y => index y = index x /\ labelled parse_text x (is_delayed y))
      S (rows (create_target (parse_datetimes parse_text X))).
Proof.
  intros Hd He.
  assert (Hd' : has_col "order_delivered_customer_date" (columns X) = true)
    by (apply bool_decide_eq_true_2; exact Hd).
  assert (He' : has_col "order_estimated_delivery_date" (columns X) = true)
    by (apply bool_decide_eq_true_2; exact He).
  unfold create_target, parse_datetimes. cbn [columns rows].
  rewrite Hd', He'. cbn [andb rows].
  destruct (omap_map_sublist (parse_row parse_text (columns X)) target_row (rows X))
    as [S [HS HF]].
  exists S. split; [exact HS|].
  eapply Forall2_impl; [exact HF|]. intros x y Hxy.
  unfold target_row, parse_row in Hxy. cbn [order_delivered_customer_date
    order_estimated_delivery_date] in Hxy. rewrite Hd', He' in Hxy.
  destruct (dt_of (to_datetime parse_text (order_delivered_customer_date x)))
    as [d|] eqn:Hdd; [|discriminate].
  destruct (dt_of (to_datetime parse_text (order_estimated_delivery_date x)))
    as [e|] eqn:Hee; [|discriminate].
  cbn in Hxy. injection Hxy as <-. cbn [index is_delayed set_is_delayed].
  split; [reflexivity|]. exists d, e. split; [exact Hdd|]. split; [exact Hee|].
  destruct (Z.ltb_spec e d); [left|right]; split; auto; lia.
Qed.

(** C6: when both date columns are present, the returned dataset has the
    [is_delayed] column, and its rows come, in order, from input rows whose
    delivered and estimated dates are both present after parsing; each row's
    [is_delayed] is 1 when the delivered date is strictly later than the
    estimated one and 0 otherwise. Rows missing either date are dropped. *)
Theorem transform_is_delayed (parse_text : string -> option Z) (cfg : config)
    (X : in_frame) (cols : list string) (out : list out_row) :
  "order_delivered_customer_date" ∈ columns X ->
  "order_estimated_delivery_date" ∈ columns X ->
  transform parse_text cfg X = Some (cols, out) ->
  TARGET_COLUMN ∈ cols /\
  exists S, S `sublist_of` rows X /\
    Forall2 (fun x r => o_index r = index x /\ labelled parse_text x (o_is_delayed r)) S out.
Proof.
  intros Hd He Ht.
  destruct (create_target_rows parse_text X Hd He) as [S [HS HF]].
  assert (Hcols : columns (create_target (parse_datetimes parse_text X))
                  = add_col (columns X) TARGET_COLUMN).
  { unfold create_target, parse_datetimes. cbn [columns].
    unfold has_col. rewrite (bool_decide_eq_true_2 _ Hd), (bool_decide_eq_true_2 _ He).
    reflexivity. }
  unfold transform in Ht.
  set (f := create_target (parse_datetimes parse_text X)) in *.
  destruct (create_time_features cfg f) as [[cols' ws]|] eqn:Hctf; [|discriminate].
  cbn in Ht. unfold create_time_features in Hctf.
  destruct (_ && _) in Hctf; [|discriminate]. injection Hctf as <- <-.
  unfold get_final_dataset in Ht.
  assert (Htc : has_col TARGET_COLUMN (foldl add_col (columns f)
                  ["purchase_hour"; "purchase_dayofweek"; "purchase_month";
                   "approval_delay_hours"; "carrier_delay_hours";
                   "estimated_delivery_days"]) = true).
  { apply bool_decide_eq_true_2. cbn [foldl].
    repeat apply add_col_keeps. rewrite Hcols. apply add_col_adds. }
  cbn [foldl] in Htc. rewrite Htc in Ht.
  destruct (forallb _ _) in Ht; [|discriminate]. injection Ht as <- <-.
  split.
  { apply (bool_decide_eq_true_1 (TARGET_COLUMN ∈ _)). vm_compute. reflexivity. }
  pose proof (Forall2_map_r _ time_features_row _ _ HF) as HF1.
  destruct (Forall2_sublist_r _ _ _ _ HF1 (clean_data_sublist cfg (map time_features_row (rows f))))
    as [S' [HS' HF2]].
  exists S'. split; [etransitivity; eassumption|].
  pose proof (Forall2_map_r _ final_row _ _ HF2) as HF3.
  eapply Forall2_impl; [exact HF3|].
  intros x r [w [[y [[Hidx Hlab] ->]] ->]].
  cbn [final_row time_features_row w_src o_index o_is_delayed].
  split; [exact Hidx|exact Hlab].
Qed.

Lemma transform_is_delayed_witness :
  "order_delivered_customer_date" ∈ columns sample_frame /\
  "order_estimated_delivery_date" ∈ columns sample_frame /\
  match transform no_text_dates default_config sample_frame with
  | Some (cols, out) =>
      List.length out = 2%nat /\
      TARGET_COLUMN ∈ cols /\
      exists S, S `sublist_of` rows sample_frame /\
        Forall2 (fun x r => o_index r = index x /\
                            labelled no_text_dates x (o_is_delayed r)) S out
  | None => False
  end.
Proof.
  assert (Hd : "order_delivered_customer_date" ∈ columns sample_frame)
    by (apply (bool_decide_eq_true_1 (_ ∈ _)); vm_compute; reflexivity).
  assert (He : "order_estimated_delivery_date" ∈ columns sample_frame)
    by (apply (bool_decide_eq_true_1 (_ ∈ _)); vm_compute; reflexivity).
  split; [exact Hd|]. split; [exact He|].
  destruct (transform no_text_dates default_config sample_frame) as [[cols out]|] eqn:Ht.
  - split.
    + vm_compute in Ht. injection Ht as _ <-. reflexivity.
    + exact (transform_is_delayed no_text_dates default_config sample_frame cols out Hd He Ht).
  - vm_compute in Ht. discriminate.
Defined.

End FeaturesProofs.

(* ================================================================== *)
(** ** Properties of [_assign_segment_labels] and [recommend_strategy] *)
(* ================================================================== *)

Module SegmentsProofs.
Import Revenue Segments.

Lemma lookup_map {A B} (f : A -> B) (l : list A) (i : nat) :
  map f l !! i = f <$> l !! i.
Proof. revert i. induction l as [|x l IH]; intros [|i]; cbn; auto. Qed.

Lemma label_of_zip_some (ks : list Z) (ns : list string) (k : Z) (s : string) :
  label_of (zip ks ns) k = Some s -> exists i, ks !! i = Some k /\ ns !! i = Some s.
Proof.
  revert ns. induction ks as [|a ks IH]; intros [|n ns]; cbn; try discriminate.
  destruct (Z.eqb_spec a k) as [->|Hne].
  - intros [= <-]. by exists 0%nat.
  - intros H. destruct (IH ns H) as [i Hi]. by exists (S i).
Qed.

Lemma label_of_zip_none (ks : list Z) (ns : list string) (k : Z) (j : nat) :
  label_of (zip ks ns) k = None -> ks !! j = Some k -> (List.length ns <= j)%nat.
Proof.
  revert ns j. induction ks as [|a ks IH]; intros [|n ns] j; cbn; try lia.
  - intros _ H. discriminate.
  - destruct (Z.eqb_spec a k) as [->|Hne]; [discriminate|].
    destruct j as [|j]; cbn; [intros _ [= ->]; contradiction|].
    intros H1 H2. specialize (IH ns j H1 H2). lia.
Qed.

Lemma label_of_zip_absent (ks : list Z) (ns : list string) (k : Z) (j : nat) :
  NoDup ks -> ks !! j = Some k -> (List.length ns <= j)%nat ->
  label_of (zip ks ns) k = None.
Proof.
  intros Hnd Hj Hlen. destruct (label_of (zip ks ns) k) as [s|] eqn:E; [|reflexivity].
  destruct (label_of_zip_some _ _ _ _ E) as [i [Hi Hs]].
  assert (i = j) by (eapply NoDup_lookup; eassumption). subst i.
  apply lookup_lt_Some in Hs. lia.
Qed.

Lemma label_of_imap (g : nat -> string) (ks : list Z) (k : Z) :
  (k ∈ ks -> is_Some (label_of (imap (fun i c => (c, g i)) ks) k)) /\
  (forall s, label_of (imap (fun i c => (c, g i)) ks) k = Some s -> exists i, s = g i).
Proof.
  revert g. induction ks as [|a ks IH]; intros g.
  - split; [intros H; by apply not_elem_of_nil in H|discriminate].
  - cbn. destruct (Z.eqb_spec a k) as [->|Hne].
    + split; [by eexists|intros s [= <-]; by exists 0%nat].
    + destruct (IH (fun i => g (S i))) as [IH1 IH2]. split.
      * intros Hk. apply elem_of_cons in Hk as [->|Hk]; [contradiction|].
        exact (IH1 Hk).
      * intros s Hs. destruct (IH2 s Hs) as [i ->]. by exists (S i).
Qed.

Lemma cluster_keys_nodup (rows : list crow) : NoDup (cluster_keys rows).
Proof.
  unfold cluster_keys. rewrite merge_sort_Permutation. apply NoDup_remove_dups.
Qed.

Lemma cluster_keys_elem (rows : list crow) (k : Z) :
  k ∈ cluster_keys rows <-> exists r, r ∈ rows /\ c_cluster r = k.
Proof.
  unfold cluster_keys. rewrite merge_sort_Permutation, elem_of_remove_dups.
  rewrite list_elem_of_In, in_map_iff. split.
  - intros [r [<- Hr]]. exists r. split; [by apply list_elem_of_In|reflexivity].
  - intros [r [Hr <-]]. exists r. split; [reflexivity|by apply list_elem_of_In].
Qed.

Section Order.
Variable sort : list (Z * Q) -> list (Z * Q).
Hypothesis sort_perm : forall l, sort l ≡ₚ l.

Lemma cluster_order_perm (rows : list crow) :
  map fst (sort (cluster_summary rows)) ≡ₚ cluster_keys rows.
Proof.
  rewrite (Permutation_map fst (sort_perm _)).
  unfold cluster_summary. rewrite map_map. cbn. by rewrite map_id.
Qed.

Lemma cluster_order_nodup (rows : list crow) : NoDup (map fst (sort (cluster_summary rows))).
Proof. rewrite cluster_order_perm. apply cluster_keys_nodup. Qed.

Lemma cluster_order_length (rows : list crow) :
  List.length (map fst (sort (cluster_summary rows))) = List.length (cluster_keys rows).
Proof. apply Permutation_length, cluster_order_perm. Qed.

Lemma row_cluster_in_order (rows : list crow) (r : crow) :
  r ∈ rows -> c_cluster r ∈ map fst (sort (cluster_summary rows)).
Proof.
  intros Hr. rewrite cluster_order_perm. apply cluster_keys_elem. by exists r.
Qed.

Lemma sorted_entry (rows : list crow) (a : Z * Q) :
  a ∈ sort (cluster_summary rows) -> a.2 = cluster_mean rows a.1.
Proof.
  rewrite sort_perm. unfold cluster_summary. rewrite list_elem_of_In, in_map_iff.
  intros [k [<- _]]. reflexivity.
Qed.

Lemma assign_elem (rows : list crow) (p : crow * option string) :
  p ∈ assign_segment_labels sort rows ->
  p.1 ∈ rows /\
  p.2 = label_of (label_map (map fst (sort (cluster_summary rows)))) (c_cluster p.1).
Proof.
  unfold assign_segment_labels. rewrite list_elem_of_In, in_map_iff.
  intros [r [<- Hr]]. split; [by apply list_elem_of_In|reflexivity].
Qed.

End Order.

Lemma monetary_desc_trans : Transitive monetary_desc.
Proof.
  intros a b c Hab Hbc. unfold monetary_desc in *.
  apply Qle_bool_iff in Hab, Hbc. apply Qle_bool_iff. lra.
Qed.

Lemma monetary_desc_total : Total monetary_desc.
Proof.
  intros a b. unfold monetary_desc. rewrite !Qle_bool_iff.
  destruct (Qlt_le_dec a.2 b.2); [right|left]; lra.
Qed.

Lemma strongly_sorted_lookup {A} (R : A -> A -> Prop) (L : list A) (i j : nat) (a b : A) :
  StronglySorted R L -> (i < j)%nat -> L !! i = Some a -> L !! j = Some b -> R a b.
Proof.
  intros HS. revert i j. induction HS as [|x L HS IH HF]; intros i j Hij Hi Hj;
    [discriminate|].
  destruct i as [|i], j as [|j]; cbn in Hi, Hj; try lia.
  - injection Hi as <-. rewrite Forall_forall in HF. apply HF.
    exact (list_elem_of_lookup_2 _ _ _ Hj).
  - apply (IH i j); [lia|assumption|assumption].
Qed.

(** Revenue shares of a fully labelled table, in exact arithmetic. *)
Lemma pct_sum_100_labelled (rfm_df : list (option string * Q)) :
  (forall r, r ∈ rfm_df -> is_Some r.1) ->
  ~ series_sum Q_arith (map snd rfm_df) == 0 ->
  revenue_pct_sum Q_arith rfm_df == 100.
Proof.
  intros Hlab HT.
  unfold revenue_pct_sum, revenue_contribution. rewrite map_map.
  set (T := series_sum Q_arith (map snd rfm_df)) in *.
  rewrite RevenueProofs.series_sum_Q.
  rewrite (RevenueProofs.qsum_map_ext _ (fun s => gsum rfm_df s / T * 100)).
  2:{ intros s. cbn [a_mul a_div a_hundred Q_arith snd].
      rewrite RevenueProofs.series_sum_Q. reflexivity. }
  rewrite (RevenueProofs.qsum_map_scale (gsum rfm_df) T _ HT).
  rewrite RevenueProofs.sum_groups.
  - unfold T. rewrite RevenueProofs.series_sum_Q. field.
    rewrite <- RevenueProofs.series_sum_Q. exact HT.
  - apply NoDup_remove_dups.
  - intros r Hr. destruct (Hlab r Hr) as [k Hk]. exists k. split; [exact Hk|].
    apply elem_of_remove_dups, list_elem_of_omap. exists r. auto.
Qed.

Lemma segment_names_nodup : NoDup SEGMENT_NAMES.
Proof. apply (bool_decide_eq_true_1 (NoDup _)). vm_compute. reflexivity. Qed.

Lemma segment_prefix_not_name (n : nat) (s : string) :
  s ∈ SEGMENT_NAMES -> "Segment " ++ pretty n <> s.
Proof.
  intros Hs. repeat (apply elem_of_cons in Hs as [->|Hs]);
    [..|by apply not_elem_of_nil in Hs]; cbn; discriminate.
Qed.

Lemma label_of_zip_names (ks : list Z) (k : Z) (s : string) :
  label_of (zip ks SEGMENT_NAMES) k = Some s -> s ∈ SEGMENT_NAMES.
Proof.
  intros H. destruct (label_of_zip_some _ _ _ _ H) as [i [_ Hi]].
  exact (list_elem_of_lookup_2 _ _ _ Hi).
Qed.

Lemma assign_monetary (sort : list (Z * Q) -> list (Z * Q)) (rows : list crow) :
  map snd (map (fun p => (p.2, c_monetary p.1)) (assign_segment_labels sort rows)) =
  map c_monetary rows.
Proof. unfold assign_segment_labels. by rewrite !map_map. Qed.

(** With at most four clusters every row of the labelled table has a label. *)
Lemma assign_all_labelled (sort : list (Z * Q) -> list (Z * Q)) (rows : list crow) :
  (forall l, sort l ≡ₚ l) ->
  (List.length (cluster_keys rows) <= 4)%nat ->
  forall p, p ∈ assign_segment_labels sort rows -> is_Some p.2.
Proof.
  intros Hperm Hle p Hp. destruct (assign_elem sort rows p Hp) as [Hp1 ->].
    pose proof (row_cluster_in_order sort Hperm rows _ Hp1) as Hin.
    pose proof (cluster_order_length sort Hperm rows) as Hl.
    set (order := map fst (sort (cluster_summary rows))) in *.
    unfold label_map. case_bool_decide as Hlen.
    - destruct (label_of (zip order SEGMENT_NAMES) (c_cluster p.1)) as [s|] eqn:E;
        [by eexists|exfalso].
      apply list_elem_of_lookup_1 in Hin as [jj Hjj].
      pose proof (label_of_zip_none _ _ _ _ E Hjj) as H4.
      apply lookup_lt_Some in Hjj. cbn in H4. lia.
    - exact (proj1 (label_of_imap (fun n => "Segment " ++ pretty n) order _) Hin).
Qed.

(** The common core of the ranking: a row named [SEGMENT_NAMES !! i] comes
    from position [i] of [cluster_order]; a row named [SEGMENT_NAMES !! j]
    from position [j]; an unlabelled row from a position after the fourth. *)
Lemma segment_rank_core (sort : list (Z * Q) -> list (Z * Q)) (rows : list crow)
    (p q : crow * option string) (i j : nat) (s : string) :
  (forall l, sort l ≡ₚ l) -> (forall l, Sorted monetary_desc (sort l)) ->
  p ∈ assign_segment_labels sort rows -> q ∈ assign_segment_labels sort rows ->
  SEGMENT_NAMES !! i = Some s -> p.2 = Some s ->
  (q.2 = None \/ exists t, SEGMENT_NAMES !! j = Some t /\ q.2 = Some t /\ (i <= j)%nat) ->
  (cluster_mean rows (c_cluster q.1) <= cluster_mean rows (c_cluster p.1))%Q.
Proof.
  intros Hperm Hsort Hp Hq Hi Hps Hqs.
  destruct (assign_elem sort rows p Hp) as [Hp1 Hp2].
  destruct (assign_elem sort rows q Hq) as [Hq1 Hq2].
  set (L := sort (cluster_summary rows)) in *.
  set (order := map fst L) in *.
  assert (Hin_q : c_cluster q.1 ∈ order) by exact (row_cluster_in_order sort Hperm rows _ Hq1).
  assert (Hnd : NoDup order) by exact (cluster_order_nodup sort Hperm rows).
  unfold label_map in Hp2, Hq2. case_bool_decide as Hlen.
  2:{ exfalso. rewrite Hps in Hp2.
      destruct (proj2 (label_of_imap (fun n => "Segment " ++ pretty n) order (c_cluster p.1)) s
                  (eq_sym Hp2)) as [n Hn].
      apply (segment_prefix_not_name n s); [exact (list_elem_of_lookup_2 _ _ _ Hi)|].
      exact (eq_sym Hn). }
  (* position of p *)
  rewrite Hps in Hp2.
  destruct (label_of_zip_some _ _ _ _ (eq_sym Hp2)) as [i' [Hi'o Hi'n]].
  assert (i' = i) by (eapply NoDup_lookup; [exact segment_names_nodup|exact Hi'n|exact Hi]).
  subst i'.
  (* position of q, at or after i *)
  assert (Hjq : exists jj, order !! jj = Some (c_cluster q.1) /\ (i <= jj)%nat).
  { destruct Hqs as [Hnone|[t [Hj [Hqt Hij]]]].
    - apply list_elem_of_lookup_1 in Hin_q as [jj Hjj]. exists jj. split; [exact Hjj|].
      rewrite Hnone in Hq2. pose proof (label_of_zip_none _ _ _ _ (eq_sym Hq2) Hjj) as H4.
      apply lookup_lt_Some in Hi. cbn in H4, Hi. lia.
    - rewrite Hqt in Hq2.
      destruct (label_of_zip_some _ _ _ _ (eq_sym Hq2)) as [j' [Hj'o Hj'n]].
      assert (j' = j) by (eapply NoDup_lookup; [exact segment_names_nodup|exact Hj'n|exact Hj]).
      subst j'. by exists j. }
  destruct Hjq as [jj [Hjj Hijj]].
  destruct (decide (i = jj)) as [<-|Hne].
  - rewrite Hi'o in Hjj. injection Hjj as ->. apply Qle_refl.
  - unfold order in Hi'o, Hjj. rewrite lookup_map in Hi'o, Hjj.
    destruct (L !! i) as [a|] eqn:Ha; [|discriminate].
    destruct (L !! jj) as [b|] eqn:Hb; [|discriminate].
    injection Hi'o as Ha1. injection Hjj as Hb1.
    assert (Hab : monetary_desc a b).
    { apply (strongly_sorted_lookup monetary_desc L i jj a b); [|lia|exact Ha|exact Hb].
      apply Sorted_StronglySorted; [exact monetary_desc_trans|apply Hsort]. }
    unfold monetary_desc in Hab. apply Qle_bool_iff in Hab.
    rewrite (sorted_entry sort Hperm rows a (list_elem_of_lookup_2 _ _ _ Ha)) in Hab.
    rewrite (sorted_entry sort Hperm rows b (list_elem_of_lookup_2 _ _ _ Hb)) in Hab.
    rewrite Ha1, Hb1 in Hab. exact Hab.
Qed.

(** [_assign_segment_labels] with at most four clusters (the dashboard runs
    [segment] with [n_clusters=4]): every row gets a Segment, so the
    [Revenue_%] column of [revenue_contribution] on the labelled table sums
    to 100 in exact arithmetic whenever the Monetary total is nonzero. *)
Theorem segment_labels_total (sort : list (Z * Q) -> list (Z * Q)) (rows : list crow) :
  (forall l, sort l ≡ₚ l) ->
  (List.length (cluster_keys rows) <= 4)%nat ->
  (forall p, p ∈ assign_segment_labels sort rows -> is_Some p.2) /\
  (~ series_sum Q_arith (map c_monetary rows) == 0 ->
   revenue_pct_sum Q_arith
     (map (fun p => (p.2, c_monetary p.1)) (assign_segment_labels sort rows)) == 100).
Proof.
  intros Hperm Hle.
  pose proof (assign_all_labelled sort rows Hperm Hle) as Hlab.
  split; [exact Hlab|]. intros HT.
  apply pct_sum_100_labelled.
  - intros r Hr. apply list_elem_of_In, in_map_iff in Hr as [p [<- Hp]].
    apply Hlab. by apply list_elem_of_In.
  - by rewrite assign_monetary.
Qed.


(** [_assign_segment_labels] names the clusters in order of decreasing mean
    Monetary: when row [p] has name [i] of [VIP, Loyal, New, Lost] and row
    [q] has a later or equal name [j], or no name at all, the mean Monetary of
    [q]'s cluster is at most that of [p]'s. Equal means may be ordered either
    way by the sort. *)
Theorem segment_names_rank (sort : list (Z * Q) -> list (Z * Q)) (rows : list crow)
    (p q : crow * option string) (i j : nat) (s : string) :
  (forall l, sort l ≡ₚ l) -> (forall l, Sorted monetary_desc (sort l)) ->
  p ∈ assign_segment_labels sort rows -> q ∈ assign_segment_labels sort rows ->
  SEGMENT_NAMES !! i = Some s -> p.2 = Some s ->
  (q.2 = None \/ exists t, SEGMENT_NAMES !! j = Some t /\ q.2 = Some t /\ (i <= j)%nat) ->
  (cluster_mean rows (c_cluster q.1) <= cluster_mean rows (c_cluster p.1))%Q.
Proof. exact (segment_rank_core sort rows p q i j s). Qed.

(** The "VIP Customers" cluster has the highest mean Monetary: no row of the
    labelled table belongs to a cluster with a larger mean. *)
Theorem vip_cluster_max_mean (sort : list (Z * Q) -> list (Z * Q)) (rows : list crow)
    (p q : crow * option string) :
  (forall l, sort l ≡ₚ l) -> (forall l, Sorted monetary_desc (sort l)) ->
  p ∈ assign_segment_labels sort rows -> q ∈ assign_segment_labels sort rows ->
  p.2 = Some "VIP Customers" ->
  (cluster_mean rows (c_cluster q.1) <= cluster_mean rows (c_cluster p.1))%Q.
Proof.
  intros Hperm Hsort Hp Hq Hvip.
  destruct q.2 as [t|] eqn:Hqt.
  - (* a named q: with a VIP row the names come from [SEGMENT_NAMES] *)
    destruct (assign_elem sort rows p Hp) as [_ Hp2].
    destruct (assign_elem sort rows q Hq) as [_ Hq2].
    unfold label_map in Hp2, Hq2. case_bool_decide as Hlen.
    + rewrite Hqt in Hq2.
      destruct (label_of_zip_some _ _ _ _ (eq_sym Hq2)) as [j [_ Hj]].
      apply (segment_rank_core sort rows p q 0 j "VIP Customers");
        [exact Hperm|exact Hsort|exact Hp|exact Hq|reflexivity|exact Hvip|].
      right. exists t. split; [exact Hj|split; [exact Hqt|lia]].
    + exfalso. rewrite Hvip in Hp2.
      destruct (proj2 (label_of_imap (fun n => "Segment " ++ pretty n) _ (c_cluster p.1))
                  _ (eq_sym Hp2)) as [n Hn].
      apply (segment_prefix_not_name n "VIP Customers"); [left|exact (eq_sym Hn)].
  - apply (segment_rank_core sort rows p q 0 0 "VIP Customers");
      [exact Hperm|exact Hsort|exact Hp|exact Hq|reflexivity|exact Hvip|by left].
Qed.

(** With more than four clusters [label_map] has four entries, so the rows of
    some cluster get no Segment (NaN). *)
Theorem segment_unlabelled_rows (sort : list (Z * Q) -> list (Z * Q)) (rows : list crow) :
  (forall l, sort l ≡ₚ l) ->
  (4 < List.length (cluster_keys rows))%nat ->
  exists p, p ∈ assign_segment_labels sort rows /\ p.2 = None.
Proof.
  intros Hperm Hgt.
  pose proof (cluster_order_length sort Hperm rows) as Hl.
  pose proof (cluster_order_nodup sort Hperm rows) as Hnd.
  set (order := map fst (sort (cluster_summary rows))) in *.
  destruct (lookup_lt_is_Some_2 order 4) as [k Hk]; [lia|].
  assert (Hko : k ∈ cluster_keys rows).
  { rewrite <- (cluster_order_perm sort Hperm rows). exact (list_elem_of_lookup_2 _ _ _ Hk). }
  apply cluster_keys_elem in Hko as [r [Hr <-]].
  exists (r, label_of (label_map order) (c_cluster r)). split.
  - unfold assign_segment_labels. apply list_elem_of_In, in_map_iff.
    exists r. split; [reflexivity|by apply list_elem_of_In].
  - cbn. unfold label_map. rewrite bool_decide_true by lia.
    apply (label_of_zip_absent _ _ _ 4); [exact Hnd|exact Hk|reflexivity].
Qed.

(** [recommend_strategy] on the labelled table: with fewer than four clusters
    the labels are "Segment i" and every row gets "No strategy defined.";
    with exactly four every row gets one of the four strategies. *)
Theorem strategy_by_cluster_count (sort : list (Z * Q) -> list (Z * Q)) (rows : list crow) :
  (forall l, sort l ≡ₚ l) ->
  ((List.length (cluster_keys rows) < 4)%nat ->
   forall p, p ∈ assign_segment_labels sort rows ->
   recommend_strategy p.2 = "No strategy defined.") /\
  (List.length (cluster_keys rows) = 4%nat ->
   forall p, p ∈ assign_segment_labels sort rows ->
   recommend_strategy p.2 <> "No strategy defined.").
Proof.
  intros Hperm. pose proof (cluster_order_length sort Hperm rows) as Hl. split.
  - intros Hlt p Hp. destruct (assign_elem sort rows p Hp) as [_ ->].
    unfold label_map. rewrite bool_decide_false by lia.
    destruct (label_of _ _) as [s|] eqn:E; [|reflexivity].
    destruct (proj2 (label_of_imap (fun n => "Segment " ++ pretty n) _ _) s E) as [n ->].
    reflexivity.
  - intros Heq p Hp.
    destruct (assign_all_labelled sort rows Hperm ltac:(lia) p Hp) as [s Hs].
    destruct (assign_elem sort rows p Hp) as [_ Hp2].
    rewrite Hs. rewrite Hs in Hp2. unfold label_map in Hp2.
    rewrite bool_decide_true in Hp2 by lia.
    apply eq_sym, label_of_zip_names in Hp2.
    repeat (apply elem_of_cons in Hp2 as [->|Hp2]);
      [..|by apply not_elem_of_nil in Hp2]; cbn; discriminate.
Qed.

Lemma merge_sort_desc_perm (l : list (Z * Q)) : merge_sort_desc l ≡ₚ l.
Proof. apply merge_sort_Permutation. Qed.

Lemma merge_sort_desc_sorted (l : list (Z * Q)) : Sorted monetary_desc (merge_sort_desc l).
Proof. exact (@Sorted_merge_sort _ _ _ monetary_desc_total l). Qed.

Lemma segment_labels_total_witness :
  (List.length (cluster_keys sample_rows3) <= 4)%nat /\
  (forall p, p ∈ assign_segment_labels merge_sort_desc sample_rows3 -> is_Some p.2) /\
  (~ series_sum Q_arith (map c_monetary sample_rows3) == 0 ->
   revenue_pct_sum Q_arith
     (map (fun p => (p.2, c_monetary p.1)) (assign_segment_labels merge_sort_desc sample_rows3))
   == 100).
Proof.
  assert (Hle : (List.length (cluster_keys sample_rows3) <= 4)%nat) by (vm_compute; lia).
  split; [exact Hle|].
  apply (segment_labels_total merge_sort_desc sample_rows3 merge_sort_desc_perm Hle).
Defined.

Lemma segment_names_rank_witness :
  (row_c, Some "Loyal Customers") ∈ assign_segment_labels merge_sort_desc sample_rows5 /\
  (row_f, None) ∈ assign_segment_labels merge_sort_desc sample_rows5 /\
  (cluster_mean sample_rows5 4 <= cluster_mean sample_rows5 2)%Q.
Proof.
  assert (Hp : (row_c, Some "Loyal Customers") ∈ assign_segment_labels merge_sort_desc sample_rows5).
  { apply (list_elem_of_lookup_2 _ 2). vm_compute. reflexivity. }
  assert (Hq : (row_f, None) ∈ assign_segment_labels merge_sort_desc sample_rows5).
  { apply (list_elem_of_lookup_2 _ 5). vm_compute. reflexivity. }
  split; [exact Hp|split; [exact Hq|]].
  apply (segment_names_rank merge_sort_desc sample_rows5 _ _ 1 1 "Loyal Customers"
           merge_sort_desc_perm merge_sort_desc_sorted Hp Hq); [reflexivity|reflexivity|].
  left. reflexivity.
Defined.

Lemma vip_cluster_max_mean_witness :
  (row_b, Some "VIP Customers") ∈ assign_segment_labels merge_sort_desc sample_rows5 /\
  (row_f, None) ∈ assign_segment_labels merge_sort_desc sample_rows5 /\
  (cluster_mean sample_rows5 4 <= cluster_mean sample_rows5 1)%Q.
Proof.
  assert (Hp : (row_b, Some "VIP Customers") ∈ assign_segment_labels merge_sort_desc sample_rows5).
  { apply (list_elem_of_lookup_2 _ 1). vm_compute. reflexivity. }
  assert (Hq : (row_f, None) ∈ assign_segment_labels merge_sort_desc sample_rows5).
  { apply (list_elem_of_lookup_2 _ 5). vm_compute. reflexivity. }
  split; [exact Hp|split; [exact Hq|]].
  exact (vip_cluster_max_mean merge_sort_desc sample_rows5 _ _
           merge_sort_desc_perm merge_sort_desc_sorted Hp Hq eq_refl).
Defined.

Lemma segment_unlabelled_rows_witness :
  (4 < List.length (cluster_keys sample_rows5))%nat /\
  exists p, p ∈ assign_segment_labels merge_sort_desc sample_rows5 /\ p.2 = None.
Proof.
  assert (Hgt : (4 < List.length (cluster_keys sample_rows5))%nat) by (vm_compute; lia).
  split; [exact Hgt|].
  exact (segment_unlabelled_rows merge_sort_desc sample_rows5 merge_sort_desc_perm Hgt).
Defined.

Lemma strategy_by_cluster_count_witness :
  (List.length (cluster_keys sample_rows3) < 4)%nat /\
  forall p, p ∈ assign_segment_labels merge_sort_desc sample_rows3 ->
  recommend_strategy p.2 = "No strategy defined.".
Proof.
  assert (Hlt : (List.length (cluster_keys sample_rows3) < 4)%nat) by (vm_compute; lia).
  split; [exact Hlt|].
  exact (proj1 (strategy_by_cluster_count merge_sort_desc sample_rows3 merge_sort_desc_perm) Hlt).
Defined.

End SegmentsProofs.

(* ================================================================== *)
(** ** Properties of the KPI cards of [run_revenue_dashboard] *)
(* ================================================================== *)

Module RevenueKPIProofs.
Import Revenue RevenueKPI.

Lemma count_below_bounds (ms : list Q) (x : Q) :
  (0 <= fold_right Qplus 0 (map (fun m => if Qlt_le_dec m x then 1 else 0) ms) <=
   inject_Z (Z.of_nat (List.length ms)))%Q /\
  (x ∈ ms ->
   fold_right Qplus 0 (map (fun m => if Qlt_le_dec m x then 1 else 0) ms) + 1 <=
   inject_Z (Z.of_nat (List.length ms)))%Q.
Proof.
  induction ms as [|m ms [IH1 IH2]]; cbn [map fold_right List.length].
  - split; [cbn; split; discriminate|intros H; by apply not_elem_of_nil in H].
  - rewrite Nat2Z.inj_succ, <- Z.add_1_l, inject_Z_plus.
    change (inject_Z 1) with 1%Q.
    destruct (Qlt_le_dec m x) as [Hlt|Hge]; (split; [lra|]);
      intros Hin; apply elem_of_cons in Hin as [->|Hin];
      try (specialize (IH2 Hin)); lra.
Qed.

(** The "Revenue Percentile" card of a customer of the table lies in
    [0, 100): the customer's own Monetary value is never below itself. *)
Theorem revenue_percentile_range (monetary : list Q) (x : Q) :
  x ∈ monetary ->
  (0 <= revenue_percentile monetary x < 100)%Q.
Proof.
  intros Hin. unfold revenue_percentile.
  destruct (count_below_bounds monetary x) as [[H0 Hn] Hx]. specialize (Hx Hin).
  set (c := fold_right Qplus 0 _) in *.
  set (n := inject_Z (Z.of_nat (List.length monetary))) in *.
  assert (Hpos : (0 < n)%Q) by lra.
  assert (Hq0 : (0 <= c / n)%Q) by (apply Qle_shift_div_l; lra).
  assert (Hq1 : (c / n < 1)%Q) by (apply Qlt_shift_div_r; lra).
  set (t := c / n) in *. lra.
Qed.

Lemma revenue_percentile_range_witness :
  (2%Q ∈ [1%Q; 2%Q; 3%Q]) /\ (0 <= revenue_percentile [1%Q; 2%Q; 3%Q] 2 < 100)%Q.
Proof.
  assert (H : 2%Q ∈ [1%Q; 2%Q; 3%Q]).
  { apply elem_of_cons. right. apply list_elem_of_here. }
  split; [exact H|]. exact (revenue_percentile_range _ _ H).
Defined.

End RevenueKPIProofs.

(* ================================================================== *)
(** ** Further properties of [DeliveryFeatureEngineer.transform] *)
(* ================================================================== *)

Module FeaturesExtra.
Import Features FeaturesProofs.

Lemma add_col_elem (cols : list string) (d c : string) :
  c ∈ add_col cols d <-> c = d \/ c ∈ cols.
Proof.
  unfold add_col, has_col. case_bool_decide as H.
  - split; [by right|intros [->|Hc]; assumption].
  - rewrite elem_of_app, list_elem_of_singleton. tauto.
Qed.

Lemma foldl_add_col_elem (cols ds : list string) (c : string) :
  c ∈ foldl add_col cols ds <-> c ∈ cols \/ c ∈ ds.
Proof.
  revert cols. induction ds as [|d ds IH]; intros cols; cbn [foldl].
  - split; [by left|intros [H|H]; [exact H|by apply not_elem_of_nil in H]].
  - rewrite IH, add_col_elem, elem_of_cons. tauto.
Qed.

Lemma has_col_prop (c : string) (cols : list string) :
  has_col c cols = true <-> c ∈ cols.
Proof. unfold has_col. apply bool_decide_eq_true. Qed.

Lemma create_target_columns (pt : string -> option Z) (X : in_frame) (c : string) :
  c ∈ columns (create_target (parse_datetimes pt X)) <->
  c ∈ columns X \/
  (c = TARGET_COLUMN /\ "order_delivered_customer_date" ∈ columns X /\
   "order_estimated_delivery_date" ∈ columns X).
Proof.
  unfold create_target, parse_datetimes. cbn [columns].
  destruct (has_col "order_delivered_customer_date" (columns X)) eqn:Hd;
  destruct (has_col "order_estimated_delivery_date" (columns X)) eqn:He;
  cbn [andb columns]; [rewrite add_col_elem; apply has_col_prop in Hd, He; tauto|..];
  (split; [by left|intros [H|[_ [H1 H2]]]; [exact H|]]);
  apply has_col_prop in H1, H2; congruence.
Qed.

Lemma transform_some (pt : string -> option Z) (cfg : config) (X : in_frame)
    (cols : list string) (out : list out_row) :
  transform pt cfg X = Some (cols, out) ->
  get_final_dataset
    (foldl add_col (columns (create_target (parse_datetimes pt X)))
       ["purchase_hour"; "purchase_dayofweek"; "purchase_month";
        "approval_delay_hours"; "carrier_delay_hours"; "estimated_delivery_days"])
    (clean_data cfg (map time_features_row (rows (create_target (parse_datetimes pt X)))))
  = Some (cols, out).
Proof.
  intros Ht. unfold transform in Ht.
  set (f := create_target (parse_datetimes pt X)) in *.
  destruct (create_time_features cfg f) as [[cols6 ws]|] eqn:Hctf; [|discriminate].
  cbn in Ht. unfold create_time_features in Hctf.
  destruct (_ && _) in Hctf; [|discriminate]. injection Hctf as <- <-. exact Ht.
Qed.

Lemma get_final_dataset_some (cols6 : list string) (ws : list work_row)
    (cols : list string) (out : list out_row) :
  get_final_dataset cols6 ws = Some (cols, out) ->
  (cols = FEATURE_COLUMNS /\ TARGET_COLUMN ∉ cols6 \/
   cols = (FEATURE_COLUMNS ++ [TARGET_COLUMN])%list /\ TARGET_COLUMN ∈ cols6) /\
  (forall c, c ∈ cols -> c ∈ cols6) /\ out = map final_row ws.
Proof.
  unfold get_final_dataset.
  destruct (has_col TARGET_COLUMN cols6) eqn:HT;
  destruct (forallb _ _) eqn:Hall; try discriminate; intros [= <- <-];
  rewrite forallb_forall in Hall;
  (split; [|split; [|reflexivity]]).
  - right. split; [reflexivity|by apply has_col_prop].
  - intros c Hc. apply has_col_prop, Hall, list_elem_of_In, Hc.
  - left. split; [reflexivity|]. intros Hin. apply has_col_prop in Hin. congruence.
  - intros c Hc. apply has_col_prop, Hall, list_elem_of_In, Hc.
Qed.

Lemma not_computed (c : string) :
  c ∈ ["total_payment_value"; "payment_installments"; "customer_state"; TARGET_COLUMN] ->
  c ∉ ["purchase_hour"; "purchase_dayofweek"; "purchase_month";
       "approval_delay_hours"; "carrier_delay_hours"; "estimated_delivery_days"].
Proof.
  intros Hc. repeat (apply elem_of_cons in Hc as [->|Hc]);
    [..|by apply not_elem_of_nil in Hc];
    apply (bool_decide_eq_false_1 (_ ∈ _)); vm_compute; reflexivity.
Qed.

(** [transform] returns exactly the nine feature columns, followed by
    [is_delayed] when [X] already has that column or has both the delivered
    and the estimated dates (so the leakage column [total_delivery_days] is
    never returned). It succeeds only if [X] already has
    [total_payment_value], [payment_installments] and [customer_state]:
    [transform] does not call [merge_additional_data]. *)
Theorem transform_columns (pt : string -> option Z) (cfg : config) (X : in_frame)
    (cols : list string) (out : list out_row) :
  transform pt cfg X = Some (cols, out) ->
  (cols = FEATURE_COLUMNS \/ cols = (FEATURE_COLUMNS ++ [TARGET_COLUMN])%list) /\
  (TARGET_COLUMN ∈ cols <->
   TARGET_COLUMN ∈ columns X \/
   ("order_delivered_customer_date" ∈ columns X /\
    "order_estimated_delivery_date" ∈ columns X)) /\
  "total_payment_value" ∈ columns X /\ "payment_installments" ∈ columns X /\
  "customer_state" ∈ columns X.
Proof.
  intros Ht. apply transform_some, get_final_dataset_some in Ht as [Hc [Hsub _]].
  set (cols6 := foldl add_col _ _) in *.
  assert (Hkept : forall c,
    c ∈ ["total_payment_value"; "payment_installments"; "customer_state"; TARGET_COLUMN] ->
    c ∈ cols6 <-> c ∈ columns X \/
      (c = TARGET_COLUMN /\ "order_delivered_customer_date" ∈ columns X /\
       "order_estimated_delivery_date" ∈ columns X)).
  { intros c Hin. unfold cols6. rewrite foldl_add_col_elem, create_target_columns.
    pose proof (not_computed c Hin). tauto. }
  assert (Hfeat : forall c, c ∈ FEATURE_COLUMNS -> c ∈ cols).
  { intros c Hin. destruct Hc as [[-> _]|[-> _]]; [exact Hin|].
    apply elem_of_app. by left. }
  assert (Hmerged : forall c,
    c ∈ ["total_payment_value"; "payment_installments"; "customer_state"] ->
    c ∈ FEATURE_COLUMNS /\
    c ∈ ["total_payment_value"; "payment_installments"; "customer_state"; TARGET_COLUMN] /\
    c <> TARGET_COLUMN).
  { intros c Hin. repeat (apply elem_of_cons in Hin as [->|Hin]);
      [..|by apply not_elem_of_nil in Hin];
      (split; [apply (bool_decide_eq_true_1 (_ ∈ _)); vm_compute; reflexivity|]);
      (split; [apply (bool_decide_eq_true_1 (_ ∈ _)); vm_compute; reflexivity|discriminate]). }
  assert (Hx : forall c,
    c ∈ ["total_payment_value"; "payment_installments"; "customer_state"] -> c ∈ columns X).
  { intros c Hin. destruct (Hmerged c Hin) as [HF [HK HT]].
    apply Hfeat, Hsub, (Hkept c HK) in HF as [H|[H _]]; [exact H|contradiction]. }
  split; [destruct Hc as [[-> _]|[-> _]]; [by left|by right]|].
  split.
  - assert (HTk : TARGET_COLUMN ∈
      ["total_payment_value"; "payment_installments"; "customer_state"; TARGET_COLUMN])
      by (apply (bool_decide_eq_true_1 (_ ∈ _)); vm_compute; reflexivity).
    assert (HT6 : TARGET_COLUMN ∈ cols6 <->
      TARGET_COLUMN ∈ columns X \/
      ("order_delivered_customer_date" ∈ columns X /\
       "order_estimated_delivery_date" ∈ columns X))
      by (rewrite (Hkept _ HTk); tauto).
    rewrite <- HT6. destruct Hc as [[-> HnT]|[-> HT]].
    + split; [|tauto]. intros Hin.
      exfalso. revert Hin. apply (bool_decide_eq_false_1 (_ ∈ _)). vm_compute. reflexivity.
    + split; [intros _; exact HT|intros _; apply elem_of_app; right; apply list_elem_of_here].
  - split; [apply Hx; apply list_elem_of_here|].
    split; apply Hx; repeat constructor.
Qed.

Lemma delivered_kept (pt : string -> option Z) (X : in_frame) :
  has_col "order_delivered_customer_date" (columns (create_target (parse_datetimes pt X))) =
  has_col "order_delivered_customer_date" (columns X).
Proof.
  unfold has_col. apply bool_decide_ext. rewrite create_target_columns.
  split; [intros [H|[H _]]; [exact H|discriminate]|by left].
Qed.

(** [predict_before_delivery] never changes the dataset [transform]
    returns: it only decides whether a frame without
    [order_delivered_customer_date] fails (the [KeyError] of
    [total_delivery_days]). Two configurations with the same three bounds
    give the same result whenever neither of them fails that way. *)
Theorem transform_predict_flag (pt : string -> option Z) (cfg1 cfg2 : config) (X : in_frame) :
  max_approval_hours cfg1 = max_approval_hours cfg2 ->
  max_carrier_hours cfg1 = max_carrier_hours cfg2 ->
  max_delivery_days cfg1 = max_delivery_days cfg2 ->
  (predict_before_delivery cfg1 = false ->
   "order_delivered_customer_date" ∉ columns X -> transform pt cfg1 X = None) /\
  ((predict_before_delivery cfg1 = true \/ "order_delivered_customer_date" ∈ columns X) ->
   (predict_before_delivery cfg2 = true \/ "order_delivered_customer_date" ∈ columns X) ->
   transform pt cfg1 X = transform pt cfg2 X).
Proof.
  intros Ha Hc Hd. pose proof (delivered_kept pt X) as Hdel.
  unfold transform, create_time_features. rewrite Hdel. split.
  - intros Hp Hn. rewrite Hp.
    assert (Hf : has_col "order_delivered_customer_date" (columns X) = false)
      by (apply bool_decide_eq_false_2; exact Hn).
    rewrite Hf. cbn [orb]. rewrite andb_false_r. reflexivity.
  - intros H1 H2.
    assert (E1 : (predict_before_delivery cfg1
                  || has_col "order_delivered_customer_date" (columns X)) = true).
    { destruct H1 as [H1|H1]; [by rewrite H1|].
      apply orb_true_intro. right. by apply has_col_prop. }
    assert (E2 : (predict_before_delivery cfg2
                  || has_col "order_delivered_customer_date" (columns X)) = true).
    { destruct H2 as [H2|H2]; [by rewrite H2|].
      apply orb_true_intro. right. by apply has_col_prop. }
    rewrite E1, E2. unfold clean_data. rewrite Ha, Hc, Hd. reflexivity.
Qed.

Lemma between_true (v : option Q) (hi : Z) :
  between v hi = true -> exists x, v = Some x /\ (0 <= x <= inject_Z hi)%Q.
Proof.
  destruct v as [x|]; cbn; [|discriminate].
  intros H. apply andb_true_iff in H as [H1 H2]. apply Qle_bool_iff in H1, H2.
  by exists x.
Qed.

Lemma transform_out_elem (pt : string -> option Z) (cfg : config) (X : in_frame)
    (cols : list string) (out : list out_row) (o : out_row) :
  transform pt cfg X = Some (cols, out) -> o ∈ out ->
  exists r, o = final_row (time_features_row r) /\
    between (span (order_purchase_timestamp r) (order_approved_at r) 3600)
            (max_approval_hours cfg) = true /\
    between (span (order_approved_at r) (order_delivered_carrier_date r) 3600)
            (max_carrier_hours cfg) = true /\
    between (span (order_purchase_timestamp r) (order_estimated_delivery_date r) (3600 * 24))
            (max_delivery_days cfg) = true.
Proof.
  intros Ht Ho. apply transform_some, get_final_dataset_some in Ht as [_ [_ ->]].
  apply list_elem_of_In, in_map_iff in Ho as [w [<- Hw]].
  apply list_elem_of_In in Hw. unfold clean_data in Hw.
  apply list_elem_of_filter in Hw as [Hb Hw].
  apply list_elem_of_In, in_map_iff in Hw as [r [<- _]].
  exists r. split; [reflexivity|].
  cbn [time_features_row w_approval_delay_hours w_carrier_delay_hours
       w_estimated_delivery_days] in Hb.
  destruct (between _ (max_approval_hours cfg)), (between _ (max_carrier_hours cfg)),
    (between _ (max_delivery_days cfg)); cbn in Hb; try contradiction; auto.
Qed.

(** [_clean_data] leaves no missing or out-of-range delay: every returned row
    has its approval delay, carrier delay and estimated delivery days, each
    between 0 and the configured bound, inclusive. *)
Theorem transform_delay_bounds (pt : string -> option Z) (cfg : config) (X : in_frame)
    (cols : list string) (out : list out_row) :
  transform pt cfg X = Some (cols, out) ->
  forall o, o ∈ out ->
  (exists a, o_approval_delay_hours o = Some a /\
             0 <= a <= inject_Z (max_approval_hours cfg))%Q /\
  (exists c, o_carrier_delay_hours o = Some c /\
             0 <= c <= inject_Z (max_carrier_hours cfg))%Q /\
  (exists e, o_estimated_delivery_days o = Some e /\
             0 <= e <= inject_Z (max_delivery_days cfg))%Q.
Proof.
  intros Ht o Ho.
  destruct (transform_out_elem pt cfg X cols out o Ht Ho) as [r [-> [Ha [Hc He]]]].
  cbn [final_row time_features_row o_approval_delay_hours o_carrier_delay_hours
       o_estimated_delivery_days w_approval_delay_hours w_carrier_delay_hours
       w_estimated_delivery_days].
  split; [|split]; apply between_true; assumption.
Qed.

Lemma dt_month_doe (t : Z) :
  dt_month t = month_of_doe ((t / 86400 + 719468) mod 146097).
Proof.
  unfold dt_month, month_of_doe. cbv zeta.
  set (z := (t / 86400 + 719468)%Z).
  replace (z - z / 146097 * 146097)%Z with (z mod 146097)%Z
    by (rewrite Z.mod_eq by lia; ring).
  reflexivity.
Qed.

Lemma months_ok_spec (n : nat) (d : Z) :
  months_ok n d = true ->
  forall k, (d <= k < d + Z.of_nat n)%Z -> (1 <= month_of_doe k <= 12)%Z.
Proof.
  revert d. induction n as [|n IH]; intros d H k Hk; [lia|].
  cbn [months_ok] in H. apply andb_true_iff in H as [H Hn].
  apply andb_true_iff in H as [H1 H2]. apply Z.leb_le in H1, H2.
  destruct (Z.eq_dec k d) as [->|Hne]; [lia|].
  apply (IH (d + 1)%Z Hn). lia.
Qed.

Lemma dt_month_range (t : Z) : (1 <= dt_month t <= 12)%Z.
Proof.
  rewrite dt_month_doe.
  apply (months_ok_spec (Z.to_nat 146097) 0); [vm_compute; reflexivity|].
  pose proof (Z.mod_pos_bound (t / 86400 + 719468) 146097 ltac:(lia)). lia.
Qed.

(** The calendar features are never missing in the returned dataset (a row
    whose purchase time is NaT has no approval delay, so [_clean_data]
    drops it) and lie in their ranges: hour 0-23, day of week 0-6, month
    1-12. *)
Theorem transform_calendar_features (pt : string -> option Z) (cfg : config) (X : in_frame)
    (cols : list string) (out : list out_row) :
  transform pt cfg X = Some (cols, out) ->
  forall o, o ∈ out ->
  exists h d m,
    o_purchase_hour o = Some h /\ (0 <= h <= 23)%Z /\
    o_purchase_dayofweek o = Some d /\ (0 <= d <= 6)%Z /\
    o_purchase_month o = Some m /\ (1 <= m <= 12)%Z.
Proof.
  intros Ht o Ho.
  destruct (transform_out_elem pt cfg X cols out o Ht Ho) as [r [-> [Ha _]]].
  destruct (between_true _ _ Ha) as [a [Hs _]].
  unfold span in Hs.
  destruct (dt_of (order_purchase_timestamp r)) as [t|] eqn:Ept; [|discriminate].
  cbn [final_row time_features_row o_purchase_hour o_purchase_dayofweek
       o_purchase_month w_purchase_hour w_purchase_dayofweek w_purchase_month].
  rewrite Ept. cbn.
  exists (dt_hour t), (dt_dayofweek t), (dt_month t).
  split; [reflexivity|]. split.
  { unfold dt_hour. pose proof (Z.mod_pos_bound t 86400 ltac:(lia)).
    split; [apply Z.div_pos; lia|]. apply Z.lt_succ_r, Z.div_lt_upper_bound; lia. }
  split; [reflexivity|]. split.
  { unfold dt_dayofweek. pose proof (Z.mod_pos_bound (t / 86400 + 3) 7 ltac:(lia)). lia. }
  split; [reflexivity|]. apply dt_month_range.
Qed.

(** The source row of a step: same index label and same merged columns. *)
Lemma create_target_keeps (pt : string -> option Z) (X : in_frame) :
  exists S, S `sublist_of` rows X /\
    Forall2 (fun x y => index y = index x /\
                        total_payment_value y = total_payment_value x /\
                        payment_installments y = payment_installments x /\
                        customer_state y = customer_state x)
      S (rows (create_target (parse_datetimes pt X))).
Proof.
  unfold create_target, parse_datetimes. cbn [columns rows].
  destruct (_ && _); cbn [rows].
  - destruct (omap_map_sublist (parse_row pt (columns X)) target_row (rows X))
      as [S [HS HF]].
    exists S. split; [exact HS|].
    eapply Forall2_impl; [exact HF|]. intros x y Hxy.
    unfold target_row in Hxy.
    remember (parse_row pt (columns X) x) as px eqn:Hpx.
    destruct (dt_of (order_delivered_customer_date px)); cbn in Hxy; [|discriminate].
    destruct (dt_of (order_estimated_delivery_date px)); cbn in Hxy; [|discriminate].
    injection Hxy as <-. subst px. cbn. auto.
  - exists (rows X). split; [reflexivity|].
    induction (rows X) as [|x l IH]; constructor; [cbn; auto|exact IH].
Qed.

(** The merged columns pass through [transform] unchanged: the returned rows
    come, in order and without repetition, from rows of [X], each keeping its
    index label, [total_payment_value], [payment_installments] and
    [customer_state]. *)
Theorem transform_passthrough (pt : string -> option Z) (cfg : config) (X : in_frame)
    (cols : list string) (out : list out_row) :
  transform pt cfg X = Some (cols, out) ->
  exists S, S `sublist_of` rows X /\
    Forall2 (fun x o => o_index o = index x /\
                        o_total_payment_value o = total_payment_value x /\
                        o_payment_installments o = payment_installments x /\
                        o_customer_state o = customer_state x) S out.
Proof.
  intros Ht. apply transform_some, get_final_dataset_some in Ht as [_ [_ ->]].
  destruct (create_target_keeps pt X) as [S [HS HF]].
  pose proof (Forall2_map_r _ time_features_row _ _ HF) as HF1.
  destruct (Forall2_sublist_r _ _ _ _ HF1 (clean_data_sublist cfg _)) as [S' [HS' HF2]].
  exists S'. split; [etransitivity; eassumption|].
  pose proof (Forall2_map_r _ final_row _ _ HF2) as HF3.
  eapply Forall2_impl; [exact HF3|].
  intros x o [w [[y [Hy ->]] ->]]. exact Hy.
Qed.

Lemma transform_columns_witness :
  match transform no_text_dates default_config sample_frame with
  | Some (cols, out) =>
      (cols = FEATURE_COLUMNS \/ cols = (FEATURE_COLUMNS ++ [TARGET_COLUMN])%list) /\
      "total_payment_value" ∈ columns sample_frame
  | None => False
  end.
Proof.
  destruct (transform no_text_dates default_config sample_frame) as [[cols out]|] eqn:Ht.
  - destruct (transform_columns no_text_dates default_config sample_frame cols out Ht)
      as [Hc [_ [Hp _]]].
    split; [exact Hc|exact Hp].
  - vm_compute in Ht. discriminate.
Defined.

Lemma transform_predict_flag_witness :
  transform no_text_dates default_config sample_frame =
  transform no_text_dates
    {| predict_before_delivery := false; max_approval_hours := 168;
       max_carrier_hours := 720; max_delivery_days := 60 |} sample_frame.
Proof.
  apply (proj2 (transform_predict_flag no_text_dates default_config
                  {| predict_before_delivery := false; max_approval_hours := 168;
                     max_carrier_hours := 720; max_delivery_days := 60 |} sample_frame
                  eq_refl eq_refl eq_refl)).
  - left. reflexivity.
  - right. apply (bool_decide_eq_true_1 (_ ∈ _)). vm_compute. reflexivity.
Defined.

Lemma transform_delay_bounds_witness :
  match transform no_text_dates default_config sample_frame with
  | Some (cols, out) =>
      List.length out = 2%nat /\
      forall o, o ∈ out ->
      (exists a, o_approval_delay_hours o = Some a /\ 0 <= a <= inject_Z 168)%Q
  | None => False
  end.
Proof.
  destruct (transform no_text_dates default_config sample_frame) as [[cols out]|] eqn:Ht.
  - split; [vm_compute in Ht; injection Ht as _ <-; reflexivity|].
    intros o Ho.
    exact (proj1 (transform_delay_bounds no_text_dates default_config sample_frame
                    cols out Ht o Ho)).
  - vm_compute in Ht. discriminate.
Defined.

Lemma transform_calendar_features_witness :
  match transform no_text_dates default_config sample_frame with
  | Some (cols, out) =>
      List.length out = 2%nat /\
      forall o, o ∈ out -> exists h d m,
        o_purchase_hour o = Some h /\ (0 <= h <= 23)%Z /\
        o_purchase_dayofweek o = Some d /\ (0 <= d <= 6)%Z /\
        o_purchase_month o = Some m /\ (1 <= m <= 12)%Z
  | None => False
  end.
Proof.
  destruct (transform no_text_dates default_config sample_frame) as [[cols out]|] eqn:Ht.
  - split; [vm_compute in Ht; injection Ht as _ <-; reflexivity|].
    exact (transform_calendar_features no_text_dates default_config sample_frame cols out Ht).
  - vm_compute in Ht. discriminate.
Defined.

Lemma transform_passthrough_witness :
  match transform no_text_dates default_config sample_frame with
  | Some (cols, out) =>
      List.length out = 2%nat /\
      exists S, S `sublist_of` rows sample_frame /\
        Forall2 (fun x o => o_index o = index x /\
                            o_total_payment_value o = total_payment_value x /\
                            o_payment_installments o = payment_installments x /\
                            o_customer_state o = customer_state x) S out
  | None => False
  end.
Proof.
  destruct (transform no_text_dates default_config sample_frame) as [[cols out]|] eqn:Ht.
  - split; [vm_compute in Ht; injection Ht as _ <-; reflexivity|].
    exact (transform_passthrough no_text_dates default_config sample_frame cols out Ht).
  - vm_compute in Ht. discriminate.
Defined.

End FeaturesExtra.

(* ================================================================== *)
(** ** Further properties of [RFMSegmenter.build_rfm], for any tables *)
(* ================================================================== *)

Module RFMExtra.
Import RFM RFMProofs.
Local Open Scope Z_scope.

Lemma merge_payments_elem (os : list order) (agg : list (string * Q)) (o : order) (pv : option Q) :
  (o, pv) ∈ merge_payments os agg ->
  o ∈ os /\ (pv = None \/ exists kv, kv ∈ agg /\ pv = Some kv.2).
Proof.
  unfold merge_payments. rewrite list_elem_of_In, in_flat_map.
  intros [o' [Ho' Hin]].
  destruct (filter (fun kv => kv.1 = order_id o') agg) as [|kv0 ms] eqn:E.
  - destruct Hin as [[= -> ->]|[]]. split; [by apply list_elem_of_In|by left].
  - apply in_map_iff in Hin as [kv [Heq Hkv]]. injection Heq as <- <-.
    split; [by apply list_elem_of_In|]. right. exists kv. split; [|reflexivity].
    apply list_elem_of_In in Hkv. rewrite <- E in Hkv.
    by apply list_elem_of_filter in Hkv as [_ Hkv].
Qed.

Lemma merge_payments_cover (os : list order) (agg : list (string * Q)) (o : order) :
  o ∈ os -> exists pv, (o, pv) ∈ merge_payments os agg.
Proof.
  intros Ho. unfold merge_payments.
  destruct (filter (fun kv => kv.1 = order_id o) agg) as [|kv0 ms] eqn:E.
  - exists None. apply list_elem_of_In, in_flat_map. exists o.
    split; [by apply list_elem_of_In|]. rewrite E. by left.
  - exists (Some kv0.2). apply list_elem_of_In, in_flat_map. exists o.
    split; [by apply list_elem_of_In|]. rewrite E. by left.
Qed.

Lemma merge_customers_elem (rows : list (order * option Q)) (cs : list customer) (row : df_row) :
  row ∈ merge_customers rows cs ->
  (df_order row, df_payment_value row) ∈ rows /\
  (df_customer_unique_id row = None \/
   exists c, c ∈ cs /\ cust_customer_id c = customer_id (df_order row) /\
             df_customer_unique_id row = Some (customer_unique_id c)).
Proof.
  unfold merge_customers. rewrite list_elem_of_In, in_flat_map.
  intros [[o pv] [Hx Hin]].
  destruct (filter (fun c => cust_customer_id c = customer_id o) cs) as [|c0 ms] eqn:E.
  - destruct Hin as [<-|[]]. cbn. split; [by apply list_elem_of_In|by left].
  - apply in_map_iff in Hin as [c [<- Hc]]. cbn.
    split; [by apply list_elem_of_In|]. right. exists c.
    apply list_elem_of_In in Hc. rewrite <- E in Hc.
    apply list_elem_of_filter in Hc as [Hcid Hc]. auto.
Qed.

Lemma merge_customers_cover (rows : list (order * option Q)) (cs : list customer)
    (o : order) (pv : option Q) (c : customer) :
  (o, pv) ∈ rows -> c ∈ cs -> cust_customer_id c = customer_id o ->
  {| df_order := o; df_payment_value := pv;
     df_customer_unique_id := Some (customer_unique_id c) |} ∈ merge_customers rows cs.
Proof.
  intros Hx Hc Hcid. unfold merge_customers.
  apply list_elem_of_In, in_flat_map. exists (o, pv). split; [by apply list_elem_of_In|].
  assert (Hf : c ∈ filter (fun c => cust_customer_id c = customer_id o) cs)
    by (apply list_elem_of_filter; auto).
  destruct (filter (fun c => cust_customer_id c = customer_id o) cs) as [|c0 ms] eqn:E.
  - by apply not_elem_of_nil in Hf.
  - apply in_map_iff. exists c. split; [reflexivity|]. by apply list_elem_of_In.
Qed.

Lemma nansum_nonneg (xs : list (option Q)) :
  (forall v, Some v ∈ xs -> (0 <= v)%Q) -> (0 <= nansum xs)%Q.
Proof.
  unfold nansum. induction xs as [|[v|] xs IH]; intros H; cbn; [lra| |].
  - assert (Hv : (0 <= v)%Q) by (apply H; apply list_elem_of_here).
    assert (Hr : (0 <= fold_right Qplus 0 (omap id xs))%Q)
      by (apply IH; intros w Hw; apply H; by right).
    lra.
  - apply IH. intros w Hw. apply H. by right.
Qed.

Lemma payments_agg_nonneg (ps : list payment) (kv : string * Q) :
  (forall p, p ∈ ps -> (0 <= payment_value p)%Q) -> kv ∈ payments_agg ps -> (0 <= kv.2)%Q.
Proof.
  intros Hps Hkv. unfold payments_agg in Hkv.
  apply list_elem_of_In, in_map_iff in Hkv as [oid [<- _]]. cbn.
  apply nansum_nonneg. intros v Hv.
  apply list_elem_of_In, in_map_iff in Hv as [p [[= <-] Hp]].
  apply list_elem_of_In, list_elem_of_filter in Hp as [_ Hp]. by apply Hps.
Qed.

Lemma build_rfm_keys (os : list order) (ps : list payment) (cs : list customer) :
  map rfm_customer_unique_id (build_rfm os ps cs) =
  group_keys (omap df_customer_unique_id
                (merge_customers (merge_payments os (payments_agg ps)) cs)).
Proof. unfold build_rfm. cbv zeta. rewrite map_map. cbn. apply map_id. Qed.

(** [build_rfm] has one row per [customer_unique_id], and a unique id has a
    row exactly when some order's [customer_id] matches a customer with that
    unique id: orders of unknown customers are dropped by [groupby], and no
    table needs unique keys for this. *)
Theorem build_rfm_customers (os : list order) (ps : list payment) (cs : list customer) :
  NoDup (map rfm_customer_unique_id (build_rfm os ps cs)) /\
  forall u, u ∈ map rfm_customer_unique_id (build_rfm os ps cs) <->
    exists o c, o ∈ os /\ c ∈ cs /\ cust_customer_id c = customer_id o /\
                customer_unique_id c = u.
Proof.
  rewrite build_rfm_keys. split; [apply NoDup_remove_dups|]. intros u.
  unfold group_keys. rewrite elem_of_remove_dups, list_elem_of_omap. split.
  - intros [row [Hrow Hid]].
    destruct (merge_customers_elem _ _ _ Hrow) as [Hx [Hn|[c [Hc [Hcid Hu]]]]];
      [congruence|].
    destruct (merge_payments_elem _ _ _ _ Hx) as [Ho _].
    exists (df_order row), c. rewrite Hid in Hu. injection Hu as <-. auto.
  - intros [o [c [Ho [Hc [Hcid <-]]]]].
    destruct (merge_payments_cover os (payments_agg ps) o Ho) as [pv Hx].
    eexists. split; [exact (merge_customers_cover _ _ o pv c Hx Hc Hcid)|reflexivity].
Qed.

(** Every row of [build_rfm] has a Recency of a whole number of days, at
    least 0 (the reference date is the latest purchase of all orders), and a
    Frequency of at least 1; its Monetary is at least 0 when no payment
    value is negative. *)
Theorem build_rfm_ranges (os : list order) (ps : list payment) (cs : list customer)
    (r : rfm_row) :
  r ∈ build_rfm os ps cs ->
  (exists d, Recency r = Some d /\ 0 <= d) /\ (1 <= Frequency r)%nat /\
  ((forall p, p ∈ ps -> (0 <= payment_value p)%Q) -> (0 <= Monetary r)%Q).
Proof.
  intros Hr. unfold build_rfm in Hr. cbv zeta in Hr.
  set (df := merge_customers (merge_payments os (payments_agg ps)) cs) in *.
  apply list_elem_of_In, in_map_iff in Hr as [u [<- Hu]].
  apply list_elem_of_In in Hu. unfold group_keys in Hu.
  apply elem_of_remove_dups, list_elem_of_omap in Hu as [row [Hrow Hid]].
  set (g := filter (fun r => df_customer_unique_id r = Some u) df).
  assert (Hg : row ∈ g) by (apply list_elem_of_filter; auto).
  assert (Hgdf : forall x, x ∈ g -> x ∈ df)
    by (intros x Hx; by apply list_elem_of_filter in Hx as [_ Hx]).
  cbn [Recency Frequency Monetary]. split; [|split].
  - destruct (ts_max_spec (map (fun r => order_purchase_timestamp (df_order r)) df))
      as [M [HM [_ HMup]]].
    { intros Hnil. apply map_eq_nil in Hnil. rewrite Hnil in Hrow.
      by apply not_elem_of_nil in Hrow. }
    destruct (ts_max_spec (map (fun r => order_purchase_timestamp (df_order r)) g))
      as [m [Hm [Hmin _]]].
    { intros Hnil. apply map_eq_nil in Hnil. fold g in Hnil. rewrite Hnil in Hg.
      by apply not_elem_of_nil in Hg. }
    fold g. rewrite HM, Hm. cbn. eexists. split; [reflexivity|].
    apply list_elem_of_In, in_map_iff in Hmin as [x [<- Hx]].
    apply list_elem_of_In, Hgdf in Hx.
    rewrite Forall_forall in HMup.
    assert (Hle : order_purchase_timestamp (df_order x) <= M).
    { apply HMup. apply list_elem_of_In, in_map_iff. exists x.
      split; [reflexivity|by apply list_elem_of_In]. }
    unfold timedelta_days. apply Z.div_pos; lia.
  - fold g.
    assert (Hin : order_id (df_order row) ∈
                  remove_dups (map (fun r => order_id (df_order r)) g)).
    { apply elem_of_remove_dups, list_elem_of_In, in_map_iff. exists row.
      split; [reflexivity|by apply list_elem_of_In]. }
    destruct (remove_dups _) as [|x l]; [by apply not_elem_of_nil in Hin|].
    cbn. lia.
  - intros Hps. fold g. apply nansum_nonneg. intros v Hv.
    apply list_elem_of_In, in_map_iff in Hv as [x [Hxv Hx]].
    apply list_elem_of_In, Hgdf in Hx.
    destruct (merge_customers_elem _ _ _ Hx) as [Hxp _].
    rewrite Hxv in Hxp.
    destruct (merge_payments_elem _ _ _ _ Hxp) as [_ [Hn|[kv [Hkv Hs]]]];
      [discriminate|].
    injection Hs as ->. exact (payments_agg_nonneg ps kv Hps Hkv).
Qed.

Lemma build_rfm_ranges_witness :
  Forall (fun r =>
    (exists d, Recency r = Some d /\ 0 <= d) /\ (1 <= Frequency r)%nat /\
    ((forall p, p ∈ sample_payments -> (0 <= payment_value p)%Q) -> (0 <= Monetary r)%Q))
    (build_rfm sample_orders sample_payments sample_customers) /\
  List.length (build_rfm sample_orders sample_payments sample_customers) = 2%nat.
Proof.
  split; [|vm_compute; reflexivity].
  apply Forall_forall. intros r Hr.
  exact (build_rfm_ranges sample_orders sample_payments sample_customers r Hr).
Defined.

End RFMExtra.

(* ================================================================== *)
(** ** Further properties of the monitoring dashboard *)
(* ================================================================== *)

Module DashboardExtra.

(** The run up to the prediction section when the resources load. *)
Lemma risk_assessment_loaded (e : Env) (fs : log_file) (r : Resources) :
  load_result e = inr r ->
  let F := feature_name_ (res_model r) in
  let x := reindex F (input_frame (inputs e)) in
  let sidebar := [Markdown "<style>"; Markdown "Delivery Risk Intelligence Platform"; Divider;
                  Markdown "## Configuration Panel"; Markdown "---";
                  Widget "Medium Risk Threshold"; Widget "High Risk Threshold";
                  Widget "Time Features"; Widget "Logistics Features";
                  Widget "Financial Features"] in
  (same_set (map fst (input_frame (inputs e))) F = false ->
   risk_assessment e (init_state fs) =
   (None, {| page := sidebar ++ [Error "Feature mismatch between dashboard and trained model."];
             log := fs |})%list) /\
  (same_set (map fst (input_frame (inputs e))) F = true ->
   predict_button (inputs e) = false ->
   risk_assessment e (init_state fs) =
   (Some None, {| page := sidebar ++ [Widget "Generate Risk Assessment"]; log := fs |})%list).
Proof.
  intros Hload F x sidebar.
  unfold risk_assessment, load_resources, prediction_section.
  rewrite Hload. cbv [mbind script_bind mret script_ret error_and_stop emit
    update_log read_log st_stop page log init_state].
  cbn [res_model res_explainer]. fold F x. split.
  - intros Hset. rewrite Hset. reflexivity.
  - intros Hset Hbtn. rewrite Hset, Hbtn. reflexivity.
Qed.

(** A run writes [logs/prediction_log.csv] only through [log_prediction],
    once, after a successful prediction: otherwise the file is left as it
    was (loading failure, schema mismatch, button not pressed, failed
    prediction, and whatever the monitoring section reads). *)
Theorem run_writes_only_predictions (e : Env) (fs : log_file) :
  log (run e fs).2 = fs \/
  exists r p,
    load_result e = inr r /\ predict_button (inputs e) = true /\
    same_set (map fst (input_frame (inputs e))) (feature_name_ (res_model r)) = true /\
    let x := reindex (feature_name_ (res_model r)) (input_frame (inputs e)) in
    predict_positive (res_model r) x = inr p /\
    log (run e fs).2 =
      log_prediction x p (risk_level p (medium_threshold (inputs e)) (high_threshold (inputs e)))
        (clock e) fs.
Proof.
  destruct (load_result e) as [err|r] eqn:Hload.
  - left. unfold run, dashboard, risk_assessment, load_resources. rewrite Hload.
    reflexivity.
  - destruct (risk_assessment_loaded e fs r Hload) as [Hbad Hidle].
    destruct (same_set (map fst (input_frame (inputs e))) (feature_name_ (res_model r)))
      eqn:Hset.
    2:{ left. fold (init_state fs). rewrite (run_halted e fs _ (Hbad eq_refl)). reflexivity. }
    destruct (predict_button (inputs e)) eqn:Hbtn.
    2:{ left. rewrite (run_log e fs _ _ (Hidle eq_refl eq_refl)). reflexivity. }
    destruct (risk_assessment_pressed e fs r Hload Hbtn Hset) as [Hfail Hok].
    destruct (predict_positive (res_model r)
                (reindex (feature_name_ (res_model r)) (input_frame (inputs e))))
      as [err|p] eqn:Hpred.
    + left. destruct (Hfail err eq_refl) as [pg Hra].
      rewrite (run_halted e fs _ Hra). reflexivity.
    + right. exists r, p. split; [reflexivity|]. split; [first [exact Hbtn|reflexivity]|].
      split; [first [exact Hset|reflexivity]|]. split; [first [exact Hpred|reflexivity]|].
      destruct (Hok p eq_refl) as [pg Hra]. rewrite (run_log e fs _ _ Hra). reflexivity.
Qed.

(** A model whose [feature_name_] is not, as a set, the eight input columns
    stops the run right after the sidebar with the mismatch error: no
    button, no prediction, no monitoring section, and the log file as it
    was. *)
Theorem schema_mismatch_halts (e : Env) (fs : log_file) (r : Resources) :
  load_result e = inr r ->
  same_set (map fst (input_frame (inputs e))) (feature_name_ (res_model r)) = false ->
  run e fs =
  (None, {| page := [Markdown "<style>"; Markdown "Delivery Risk Intelligence Platform";
                     Divider; Markdown "## Configuration Panel"; Markdown "---";
                     Widget "Medium Risk Threshold"; Widget "High Risk Threshold";
                     Widget "Time Features"; Widget "Logistics Features";
                     Widget "Financial Features";
                     Error "Feature mismatch between dashboard and trained model."];
            log := fs |}).
Proof.
  intros Hload Hset.
  apply run_halted. exact (proj1 (risk_assessment_loaded e fs r Hload) Hset).
Qed.

(** An existing but empty [logs/prediction_log.csv] makes [pd.read_csv]
    raise [EmptyDataError], which no handler catches: a run that makes no
    prediction halts right after the monitoring subheader, without the
    feature importance chart and the summary. *)
Theorem empty_log_halts (e : Env) (r : Resources) :
  load_result e = inr r ->
  same_set (map fst (input_frame (inputs e))) (feature_name_ (res_model r)) = true ->
  predict_button (inputs e) = false ->
  run e (Some []) =
  (None, {| page := [Markdown "<style>"; Markdown "Delivery Risk Intelligence Platform";
                     Divider; Markdown "## Configuration Panel"; Markdown "---";
                     Widget "Medium Risk Threshold"; Widget "High Risk Threshold";
                     Widget "Time Features"; Widget "Logistics Features";
                     Widget "Financial Features"; Widget "Generate Risk Assessment";
                     Divider; Subheader "Risk Monitoring Overview"];
            log := Some [] |}).
Proof.
  intros Hload Hset Hbtn.
  rewrite (run_continues e (Some []) _ _ (proj2 (risk_assessment_loaded e (Some []) r Hload)
                                               Hset Hbtn)).
  unfold footer_sections, monitoring_section. step_script. reflexivity.
Qed.

Lemma make_log_entry_fresh (x : frame) (p : Q) (l : string) (t : Z) :
  "probability" ∉ map fst x -> "risk_level" ∉ map fst x -> "timestamp" ∉ map fst x ->
  make_log_entry x p l t =
  (x ++ [("probability", CFloat p); ("risk_level", CStr l); ("timestamp", CTime t)])%list.
Proof.
  intros Hp Hr Ht. unfold make_log_entry.
  rewrite (set_col_fresh x "probability") by exact Hp.
  rewrite (set_col_fresh _ "risk_level").
  2:{ rewrite map_app. cbn [map fst]. rewrite elem_of_app, list_elem_of_singleton.
      intros [Hc|Hc]; [contradiction|discriminate]. }
  rewrite (set_col_fresh _ "timestamp").
  2:{ rewrite !map_app. cbn [map fst]. rewrite !elem_of_app, !list_elem_of_singleton.
      intros [[Hc|Hc]|Hc]; [contradiction|discriminate|discriminate]. }
  by rewrite <- !app_assoc.
Qed.

Section RoundTrip.
Variable H : list string.
Hypothesis H_prob : "probability" ∉ H.
Hypothesis H_level : "risk_level" ∉ H.
Hypothesis H_time : "timestamp" ∉ H.

(** The data line [log_prediction] writes for one call. *)
Let row_cells (en : frame * Q * string * Z) : list cell :=
  (map snd en.1.1.1 ++ [CFloat en.1.1.2; CStr en.1.2; CTime en.2])%list.

Lemma fold_log_some (es : list (frame * Q * string * Z)) (ls : list line) :
  (forall en, en ∈ es -> map fst en.1.1.1 = H) ->
  fold_left (fun fs en => log_prediction en.1.1.1 en.1.1.2 en.1.2 en.2 fs) es (Some ls) =
  Some (ls ++ map (fun en => Data (row_cells en)) es)%list.
Proof.
  revert ls. induction es as [|en es IH]; intros ls Hes; cbn [fold_left map].
  - by rewrite app_nil_r.
  - assert (Hen : map fst en.1.1.1 = H) by (apply Hes, list_elem_of_here).
    unfold log_prediction at 2. cbn [os_path_exists to_csv csv_lines app].
    rewrite make_log_entry_fresh by (rewrite Hen; assumption).
    rewrite IH by (intros en' Hen'; apply Hes; by right).
    rewrite <- app_assoc. cbn [app]. unfold row_cells. by rewrite map_app.
Qed.

Lemma fold_log_none (es : list (frame * Q * string * Z)) :
  es <> [] ->
  (forall en, en ∈ es -> map fst en.1.1.1 = H) ->
  fold_left (fun fs en => log_prediction en.1.1.1 en.1.1.2 en.1.2 en.2 fs) es None =
  Some (Header (H ++ ["probability"; "risk_level"; "timestamp"])
        :: map (fun en => Data (row_cells en)) es)%list.
Proof.
  destruct es as [|en es]; [congruence|]. intros _ Hes.
  assert (Hen : map fst en.1.1.1 = H) by (apply Hes, list_elem_of_here).
  cbn [fold_left]. unfold log_prediction at 2. cbn [os_path_exists to_csv csv_lines app].
  rewrite make_log_entry_fresh by (rewrite Hen; assumption).
  rewrite fold_log_some by (intros en' Hen'; apply Hes; by right).
  rewrite !map_app, Hen. cbn. reflexivity.
Qed.

Lemma index_of_app (c : string) (l : list string) :
  c ∉ H -> index_of c (H ++ l) = Nat.add (List.length H) <$> index_of c l.
Proof.
  clear H_prob H_level H_time. induction H as [|c' H' IH]; intros Hc.
  - cbn. by destruct (index_of c l).
  - cbn [app index_of List.length].
    destruct (String.eqb_spec c c') as [->|Hne]; [exfalso; apply Hc, list_elem_of_here|].
    rewrite IH by (intros Hin; apply Hc; by right).
    by destruct (index_of c l).
Qed.

Lemma row_cells_at (en : frame * Q * string * Z) (k : nat) :
  map fst en.1.1.1 = H ->
  row_cells en !! (List.length H + k)%nat = [CFloat en.1.1.2; CStr en.1.2; CTime en.2] !! k.
Proof.
  intros Hen. unfold row_cells.
  assert (Hl : List.length (map snd en.1.1.1) = List.length H)
    by (rewrite <- Hen, !length_map; reflexivity).
  rewrite lookup_app_r by lia. f_equal. lia.
Qed.

End RoundTrip.

Lemma omap_numeric_floats {A} (f : A -> Q) (l : list A) :
  omap numeric_value (map (fun a => CFloat (f a)) l) = map f l.
Proof. induction l as [|a l IH]; [reflexivity|]. cbn. by rewrite IH. Qed.

Lemma count_high {A} (f : A -> string) (l : list A) :
  List.length (filter is_high (map (fun a => CStr (f a)) l)) =
  List.length (filter (fun a => f a = "High") l).
Proof.
  induction l as [|a l IH]; [reflexivity|]. cbn [map]. rewrite !filter_cons.
  change (is_high (CStr (f a))) with (String.eqb (f a) "High").
  destruct (String.eqb_spec (f a) "High") as [Hh|Hh];
    repeat case_decide; cbn [List.length]; try contradiction; by rewrite IH.
Qed.

Lemma filter_keep {A} (P : A -> bool) (l : list A) :
  (forall a, a ∈ l -> P a = true) -> filter P l = l.
Proof.
  induction l as [|a l IH]; intros Hall; [reflexivity|]. rewrite filter_cons.
  assert (Ha : P a = true) by (apply Hall, list_elem_of_here).
  rewrite IH by (intros b Hb; apply Hall; by right).
  case_decide as Hd; [reflexivity|]. exfalso. apply Hd. by rewrite Ha.
Qed.

(** Round trip between the logger and the monitor: read back after [n]
    calls of [log_prediction] on frames with the same columns (none named
    like the three added ones), the monitoring section shows [n]
    predictions, the mean of the logged probabilities, the number of
    "High" levels, and the alert these give. *)
Theorem monitoring_reads_log (H : list string) (entries : list (frame * Q * string * Z))
    (high : Q) (s : St) :
  "probability" ∉ H -> "risk_level" ∉ H -> "timestamp" ∉ H ->
  entries <> [] ->
  (forall en, en ∈ entries -> map fst en.1.1.1 = H) ->
  log s = fold_left (fun fs en => log_prediction en.1.1.1 en.1.1.2 en.1.2 en.2 fs) entries None ->
  let n := List.length entries in
  let avg := (fold_right Qplus 0 (map (fun en => en.1.1.2) entries) / inject_Z (Z.of_nat n))%Q in
  let highs := List.length (filter (fun en => en.1.2 = "High") entries) in
  monitoring_section high s =
  (Some tt,
   {| page := (page s ++
        [Subheader "Risk Monitoring Overview";
         Metric "Total Predictions" (CInt (Z.of_nat n));
         Metric "Average Risk" (CFloat avg);
         Metric "High Risk Cases" (CInt (Z.of_nat highs));
         if Qlt_le_dec high avg then Error "System Alert: Average risk critically high."
         else if (3 <=? highs)%nat then Warning "Multiple high-risk cases detected."
         else Success "Monitoring stable.";
         Chart "Average Risk Trend (Per Minute)"])%list;
      log := log s |}).
Proof.
  intros Hp Hr Ht Hne Hes Hlog n avg highs.
  rewrite (fold_log_none H Hp Hr Ht entries Hne Hes) in Hlog.
  destruct s as [pg lg]. cbn [page log] in *. subst lg.
  set (hdr := (H ++ ["probability"; "risk_level"; "timestamp"])%list).
  set (rows := map (fun en : frame * Q * string * Z => (map snd en.1.1.1 ++
                              [CFloat en.1.1.2; CStr en.1.2; CTime en.2])%list) entries).
  assert (Hread : read_csv (Header hdr :: map (fun en : frame * Q * string * Z => Data (map snd en.1.1.1 ++
                              [CFloat en.1.1.2; CStr en.1.2; CTime en.2])%list) entries)
                  = Some (hdr, rows)).
  { assert (Hlen : forall r, In r rows -> List.length r = List.length hdr).
    { intros r Hrin. unfold rows in Hrin. apply in_map_iff in Hrin as [en [<- Hen]].
      apply list_elem_of_In, Hes in Hen. unfold hdr.
      rewrite !length_app, length_map, <- Hen, length_map. reflexivity. }
    assert (Hii : match rows with
                  | r :: _ => Nat.eqb (List.length r) (S (List.length hdr))
                  | [] => false end = false).
    { destruct rows as [|r rs]; [reflexivity|]. apply Nat.eqb_neq.
      rewrite (Hlen r (or_introl eq_refl)). lia. }
    assert (Hall : forallb (fun r => Nat.leb (List.length r) (List.length hdr)) rows = true).
    { apply forallb_forall. intros r Hrin. apply Nat.leb_le. rewrite (Hlen r Hrin). lia. }
    assert (Hrows : map line_cells (map (fun en : frame * Q * string * Z => Data (map snd en.1.1.1 ++
                              [CFloat en.1.1.2; CStr en.1.2; CTime en.2])%list) entries) = rows)
      by (unfold rows; rewrite map_map; reflexivity).
    unfold read_csv, file_rows. rewrite rows_of_plain.
    - cbn [map]. rewrite Hrows. change (line_cells (Header hdr)) with (map CStr hdr).
      replace (map cell_name (map CStr hdr)) with hdr by (rewrite map_map; symmetry; apply map_id).
      cbv zeta. rewrite Hii, Hall. reflexivity.
    - apply Forall_forall. intros l Hl. apply elem_of_cons in Hl as [->|Hl]; [reflexivity|].
      apply list_elem_of_In, in_map_iff in Hl as [en [<- _]]. reflexivity. }
  assert (Hidx : forall c k, c ∈ ["probability"; "risk_level"; "timestamp"] ->
             index_of c ["probability"; "risk_level"; "timestamp"] = Some k ->
             index_of c hdr = Some (List.length H + k)%nat).
  { intros c k Hc Hk. unfold hdr. rewrite index_of_app, Hk; [reflexivity|].
    intros HcH. repeat (apply elem_of_cons in Hc as [->|Hc]);
      [..|by apply not_elem_of_nil in Hc]; contradiction. }
  assert (Hrow : forall en k, en ∈ entries ->
             (map snd en.1.1.1 ++ [CFloat en.1.1.2; CStr en.1.2; CTime en.2])%list
               !! (List.length H + k)%nat
             = [CFloat en.1.1.2; CStr en.1.2; CTime en.2] !! k).
  { intros en k Hen. exact (row_cells_at H en k (Hes en Hen)). }
  assert (Hdrop : drop_bad_timestamps hdr rows = rows).
  { unfold drop_bad_timestamps.
    rewrite (Hidx "timestamp" 2%nat) by (repeat constructor || reflexivity).
    apply filter_keep. intros r Hr'. unfold rows in Hr'.
    apply list_elem_of_In, in_map_iff in Hr' as [en [<- Hen]].
    apply list_elem_of_In in Hen. rewrite Hrow by exact Hen. reflexivity. }
  assert (Hprob : column hdr "probability" rows =
                  Some (map (fun en => CFloat en.1.1.2) entries)).
  { unfold column. rewrite (Hidx "probability" 0%nat) by (repeat constructor || reflexivity).
    cbn [mbind option_bind]. f_equal. unfold rows. rewrite map_map.
    apply map_ext_in. intros en Hen. apply list_elem_of_In in Hen.
    rewrite Hrow by exact Hen. reflexivity. }
  assert (Hlev : column hdr "risk_level" rows = Some (map (fun en => CStr en.1.2) entries)).
  { unfold column. rewrite (Hidx "risk_level" 1%nat) by (repeat constructor || reflexivity).
    cbn [mbind option_bind]. f_equal. unfold rows. rewrite map_map.
    apply map_ext_in. intros en Hen. apply list_elem_of_In in Hen.
    rewrite Hrow by exact Hen. reflexivity. }
  assert (Hmean : mean (map (fun en => CFloat en.1.1.2) entries) = Some avg).
  { unfold mean. rewrite (omap_numeric_floats (fun en => en.1.1.2)).
    destruct entries as [|en0 es]; [congruence|].
    unfold avg, n. cbn [map List.length]. by rewrite length_map. }
  assert (Hrows_ne : rows <> []).
  { unfold rows. destruct entries; [congruence|]. discriminate. }
  assert (Hts : "timestamp" ∈ hdr).
  { unfold hdr. apply elem_of_app. right. repeat constructor. }
  assert (Hlen : List.length rows = n) by (unfold rows, n; apply length_map).
  unfold monitoring_section.
  cbv [mbind script_bind emit read_log]. cbn [page log].
  rewrite Hread, (bool_decide_eq_true_2 _ Hrows_ne), (bool_decide_eq_true_2 _ Hts).
  cbn [andb]. rewrite Hdrop, Hprob, Hlev, Hmean, Hlen.
  rewrite (count_high (fun en : frame * Q * string * Z => en.1.2)). fold highs.
  cbn. by rewrite <- !app_assoc.
Qed.

(** Witnesses *)

Lemma schema_mismatch_halts_witness :
  load_result Samples.env_mismatch = inr Samples.resources_mismatch /\
  same_set (map fst (input_frame (inputs Samples.env_mismatch)))
    (feature_name_ (res_model Samples.resources_mismatch)) = false /\
  run Samples.env_mismatch None =
  (None, {| page := [Markdown "<style>"; Markdown "Delivery Risk Intelligence Platform";
                     Divider; Markdown "## Configuration Panel"; Markdown "---";
                     Widget "Medium Risk Threshold"; Widget "High Risk Threshold";
                     Widget "Time Features"; Widget "Logistics Features";
                     Widget "Financial Features";
                     Error "Feature mismatch between dashboard and trained model."];
            log := None |}).
Proof.
  split; [reflexivity|]. split; [vm_compute; reflexivity|].
  apply (schema_mismatch_halts Samples.env_mismatch None Samples.resources_mismatch);
    [reflexivity | vm_compute; reflexivity].
Defined.

Lemma empty_log_halts_witness :
  load_result Samples.env_idle = inr (Samples.resources Samples.explainer_ok) /\
  same_set (map fst (input_frame (inputs Samples.env_idle)))
    (feature_name_ (res_model (Samples.resources Samples.explainer_ok))) = true /\
  predict_button (inputs Samples.env_idle) = false /\
  run Samples.env_idle (Some []) =
  (None, {| page := [Markdown "<style>"; Markdown "Delivery Risk Intelligence Platform";
                     Divider; Markdown "## Configuration Panel"; Markdown "---";
                     Widget "Medium Risk Threshold"; Widget "High Risk Threshold";
                     Widget "Time Features"; Widget "Logistics Features";
                     Widget "Financial Features"; Widget "Generate Risk Assessment";
                     Divider; Subheader "Risk Monitoring Overview"];
            log := Some [] |}).
Proof.
  split; [reflexivity|]. split; [vm_compute; reflexivity|]. split; [reflexivity|].
  apply (empty_log_halts Samples.env_idle (Samples.resources Samples.explainer_ok));
    [reflexivity | vm_compute; reflexivity | reflexivity].
Defined.

Lemma monitoring_reads_log_witness :
  let s := {| page := [];
              log := fold_left (fun fs en => log_prediction en.1.1.1 en.1.1.2 en.1.2 en.2 fs)
                       Samples.logged_entries None |} in
  Samples.logged_entries <> [] /\
  (forall en, en ∈ Samples.logged_entries -> map fst en.1.1.1 = ["purchase_hour"]) /\
  monitoring_section (6#10) s =
  (Some tt, {| page := [Subheader "Risk Monitoring Overview";
                        Metric "Total Predictions" (CInt 2);
                        Metric "Average Risk" (CFloat (120 # 200));
                        Metric "High Risk Cases" (CInt 1); Success "Monitoring stable.";
                        Chart "Average Risk Trend (Per Minute)"];
               log := log s |}).
Proof.
  intros s.
  assert (Hne : Samples.logged_entries <> []) by discriminate.
  assert (Hcols : forall en, en ∈ Samples.logged_entries -> map fst en.1.1.1 = ["purchase_hour"]).
  { intros en Hen. unfold Samples.logged_entries in Hen.
    repeat (apply elem_of_cons in Hen as [->|Hen]; [reflexivity|]).
    by apply not_elem_of_nil in Hen. }
  split; [exact Hne|]. split; [exact Hcols|].
  pose proof (monitoring_reads_log ["purchase_hour"] Samples.logged_entries (6#10) s
    ltac:(apply (bool_decide_eq_false_1 (_ ∈ _)); vm_compute; reflexivity)
    ltac:(apply (bool_decide_eq_false_1 (_ ∈ _)); vm_compute; reflexivity)
    ltac:(apply (bool_decide_eq_false_1 (_ ∈ _)); vm_compute; reflexivity)
    Hne Hcols eq_refl) as Hm.
  cbv zeta in Hm. rewrite Hm. vm_compute. reflexivity.
Defined.

End DashboardExtra.
